(** * TreeLifeSimulation: the physiological / mortality engine

    A shallow embedding of the single-tree simulation engine
    (js/prng.js, js/environment.js, js/config.js, js/tree.js and
    js/simulation.js) together with the earlier class-based [Tree]
    of js/tree.js, and the properties of the engine stated in the
    specification.

    Numbers.  A JavaScript Number is modelled by a real number: the
    arithmetic is exact, and IEEE rounding, infinities and NaN are outside
    the model.  The state of the generator is an integer; the bound proved
    for it shows that the double arithmetic of [random] is exact on it.

    State.  The engine works on the global objects [tree], [environment],
    [prngState], [simulationState] and [healthHistory]; they are the
    fields of [Global], and every function that reads or writes them takes
    the global state and returns the new one. *)

From Stdlib Require Import Reals Lra Lia ZArith List Bool String.
From Stdlib Require Import Zfloor.
Import ListNotations.

Open Scope R_scope.

(** ** JavaScript arithmetic used by the engine *)

Module JS.

Definition ltb (x y : R) : bool := if Rlt_dec x y then true else false.
Definition leb (x y : R) : bool := if Rle_dec x y then true else false.
Definition gtb (x y : R) : bool := ltb y x.
Definition geb (x y : R) : bool := leb y x.
Definition eqb (x y : R) : bool := if Req_dec_T x y then true else false.

(** [Math.min], [Math.max], [Math.floor], [Math.round]. *)
Definition Math_min (a b : R) : R := Rmin a b.
Definition Math_max (a b : R) : R := Rmax a b.
Definition Math_floor (x : R) : R := IZR (Zfloor x).
Definition Math_round (x : R) : R := IZR (Zfloor (x + 0.5)).

(** [Math.pow(x, y)] on the arguments for which the result is a finite
    number: a positive base, a zero base with a positive exponent, the
    exponent 0, and the square of any base.  (The other arguments give
    Infinity or NaN in JavaScript and are mapped to 0.) *)
Definition Math_pow (x y : R) : R :=
  if eqb y 0 then 1
  else if ltb 0 x then Rpower x y
  else if eqb y 2 then x * x
  else 0.

(** [a || d] on an optional number: [d] when [a] is undefined or 0. *)
Definition or_default (a : option R) (d : R) : R :=
  match a with
  | Some v => if eqb v 0 then d else v
  | None => d
  end.

(** [x % m] on integers: the sign follows the dividend. *)
Definition rem (x m : Z) : Z := Z.rem x m.

(** [x % 1]: the fractional part, with the sign of [x]. *)
Definition frac (x : R) : R :=
  if ltb x 0 then x - IZR (Zceil x) else x - IZR (Zfloor x).

(** The number of passes of [for (let i = 0; i < n; i++)]. *)
Definition passes (n : R) : nat := Z.to_nat (Zceil n).

End JS.

Notation "x <? y" := (JS.ltb x y) : R_scope.
Notation "x <=? y" := (JS.leb x y) : R_scope.
Notation "x >? y" := (JS.gtb x y) : R_scope.
Notation "x >=? y" := (JS.geb x y) : R_scope.

(** ** js/prng.js *)

(** function clamp(value, min, max) *)
Definition clamp (value min max : R) : R :=
  JS.Math_min (JS.Math_max value min) max.


Module PRNG.

(** let prngState = { seed, state } *)
Record prngState : Type := { seed : Z; state : Z }.

(** Code that draws from the generator: it reads the generator state and
    returns its result with the new state. *)
Definition Rand (A : Type) : Type := prngState -> A * prngState.

Definition ret {A : Type} (a : A) : Rand A := fun p => (a, p).

Definition bind {A B : Type} (m : Rand A) (k : A -> Rand B) : Rand B :=
  fun p => let (a, p') := m p in k a p'.

(** function initPRNG(seed) *)
Definition initPRNG (s : Z) (p : prngState) : prngState :=
  {| seed := s; state := s |}.

(** The update of [prngState.state] in [random]. *)
Definition lcg (s : Z) : Z :=
  JS.rem (s * 1664525 + 1013904223) 4294967296.

(** function random(min, max), called as [random()]. *)
Definition random : Rand R :=
  fun p =>
    let p' := {| seed := seed p; state := lcg (state p) |} in
    (IZR (state p') / 4294967296, p').

(** [random(max)]: the overload with one argument. *)
Definition random1 (max : R) : Rand R :=
  bind random (fun r => ret (r * max)).

(** [random(min, max)]: the overload with two arguments. *)
Definition random2 (min max : R) : Rand R :=
  bind random (fun r => ret (r * (max - min) + min)).

(** function randomInt(min, max) *)
Definition randomInt (min max : R) : Rand R :=
  bind random (fun r => ret (JS.Math_floor (r * (max - min + 1)) + min)).

(** function randomFloat(min, max) *)
Definition randomFloat (min max : R) : Rand R :=
  bind random (fun r => ret (r * (max - min) + min)).

(** function randomNormal(mean, stdDev): Box-Muller. *)
Definition randomNormal (mean stdDev : R) : Rand R :=
  bind random (fun u1 =>
  bind random (fun u2 =>
    let z0 := sqrt (-2 * ln u1) * cos (2 * PI * u2) in
    ret (z0 * stdDev + mean))).

(** function randomGaussian(mean, stdDev) *)
Definition randomGaussian (mean stdDev : R) : Rand R :=
  randomNormal mean stdDev.

(** function randomChoice(array): [None] is JavaScript's undefined, the
    result on an empty array. *)
Definition randomChoice {A : Type} (array : list A) : Rand (option A) :=
  bind random (fun r =>
    ret (nth_error array (Z.to_nat (Zfloor (r * INR (List.length array)))))).

(** [n] successive calls of [random()], the values returned first. *)
Fixpoint draws (n : nat) (p : prngState) : list R * prngState :=
  match n with
  | O => ([], p)
  | S k => let (r, p') := random p in
           let (rs, p'') := draws k p' in (r :: rs, p'')
  end.

(** The generator state is a 32-bit unsigned integer. *)
Definition valid (p : prngState) : Prop := (0 <= state p < 4294967296)%Z.

End PRNG.

Notation "x <- m ;; k" := (PRNG.bind m (fun x => k))
  (at level 61, m at next level, right associativity).

(** ** js/config.js *)

Module CONFIG.

(** SIMULATION TIMING *)
Definition DAYS_PER_YEAR : R := 365.
Definition MAX_HISTORY : nat := 600.

(** TREE BIOLOGY *)
Definition TREE_INIT_HEIGHT : R := 0.25.
Definition TREE_INIT_DBH : R := 0.008.
Definition TREE_MAX_HEIGHT : R := 40.
Definition TREE_MAX_AGE : R := 600.

(** GROWTH RATES *)
Definition HEIGHT_GROWTH_FACTOR : R := 0.9.
Definition DBH_GROWTH_FACTOR : R := 0.18.
Definition ROOT_GROWTH_FACTOR : R := 1.3.

(** LEAF SYSTEM *)
Definition LEAF_SIZE_MIN : R := 4.
Definition LEAF_SIZE_MAX : R := 14.
Definition LEAF_CLUSTER_COUNT : R := 12.

(** BRANCH ARCHITECTURE *)
Definition BRANCH_RECURSION : nat := 6.
Definition BRANCH_ANGLE_BASE : R := 0.45.
Definition BRANCH_ANGLE_VARIANCE : R := 0.35.
Definition BRANCH_LENGTH_DECAY : R := 0.68.
Definition BRANCH_THICKNESS_DECAY : R := 0.65.
Definition BRANCH_TWIST : R := 0.15.

(** ROOT SYSTEM *)
Definition ROOT_SEGMENTS : nat := 18.

(** CARBON CYCLE *)
Definition CO2_ABSORPTION_RATE : R := 0.018.
Definition O2_PRODUCTION_RATE : R := 0.024.

(** PARTICLE SYSTEMS *)
Definition PARTICLE_FALLING_LEAVES : nat := 60.

(** CANVAS *)
Definition CANVAS_WIDTH : R := 1920.

(** [CONFIG.FIRE_DROUGHT_THRESHOLD], [CONFIG.FIRE_HEAT_THRESHOLD],
    [CONFIG.WINDTHROW_WIND_THRESHOLD] and [CONFIG.WINDTHROW_WIND_RANGE]
    are read by [applyMortalityModel]; the object [CONFIG] of js/config.js
    as given does not declare them.  They are parameters of the model. *)
Record Disturbance : Type := {
  FIRE_DROUGHT_THRESHOLD : R;
  FIRE_HEAT_THRESHOLD : R;
  WINDTHROW_WIND_THRESHOLD : R;
  WINDTHROW_WIND_RANGE : R
}.

End CONFIG.

(** const SEASONS = { SPRING: {...}, SUMMER: {...}, AUTUMN: {...},
    WINTER: {...} }: the four season objects. *)
Inductive Season : Type := SPRING | SUMMER | AUTUMN | WINTER.

Module SEASONS.

Definition name (s : Season) : string :=
  match s with
  | SPRING => "Spring" | SUMMER => "Summer"
  | AUTUMN => "Autumn" | WINTER => "Winter"
  end.

Definition value (s : Season) : Z :=
  match s with SPRING => 0 | SUMMER => 1 | AUTUMN => 2 | WINTER => 3 end.

Definition dayStart (s : Season) : R :=
  match s with SPRING => 0 | SUMMER => 91 | AUTUMN => 182 | WINTER => 273 end.

Definition dayEnd (s : Season) : R :=
  match s with SPRING => 91 | SUMMER => 182 | AUTUMN => 273 | WINTER => 365 end.

End SEASONS.

(** The value of [environment.season]: one of the season objects, or a
    string (the declaration of [environment] sets it to the string
    'SPRING').  The engine compares it by identity with the season
    objects. *)
Inductive SeasonRef : Type :=
  | SeasonObject (s : Season)
  | SeasonString (s : string).

Definition is_season (r : SeasonRef) (s : Season) : bool :=
  match r, s with
  | SeasonObject SPRING, SPRING => true
  | SeasonObject SUMMER, SUMMER => true
  | SeasonObject AUTUMN, AUTUMN => true
  | SeasonObject WINTER, WINTER => true
  | _, _ => false
  end.

(** const TREE_SPECIES = { OAK: {...}, ... }: the fields the engine
    reads.  A field that an entry does not declare is [None]. *)
Module Species.
Record t : Type := {
  name : string;
  maxHeight : option R;
  maxAge : R;
  growthRate : option R;
  evergreen : option bool;
  fireResistance : option R;
  windthrowResistance : option R;
  autumnLeafDrop : option R;
  springLeafOut : option R
}.
End Species.

Module TREE_SPECIES.

Definition OAK : Species.t :=
  {| Species.name := "English Oak"; Species.maxHeight := Some 35;
     Species.maxAge := 500; Species.growthRate := Some 0.75;
     Species.evergreen := None; Species.fireResistance := None;
     Species.windthrowResistance := None; Species.autumnLeafDrop := None;
     Species.springLeafOut := None |}.

Definition MAPLE : Species.t :=
  {| Species.name := "Sugar Maple"; Species.maxHeight := Some 30;
     Species.maxAge := 300; Species.growthRate := Some 0.9;
     Species.evergreen := None; Species.fireResistance := None;
     Species.windthrowResistance := None; Species.autumnLeafDrop := None;
     Species.springLeafOut := None |}.

Definition PINE : Species.t :=
  {| Species.name := "Scots Pine"; Species.maxHeight := Some 40;
     Species.maxAge := 400; Species.growthRate := Some 0.6;
     Species.evergreen := Some true; Species.fireResistance := None;
     Species.windthrowResistance := None; Species.autumnLeafDrop := None;
     Species.springLeafOut := None |}.

Definition BIRCH : Species.t :=
  {| Species.name := "Silver Birch"; Species.maxHeight := Some 25;
     Species.maxAge := 100; Species.growthRate := Some 1.2;
     Species.evergreen := None; Species.fireResistance := None;
     Species.windthrowResistance := None; Species.autumnLeafDrop := None;
     Species.springLeafOut := None |}.

(** TREE_SPECIES[key] *)
Definition get (key : string) : option Species.t :=
  if String.eqb key "OAK" then Some OAK
  else if String.eqb key "MAPLE" then Some MAPLE
  else if String.eqb key "PINE" then Some PINE
  else if String.eqb key "BIRCH" then Some BIRCH
  else None.

(** TREE_SPECIES[key] || TREE_SPECIES.OAK *)
Definition get_or_OAK (key : string) : Species.t :=
  match get key with Some s => s | None => OAK end.

End TREE_SPECIES.

(** [species.evergreen || false] *)
Definition evergreen_or_false (s : Species.t) : bool :=
  match Species.evergreen s with Some b => b | None => false end.

(** ** js/environment.js *)

(** const environment = {...} *)
Record Environment : Type := {
  year : Z;
  dayOfYear : R;
  season : SeasonRef;
  hour : R;
  sunlight : R;
  water : R;
  temperature : R;
  soilQuality : R;
  windSpeed : R;
  humidity : R;
  totalStress : R;
  waterAvailability : R;
  disease : bool;
  pests : bool;
  storm : bool;
  pollution : bool
}.

(** The declaration of [environment]. *)
Definition environment0 : Environment :=
  {| year := 0; dayOfYear := 0; season := SeasonString "SPRING"; hour := 12;
     sunlight := 70; water := 60; temperature := 20; soilQuality := 70;
     windSpeed := 30; humidity := 60; totalStress := 0;
     waterAvailability := 60;
     disease := false; pests := false; storm := false; pollution := false |}.

(** The controls of the page that the engine reads: the value of a slider
    after [parseFloat], the state of a checkbox; [None] when the page has
    no element with that id. *)
Module UI.
Record t : Type := {
  sun : option R;
  water : option R;
  temp : option R;
  soil : option R;
  wind : option R;
  humidity : option R;
  disease : option bool;
  pests : option bool;
  storm : option bool;
  pollution : option bool;
  speed : option R
}.
End UI.

Definition from_control {A : Type} (control : option A) (current : A) : A :=
  match control with Some v => v | None => current end.

(** function updateEnvironmentFromUI() *)
Definition updateEnvironmentFromUI (ui : UI.t) (e : Environment)
  : Environment :=
  {| year := year e; dayOfYear := dayOfYear e; season := season e;
     hour := hour e;
     sunlight := from_control (UI.sun ui) (sunlight e);
     water := from_control (UI.water ui) (water e);
     temperature := from_control (UI.temp ui) (temperature e);
     soilQuality := from_control (UI.soil ui) (soilQuality e);
     windSpeed := from_control (UI.wind ui) (windSpeed e);
     humidity := from_control (UI.humidity ui) (humidity e);
     totalStress := totalStress e;
     waterAvailability := waterAvailability e;
     disease := from_control (UI.disease ui) (disease e);
     pests := from_control (UI.pests ui) (pests e);
     storm := from_control (UI.storm ui) (storm e);
     pollution := from_control (UI.pollution ui) (pollution e) |}.

(** The season that [updateEnvironmentTime] assigns for a day of year. *)
Definition seasonOfDay (d : R) : Season :=
  if d <? 90 then SPRING
  else if d <? 180 then SUMMER
  else if d <? 270 then AUTUMN
  else WINTER.

(** function updateEnvironmentTime(dt) *)
Definition updateEnvironmentTime (dt : R) (e : Environment) : Environment :=
  let d0 := dayOfYear e + dt in
  let wrap := d0 >=? 365 in
  let d := if wrap then d0 - 365 else d0 in
  let y := if wrap then (year e + 1)%Z else year e in
  {| year := y; dayOfYear := d; season := SeasonObject (seasonOfDay d);
     hour := JS.frac d * 24;
     sunlight := sunlight e; water := water e; temperature := temperature e;
     soilQuality := soilQuality e; windSpeed := windSpeed e;
     humidity := humidity e; totalStress := totalStress e;
     waterAvailability := waterAvailability e;
     disease := disease e; pests := pests e; storm := storm e;
     pollution := pollution e |}.

(** function getSeasonProgress(dayOfYear) *)
Definition getSeasonProgress (dayOfYear : R) : R :=
  let seasonLength := 365 / 4 in
  let seasonStart := JS.Math_floor (dayOfYear / seasonLength) * seasonLength in
  (dayOfYear - seasonStart) / seasonLength.

(** The key under which an object literal stores a property: a string is
    its own key; an object used as a computed key is converted to the
    string "[object Object]". *)
Definition propertyKey (r : SeasonRef) : string :=
  match r with
  | SeasonObject _ => "[object Object]"
  | SeasonString s => s
  end.

(** An object literal [{ [k1]: v1, ..., [kn]: vn }] read at a key: a later
    property with the same key replaces an earlier one. *)
Fixpoint literal_get (props : list (string * R)) (key : string) : option R :=
  match props with
  | [] => None
  | (k, v) :: rest =>
      match literal_get rest key with
      | Some v' => Some v'
      | None => if String.eqb k key then Some v else None
      end
  end.

(** function getSeasonalGrowthMultiplier(season) *)
Definition getSeasonalGrowthMultiplier (season : SeasonRef) : R :=
  let multipliers :=
    [ (propertyKey (SeasonObject SPRING), 1.0);
      (propertyKey (SeasonObject SUMMER), 0.95);
      (propertyKey (SeasonObject AUTUMN), 0.4);
      (propertyKey (SeasonObject WINTER), 0.05) ] in
  JS.or_default (literal_get multipliers (propertyKey season)) 0.5.

(** ** js/tree.js: the tree state *)

(** An entry of [tree.branches]. *)
Module Branch.
Record t : Type := {
  x1 : R; y1 : R; x2 : R; y2 : R;
  thickness : R;
  depth : nat;
  angle : R;
  length : R;
  parentIndex : Z;
  swayPhase : R;
  swayAmount : R;
  hasLeaves : bool;
  healthy : bool
}.
End Branch.

(** An entry of [tree.leafClusters]. *)
Module LeafCluster.
Record t : Type := {
  x : R; y : R; z : R;
  size : R;
  density : R;
  hueShift : R;
  swayPhase : R;
  swayAmount : R;
  lightExposure : R
}.
End LeafCluster.

(** An entry of [tree.leaves]. *)
Module Leaf.
Record t : Type := {
  x : R; y : R;
  size : R;
  rotation : R;
  rotationSpeed : R;
  hue : R;
  saturation : R;
  lightness : R;
  swayPhase : R;
  swayAmount : R;
  attached : bool;
  opacity : R;
  branchIndex : Z
}.
End Leaf.

(** An entry of [tree.rootMesh], and an entry of its [children]. *)
Module FineRoot.
Record t : Type := { angle : R; depth : R; spread : R; thickness : R }.
End FineRoot.

Module Root.
Record t : Type := {
  type : string;
  x : R;
  angle : R;
  depth : R;
  spread : R;
  thickness : R;
  children : list FineRoot.t
}.
End Root.

(** An entry of [tree.leafDrops]. *)
Module FallingLeaf.
Record t : Type := {
  x : R; y : R;
  vx : R; vy : R;
  ax : R;
  rotation : R;
  rotationSpeed : R;
  size : R;
  color : option string;
  opacity : R;
  lifetime : R;
  wobblePhase : R;
  wobbleSpeed : R;
  wobbleAmount : R
}.
End FallingLeaf.

(** An entry of [tree.barkSegments]. *)
Module BarkSegment.
Record t : Type := {
  y : R; width : R; depth : R; roughness : R; color : R
}.
End BarkSegment.

(** [tree.biomass] *)
Module Biomass.
Record t : Type := {
  total : R;
  trunk : R;
  branches : R;
  leaves : R;
  roots : R;
  heartwood : R;
  sapwood : R
}.
End Biomass.

(** [tree.mortality].  [senescenceStartAge] and [maxAge] are [None] when
    [Number.isFinite] is false of them; a rate is [None] when the object
    has no such property. *)
Module Mortality.
Record t : Type := {
  enabled : bool;
  baseRatePerYear : option R;
  senescenceStartAge : option R;
  maxAge : option R;
  droughtThreshold : R;
  heatStressTemp : R;
  diseaseBaseRatePerYear : option R;
  stormFrequency : option R
}.
End Mortality.

(** const tree = {...}.  The fields are grouped as the section headers of
    the declaration group them. *)

(** TEMPORAL *)
Record Temporal : Type := {
  age : R;
  daysSinceBirth : R;
  germinationDate : R
}.

(** MORPHOLOGY *)
Record Morphology : Type := {
  height : R;
  dbh : R;
  crownRadius : R;
  crownHeight : R;
  rootDepth : R;
  rootSpread : R;
  trunkTaper : R
}.

(** LEAF SYSTEM *)
Record LeafSystem : Type := {
  leafCount : R;
  leafArea : R;
  leafSize : R;
  foliageOpacity : R;
  foliageDensity : R;
  chlorophyllContent : R
}.

(** VITALITY *)
Record Vitality : Type := {
  health : R;
  vigor : R;
  waterContent : R;
  nutrientLevel : R;
  stressLevel : R;
  diseaseLoad : R
}.

(** CARBON CYCLE *)
Record CarbonCycle : Type := {
  co2Absorbed : R;
  o2Produced : R;
  waterTranspired : R;
  carbonStored : R
}.

(** ANNUAL TRACKING *)
Record Annual : Type := {
  growthThisYear : R;
  ringsGrown : Z
}.

(** VISUAL STRUCTURES *)
Record Visual : Type := {
  branches : list Branch.t;
  leafClusters : list LeafCluster.t;
  leaves : list Leaf.t;
  rootMesh : list Root.t;
  leafDrops : list FallingLeaf.t;
  barkSegments : list BarkSegment.t
}.

(** PHENOLOGY *)
Record Phenology : Type := {
  dormant : bool;
  budBurst : bool;
  flowering : bool;
  leafSenescence : bool
}.

Record Tree : Type := {
  temporal : Temporal;
  morphology : Morphology;
  leafSystem : LeafSystem;
  vitality : Vitality;
  biomass : Biomass.t;
  carbon : CarbonCycle;
  annual : Annual;
  visual : Visual;
  phenology : Phenology;
  species : string;
  mortality : option Mortality.t;
  deathCause : option string
}.

(** The declaration of [tree]. *)
Definition tree0 : Tree :=
  {| temporal := {| age := 0; daysSinceBirth := 0; germinationDate := 0 |};
     morphology :=
       {| height := 0.25; dbh := 0.008; crownRadius := 0.3;
          crownHeight := 0.2; rootDepth := 0.15; rootSpread := 0.4;
          trunkTaper := 0.85 |};
     leafSystem :=
       {| leafCount := 50; leafArea := 0.1; leafSize := 1.0;
          foliageOpacity := 1.0; foliageDensity := 1.0;
          chlorophyllContent := 100 |};
     vitality :=
       {| health := 100; vigor := 100; waterContent := 100;
          nutrientLevel := 100; stressLevel := 0; diseaseLoad := 0 |};
     biomass :=
       {| Biomass.total := 0.5; Biomass.trunk := 0.3;
          Biomass.branches := 0.1; Biomass.leaves := 0.05;
          Biomass.roots := 0.05; Biomass.heartwood := 0;
          Biomass.sapwood := 0.3 |};
     carbon :=
       {| co2Absorbed := 0; o2Produced := 0; waterTranspired := 0;
          carbonStored := 0 |};
     annual := {| growthThisYear := 0; ringsGrown := 0 |};
     visual :=
       {| branches := []; leafClusters := []; leaves := []; rootMesh := [];
          leafDrops := []; barkSegments := [] |};
     phenology :=
       {| dormant := false; budBurst := false; flowering := false;
          leafSenescence := false |};
     species := "OAK";
     mortality :=
       Some {| Mortality.enabled := false;
               Mortality.baseRatePerYear := Some 0.001;
               Mortality.senescenceStartAge := Some 150;
               Mortality.maxAge := Some CONFIG.TREE_MAX_AGE;
               Mortality.droughtThreshold := 0.3;
               Mortality.heatStressTemp := 35;
               Mortality.diseaseBaseRatePerYear := Some 0.02;
               Mortality.stormFrequency := Some 0.05 |};
     deathCause := None |}.

(** *** Assignments to the fields of [tree] *)

Definition with_temporal (v : Temporal) (t : Tree) : Tree :=
  {| temporal := v; morphology := morphology t; leafSystem := leafSystem t;
     vitality := vitality t; biomass := biomass t; carbon := carbon t;
     annual := annual t; visual := visual t; phenology := phenology t;
     species := species t; mortality := mortality t;
     deathCause := deathCause t |}.

Definition with_morphology (v : Morphology) (t : Tree) : Tree :=
  {| temporal := temporal t; morphology := v; leafSystem := leafSystem t;
     vitality := vitality t; biomass := biomass t; carbon := carbon t;
     annual := annual t; visual := visual t; phenology := phenology t;
     species := species t; mortality := mortality t;
     deathCause := deathCause t |}.

Definition with_leafSystem (v : LeafSystem) (t : Tree) : Tree :=
  {| temporal := temporal t; morphology := morphology t; leafSystem := v;
     vitality := vitality t; biomass := biomass t; carbon := carbon t;
     annual := annual t; visual := visual t; phenology := phenology t;
     species := species t; mortality := mortality t;
     deathCause := deathCause t |}.

Definition with_vitality (v : Vitality) (t : Tree) : Tree :=
  {| temporal := temporal t; morphology := morphology t;
     leafSystem := leafSystem t; vitality := v; biomass := biomass t;
     carbon := carbon t; annual := annual t; visual := visual t;
     phenology := phenology t; species := species t;
     mortality := mortality t; deathCause := deathCause t |}.

Definition set_biomass (v : Biomass.t) (t : Tree) : Tree :=
  {| temporal := temporal t; morphology := morphology t;
     leafSystem := leafSystem t; vitality := vitality t; biomass := v;
     carbon := carbon t; annual := annual t; visual := visual t;
     phenology := phenology t; species := species t;
     mortality := mortality t; deathCause := deathCause t |}.

Definition with_carbon (v : CarbonCycle) (t : Tree) : Tree :=
  {| temporal := temporal t; morphology := morphology t;
     leafSystem := leafSystem t; vitality := vitality t;
     biomass := biomass t; carbon := v; annual := annual t;
     visual := visual t; phenology := phenology t; species := species t;
     mortality := mortality t; deathCause := deathCause t |}.

Definition with_annual (v : Annual) (t : Tree) : Tree :=
  {| temporal := temporal t; morphology := morphology t;
     leafSystem := leafSystem t; vitality := vitality t;
     biomass := biomass t; carbon := carbon t; annual := v;
     visual := visual t; phenology := phenology t; species := species t;
     mortality := mortality t; deathCause := deathCause t |}.

Definition with_visual (v : Visual) (t : Tree) : Tree :=
  {| temporal := temporal t; morphology := morphology t;
     leafSystem := leafSystem t; vitality := vitality t;
     biomass := biomass t; carbon := carbon t; annual := annual t;
     visual := v; phenology := phenology t; species := species t;
     mortality := mortality t; deathCause := deathCause t |}.

Definition with_phenology (v : Phenology) (t : Tree) : Tree :=
  {| temporal := temporal t; morphology := morphology t;
     leafSystem := leafSystem t; vitality := vitality t;
     biomass := biomass t; carbon := carbon t; annual := annual t;
     visual := visual t; phenology := v; species := species t;
     mortality := mortality t; deathCause := deathCause t |}.

Definition set_deathCause (v : option string) (t : Tree) : Tree :=
  {| temporal := temporal t; morphology := morphology t;
     leafSystem := leafSystem t; vitality := vitality t;
     biomass := biomass t; carbon := carbon t; annual := annual t;
     visual := visual t; phenology := phenology t; species := species t;
     mortality := mortality t; deathCause := v |}.

Definition set_age (v : R) (t : Tree) : Tree :=
  with_temporal {| age := v; daysSinceBirth := daysSinceBirth (temporal t);
    germinationDate := germinationDate (temporal t) |} t.

Definition set_daysSinceBirth (v : R) (t : Tree) : Tree :=
  with_temporal {| age := age (temporal t); daysSinceBirth := v;
    germinationDate := germinationDate (temporal t) |} t.

Definition set_height (v : R) (t : Tree) : Tree :=
  with_morphology {| height := v; dbh := dbh (morphology t); crownRadius :=
    crownRadius (morphology t); crownHeight := crownHeight (morphology t);
    rootDepth := rootDepth (morphology t); rootSpread := rootSpread
    (morphology t); trunkTaper := trunkTaper (morphology t) |} t.

Definition set_dbh (v : R) (t : Tree) : Tree :=
  with_morphology {| height := height (morphology t); dbh := v; crownRadius
    := crownRadius (morphology t); crownHeight := crownHeight (morphology
    t); rootDepth := rootDepth (morphology t); rootSpread := rootSpread
    (morphology t); trunkTaper := trunkTaper (morphology t) |} t.

Definition set_crownRadius (v : R) (t : Tree) : Tree :=
  with_morphology {| height := height (morphology t); dbh := dbh (morphology
    t); crownRadius := v; crownHeight := crownHeight (morphology t);
    rootDepth := rootDepth (morphology t); rootSpread := rootSpread
    (morphology t); trunkTaper := trunkTaper (morphology t) |} t.

Definition set_crownHeight (v : R) (t : Tree) : Tree :=
  with_morphology {| height := height (morphology t); dbh := dbh (morphology
    t); crownRadius := crownRadius (morphology t); crownHeight := v;
    rootDepth := rootDepth (morphology t); rootSpread := rootSpread
    (morphology t); trunkTaper := trunkTaper (morphology t) |} t.

Definition set_rootDepth (v : R) (t : Tree) : Tree :=
  with_morphology {| height := height (morphology t); dbh := dbh (morphology
    t); crownRadius := crownRadius (morphology t); crownHeight :=
    crownHeight (morphology t); rootDepth := v; rootSpread := rootSpread
    (morphology t); trunkTaper := trunkTaper (morphology t) |} t.

Definition set_rootSpread (v : R) (t : Tree) : Tree :=
  with_morphology {| height := height (morphology t); dbh := dbh (morphology
    t); crownRadius := crownRadius (morphology t); crownHeight :=
    crownHeight (morphology t); rootDepth := rootDepth (morphology t);
    rootSpread := v; trunkTaper := trunkTaper (morphology t) |} t.

Definition set_leafCount (v : R) (t : Tree) : Tree :=
  with_leafSystem {| leafCount := v; leafArea := leafArea (leafSystem t);
    leafSize := leafSize (leafSystem t); foliageOpacity := foliageOpacity
    (leafSystem t); foliageDensity := foliageDensity (leafSystem t);
    chlorophyllContent := chlorophyllContent (leafSystem t) |} t.

Definition set_leafArea (v : R) (t : Tree) : Tree :=
  with_leafSystem {| leafCount := leafCount (leafSystem t); leafArea := v;
    leafSize := leafSize (leafSystem t); foliageOpacity := foliageOpacity
    (leafSystem t); foliageDensity := foliageDensity (leafSystem t);
    chlorophyllContent := chlorophyllContent (leafSystem t) |} t.

Definition set_foliageOpacity (v : R) (t : Tree) : Tree :=
  with_leafSystem {| leafCount := leafCount (leafSystem t); leafArea :=
    leafArea (leafSystem t); leafSize := leafSize (leafSystem t);
    foliageOpacity := v; foliageDensity := foliageDensity (leafSystem t);
    chlorophyllContent := chlorophyllContent (leafSystem t) |} t.

Definition set_foliageDensity (v : R) (t : Tree) : Tree :=
  with_leafSystem {| leafCount := leafCount (leafSystem t); leafArea :=
    leafArea (leafSystem t); leafSize := leafSize (leafSystem t);
    foliageOpacity := foliageOpacity (leafSystem t); foliageDensity := v;
    chlorophyllContent := chlorophyllContent (leafSystem t) |} t.

Definition set_chlorophyllContent (v : R) (t : Tree) : Tree :=
  with_leafSystem {| leafCount := leafCount (leafSystem t); leafArea :=
    leafArea (leafSystem t); leafSize := leafSize (leafSystem t);
    foliageOpacity := foliageOpacity (leafSystem t); foliageDensity :=
    foliageDensity (leafSystem t); chlorophyllContent := v |} t.

Definition set_health (v : R) (t : Tree) : Tree :=
  with_vitality {| health := v; vigor := vigor (vitality t); waterContent :=
    waterContent (vitality t); nutrientLevel := nutrientLevel (vitality t);
    stressLevel := stressLevel (vitality t); diseaseLoad := diseaseLoad
    (vitality t) |} t.

Definition set_vigor (v : R) (t : Tree) : Tree :=
  with_vitality {| health := health (vitality t); vigor := v; waterContent
    := waterContent (vitality t); nutrientLevel := nutrientLevel (vitality
    t); stressLevel := stressLevel (vitality t); diseaseLoad := diseaseLoad
    (vitality t) |} t.

Definition set_waterContent (v : R) (t : Tree) : Tree :=
  with_vitality {| health := health (vitality t); vigor := vigor (vitality
    t); waterContent := v; nutrientLevel := nutrientLevel (vitality t);
    stressLevel := stressLevel (vitality t); diseaseLoad := diseaseLoad
    (vitality t) |} t.

Definition set_stressLevel (v : R) (t : Tree) : Tree :=
  with_vitality {| health := health (vitality t); vigor := vigor (vitality
    t); waterContent := waterContent (vitality t); nutrientLevel :=
    nutrientLevel (vitality t); stressLevel := v; diseaseLoad := diseaseLoad
    (vitality t) |} t.

Definition set_diseaseLoad (v : R) (t : Tree) : Tree :=
  with_vitality {| health := health (vitality t); vigor := vigor (vitality
    t); waterContent := waterContent (vitality t); nutrientLevel :=
    nutrientLevel (vitality t); stressLevel := stressLevel (vitality t);
    diseaseLoad := v |} t.

Definition set_co2Absorbed (v : R) (t : Tree) : Tree :=
  with_carbon {| co2Absorbed := v; o2Produced := o2Produced (carbon t);
    waterTranspired := waterTranspired (carbon t); carbonStored :=
    carbonStored (carbon t) |} t.

Definition set_o2Produced (v : R) (t : Tree) : Tree :=
  with_carbon {| co2Absorbed := co2Absorbed (carbon t); o2Produced := v;
    waterTranspired := waterTranspired (carbon t); carbonStored :=
    carbonStored (carbon t) |} t.

Definition set_waterTranspired (v : R) (t : Tree) : Tree :=
  with_carbon {| co2Absorbed := co2Absorbed (carbon t); o2Produced :=
    o2Produced (carbon t); waterTranspired := v; carbonStored :=
    carbonStored (carbon t) |} t.

Definition set_carbonStored (v : R) (t : Tree) : Tree :=
  with_carbon {| co2Absorbed := co2Absorbed (carbon t); o2Produced :=
    o2Produced (carbon t); waterTranspired := waterTranspired (carbon t);
    carbonStored := v |} t.

Definition set_growthThisYear (v : R) (t : Tree) : Tree :=
  with_annual {| growthThisYear := v; ringsGrown := ringsGrown (annual t) |}
    t.

Definition set_ringsGrown (v : Z) (t : Tree) : Tree :=
  with_annual {| growthThisYear := growthThisYear (annual t); ringsGrown :=
    v |} t.

Definition set_branches (v : list Branch.t) (t : Tree) : Tree :=
  with_visual {| branches := v; leafClusters := leafClusters (visual t);
    leaves := leaves (visual t); rootMesh := rootMesh (visual t); leafDrops
    := leafDrops (visual t); barkSegments := barkSegments (visual t) |} t.

Definition set_leafClusters (v : list LeafCluster.t) (t : Tree) : Tree :=
  with_visual {| branches := branches (visual t); leafClusters := v; leaves
    := leaves (visual t); rootMesh := rootMesh (visual t); leafDrops :=
    leafDrops (visual t); barkSegments := barkSegments (visual t) |} t.

Definition set_rootMesh (v : list Root.t) (t : Tree) : Tree :=
  with_visual {| branches := branches (visual t); leafClusters :=
    leafClusters (visual t); leaves := leaves (visual t); rootMesh := v;
    leafDrops := leafDrops (visual t); barkSegments := barkSegments (visual
    t) |} t.

Definition set_leafDrops (v : list FallingLeaf.t) (t : Tree) : Tree :=
  with_visual {| branches := branches (visual t); leafClusters :=
    leafClusters (visual t); leaves := leaves (visual t); rootMesh :=
    rootMesh (visual t); leafDrops := v; barkSegments := barkSegments
    (visual t) |} t.

Definition set_dormant (v : bool) (t : Tree) : Tree :=
  with_phenology {| dormant := v; budBurst := budBurst (phenology t);
    flowering := flowering (phenology t); leafSenescence := leafSenescence
    (phenology t) |} t.

(** ** js/tree.js: the visual structures *)

(** [for (let i = 0; i < n; i++) body], on a state. *)
Definition for_loop {S : Type} (n : nat) (body : nat -> S -> S) (s : S) : S :=
  fold_left (fun s i => body i s) (seq 0 n) s.

(** The same loop with a body that draws from the generator. *)
Definition for_rand {A : Type} (n : nat) (body : nat -> A -> PRNG.Rand A)
    (a : A) : PRNG.Rand A :=
  fun p => for_loop n (fun i st => body i (fst st) (snd st)) (a, p).

(** function createBranch(x, y, angle, length, thickness, depth,
    parentIndex), local to [generateBranchArchitecture]; it appends to
    [tree.branches]. *)
Fixpoint createBranch (depth : nat) (x y angle length thickness : R)
    (parentIndex : Z) (bs : list Branch.t) : PRNG.Rand (list Branch.t) :=
  match depth with
  | O => PRNG.ret bs
  | S depth' =>
      if (length <? 0.02) || (thickness <? 0.5) then PRNG.ret bs
      else
        angleVariation <- PRNG.random2 (- CONFIG.BRANCH_ANGLE_VARIANCE)
                            CONFIG.BRANCH_ANGLE_VARIANCE ;;
        lengthVariation <- PRNG.random2 0.85 1.15 ;;
        twist <- PRNG.random2 (- CONFIG.BRANCH_TWIST) CONFIG.BRANCH_TWIST ;;
        let actualAngle := angle + angleVariation + twist in
        let actualLength := length * lengthVariation in
        let endX := x + cos actualAngle * actualLength in
        let endY := y + sin actualAngle * actualLength in
        let branchIndex := Z.of_nat (List.length bs) in
        sway <- PRNG.random2 0 (PI * 2) ;;
        let bs1 :=
          bs ++ [ {| Branch.x1 := x; Branch.y1 := y;
                     Branch.x2 := endX; Branch.y2 := endY;
                     Branch.thickness := thickness;
                     Branch.depth := depth;
                     Branch.angle := actualAngle;
                     Branch.length := actualLength;
                     Branch.parentIndex := parentIndex;
                     Branch.swayPhase := sway;
                     Branch.swayAmount := 0.02 / (INR depth + 1);
                     Branch.hasLeaves := Nat.leb depth 2;
                     Branch.healthy := true |} ] in
        numChildren <- (if Nat.ltb 3 depth then PRNG.randomInt 2 4
                        else PRNG.randomInt 1 3) ;;
        for_rand (JS.passes numChildren)
          (fun i bs2 =>
             jitter <- PRNG.random2 (-0.1) 0.1 ;;
             let spread := (INR i - (numChildren - 1) / 2)
                           * (CONFIG.BRANCH_ANGLE_BASE + jitter) in
             let childAngle := actualAngle + spread in
             let childLength := actualLength * CONFIG.BRANCH_LENGTH_DECAY in
             let childThickness :=
               thickness * CONFIG.BRANCH_THICKNESS_DECAY in
             createBranch depth' endX endY childAngle childLength
               childThickness branchIndex bs2)
          bs1
  end.

(** function generateBranchArchitecture() *)
Definition generateBranchArchitecture (t : Tree) : PRNG.Rand Tree :=
  let baseAngle := PI / 2 in
  let baseLength := height (morphology t) * 0.5 in
  let baseThickness := dbh (morphology t) * 80 in
  bs <- createBranch CONFIG.BRANCH_RECURSION 0 0 baseAngle baseLength
          baseThickness (-1) [] ;;
  PRNG.ret (set_branches bs t).

(** function generateLeafClusters() *)
Definition generateLeafClusters (t : Tree) : PRNG.Rand Tree :=
  let m := morphology t in
  let clusterCount :=
    JS.Math_floor (CONFIG.LEAF_CLUSTER_COUNT + height m * 12) in
  let crownCenter := height m * 0.75 in
  cs <- for_rand (JS.passes clusterCount)
          (fun _ cs =>
             phi <- PRNG.random2 0 (PI * 2) ;;
             theta <- PRNG.random2 0 (PI * 0.6) ;;
             r01 <- PRNG.random2 0.3 1.0 ;;
             let r := crownRadius m * r01 in
             let x := r * sin theta * cos phi in
             let y :=
               crownCenter + r * cos theta * 0.7 - crownRadius m * 0.3 in
             let z := r * sin theta * sin phi in
             let distFromCenter := sqrt (x * x + z * z) in
             let expectedRadius :=
               crownRadius m
               * (1 - JS.Math_pow ((y - crownCenter) / crownHeight m) 2
                      * 0.5) in
             if distFromCenter <=? expectedRadius * 1.2 then
               size <- PRNG.random2 0.8 1.5 ;;
               density <- PRNG.random2 0.6 1.0 ;;
               hueShift <- PRNG.random2 (-10) 10 ;;
               swayPhase <- PRNG.random2 0 (PI * 2) ;;
               swayAmount <- PRNG.random2 0.01 0.03 ;;
               PRNG.ret
                 (cs ++ [ {| LeafCluster.x := x; LeafCluster.y := y;
                             LeafCluster.z := z;
                             LeafCluster.size :=
                               size * leafSize (leafSystem t);
                             LeafCluster.density :=
                               density * foliageDensity (leafSystem t);
                             LeafCluster.hueShift := hueShift;
                             LeafCluster.swayPhase := swayPhase;
                             LeafCluster.swayAmount := swayAmount;
                             LeafCluster.lightExposure :=
                               0.5 + (y / height m) * 0.5 |} ])
             else PRNG.ret cs)
          [] ;;
  PRNG.ret (set_leafClusters cs t).

(** function generateRootMesh() *)
Definition generateRootMesh (t : Tree) : PRNG.Rand Tree :=
  let m := morphology t in
  tapDepth <- PRNG.random2 0.9 1.1 ;;
  let tap :=
    {| Root.type := "tap"; Root.x := 0; Root.angle := - PI / 2;
       Root.depth := rootDepth m * tapDepth; Root.spread := 0;
       Root.thickness := dbh m * 40; Root.children := [] |} in
  mesh <- for_rand CONFIG.ROOT_SEGMENTS
            (fun i mesh =>
               da <- PRNG.random2 (-0.2) 0.2 ;;
               let angle :=
                 (INR i / INR CONFIG.ROOT_SEGMENTS) * PI * 2 + da in
               rs <- PRNG.random2 0.7 1.3 ;;
               let spread := rootSpread m * rs in
               rd <- PRNG.random2 0.2 0.6 ;;
               let depth := rootDepth m * rd in
               rt <- PRNG.random2 0.4 0.8 ;;
               let thickness := dbh m * 30 * rt in
               numFine <- PRNG.randomInt 2 5 ;;
               children <- for_rand (JS.passes numFine)
                             (fun _ children =>
                                fa <- PRNG.random2 (-0.5) 0.5 ;;
                                fd <- PRNG.random2 0.3 0.8 ;;
                                fs <- PRNG.random2 0.2 0.6 ;;
                                PRNG.ret
                                  (children
                                   ++ [ {| FineRoot.angle := angle + fa;
                                           FineRoot.depth := depth * fd;
                                           FineRoot.spread := spread * fs;
                                           FineRoot.thickness :=
                                             thickness * 0.3 |} ]))
                             [] ;;
               PRNG.ret
                 (mesh ++ [ {| Root.type := "lateral"; Root.x := 0;
                               Root.angle := angle; Root.depth := depth;
                               Root.spread := spread;
                               Root.thickness := thickness;
                               Root.children := children |} ]))
            [tap] ;;
  PRNG.ret (set_rootMesh mesh t).

(** function createFallingLeaf(x, y, season) *)
Definition createFallingLeaf (x y : R) (season : SeasonRef) (t : Tree)
  : PRNG.Rand Tree :=
  if Nat.leb CONFIG.PARTICLE_FALLING_LEAVES
       (List.length (leafDrops (visual t)))
  then PRNG.ret t
  else
    let colors :=
      if is_season season AUTUMN
      then ["#d4a017"; "#c85a17"; "#8b4513"; "#ff6347"; "#daa520"]%string
      else ["#228b22"; "#32cd32"; "#6b8e23"]%string in
    vx <- PRNG.random2 (-1.5) 1.5 ;;
    vy <- PRNG.random2 0.3 1.2 ;;
    rotation <- PRNG.random2 0 (PI * 2) ;;
    rotationSpeed <- PRNG.random2 (-0.15) 0.15 ;;
    size <- PRNG.random2 CONFIG.LEAF_SIZE_MIN CONFIG.LEAF_SIZE_MAX ;;
    color <- PRNG.randomChoice colors ;;
    lifetime <- PRNG.random2 200 400 ;;
    wobblePhase <- PRNG.random2 0 (PI * 2) ;;
    wobbleSpeed <- PRNG.random2 0.05 0.15 ;;
    wobbleAmount <- PRNG.random2 0.5 2 ;;
    PRNG.ret
      (set_leafDrops
         (leafDrops (visual t)
          ++ [ {| FallingLeaf.x := x; FallingLeaf.y := y;
                  FallingLeaf.vx := vx; FallingLeaf.vy := vy;
                  FallingLeaf.ax := 0;
                  FallingLeaf.rotation := rotation;
                  FallingLeaf.rotationSpeed := rotationSpeed;
                  FallingLeaf.size := size;
                  FallingLeaf.color := color;
                  FallingLeaf.opacity := 1;
                  FallingLeaf.lifetime := lifetime;
                  FallingLeaf.wobblePhase := wobblePhase;
                  FallingLeaf.wobbleSpeed := wobbleSpeed;
                  FallingLeaf.wobbleAmount := wobbleAmount |} ])
         t).

(** One pass of the loop of [updateLeafDrops] on a falling leaf. *)
Definition moveLeafDrop (dt windSpeed : R) (leaf : FallingLeaf.t)
  : FallingLeaf.t :=
  let ax := windSpeed * 0.1 - FallingLeaf.vx leaf * 0.1 in
  let vx1 := FallingLeaf.vx leaf + ax * dt in
  let wobblePhase :=
    FallingLeaf.wobblePhase leaf + FallingLeaf.wobbleSpeed leaf * dt in
  let vx2 := vx1 + sin wobblePhase * FallingLeaf.wobbleAmount leaf * dt in
  let vy := JS.Math_min (FallingLeaf.vy leaf + 0.05 * dt) 2 in
  let lifetime := FallingLeaf.lifetime leaf - dt in
  {| FallingLeaf.x := FallingLeaf.x leaf + vx2 * dt;
     FallingLeaf.y := FallingLeaf.y leaf + vy * dt;
     FallingLeaf.vx := vx2; FallingLeaf.vy := vy; FallingLeaf.ax := ax;
     FallingLeaf.rotation :=
       FallingLeaf.rotation leaf + FallingLeaf.rotationSpeed leaf * dt;
     FallingLeaf.rotationSpeed := FallingLeaf.rotationSpeed leaf;
     FallingLeaf.size := FallingLeaf.size leaf;
     FallingLeaf.color := FallingLeaf.color leaf;
     FallingLeaf.opacity :=
       if lifetime <? 50 then lifetime / 50 else FallingLeaf.opacity leaf;
     FallingLeaf.lifetime := lifetime;
     FallingLeaf.wobblePhase := wobblePhase;
     FallingLeaf.wobbleSpeed := FallingLeaf.wobbleSpeed leaf;
     FallingLeaf.wobbleAmount := FallingLeaf.wobbleAmount leaf |}.

(** function updateLeafDrops(dt, windSpeed): the loop runs from the last
    leaf to the first and removes a leaf that has faded or left the
    screen. *)
Definition updateLeafDrops (dt windSpeed : R) (t : Tree) : Tree :=
  set_leafDrops
    (fold_right
       (fun leaf rest =>
          let leaf' := moveLeafDrop dt windSpeed leaf in
          if (FallingLeaf.lifetime leaf' <=? 0)
             || (FallingLeaf.y leaf' >? 1000)
          then rest else leaf' :: rest)
       [] (leafDrops (visual t)))
    t.

(** ** js/simulation.js: the engine *)

(** const simulationState = {...} *)
Record SimulationState : Type := {
  running : bool;
  paused : bool;
  time : R;
  lastFrameTime : R;
  fps : R;
  frameCount : Z;
  physicsAccumulator : R;
  substepTime : R
}.

Definition simulationState0 : SimulationState :=
  {| running := true; paused := false; time := 0; lastFrameTime := 0;
     fps := 0; frameCount := 0; physicsAccumulator := 0;
     substepTime := 1 / 60 |}.

(** The global objects of the page that the engine reads and writes. *)
Record Global : Type := {
  tree : Tree;
  environment : Environment;
  prngState : PRNG.prngState;
  simulationState : SimulationState;
  healthHistory : list R
}.

(** The amounts that [applyMortalityModel] adds to [hazardPerYear], one
    for each [if] of the function; an amount is 0 when the condition of its
    [if] is false. *)

(** let hazardPerYear = Math.max(0, m.baseRatePerYear || 0) *)
Definition baseHazard (m : Mortality.t) : R :=
  JS.Math_max 0 (JS.or_default (Mortality.baseRatePerYear m) 0).

(** Senescence: ramps up after senescenceStartAge. *)
Definition senescenceHazard (m : Mortality.t) (t : Tree) : R :=
  let age := age (temporal t) in
  match Mortality.senescenceStartAge m, Mortality.maxAge m with
  | Some senescenceStartAge, Some maxAge =>
      if age >? senescenceStartAge then
        let span := JS.Math_max 0.000001 (maxAge - senescenceStartAge) in
        let t' :=
          JS.Math_min 1 (JS.Math_max 0 ((age - senescenceStartAge) / span)) in
        0.02 * (t' * t')
      else 0
  | _, _ => 0
  end.

(** Chronic stress: high stress increases hazard. *)
Definition stressHazard (t : Tree) : R :=
  let stress01 := clamp (stressLevel (vitality t) / 100) 0 1 in
  0.03 * (stress01 * stress01).

(** const water01 = clamp(environment.water / 100, 0, 1) *)
Definition water01 (e : Environment) : R := clamp (water e / 100) 0 1.

Definition droughtHazard (m : Mortality.t) (e : Environment) : R :=
  if water01 e <? Mortality.droughtThreshold m then
    let droughtT :=
      (Mortality.droughtThreshold m - water01 e)
      / JS.Math_max 0.000001 (Mortality.droughtThreshold m) in
    0.04 * droughtT
  else 0.

Definition heatHazard (m : Mortality.t) (e : Environment) : R :=
  if temperature e >? Mortality.heatStressTemp m then
    let heatT := (temperature e - Mortality.heatStressTemp m) / 20 in
    0.03 * clamp heatT 0 2
  else 0.

Definition diseaseHazard (m : Mortality.t) (e : Environment) (t : Tree) : R :=
  if disease e then
    let health01 := clamp (health (vitality t) / 100) 0 1 in
    JS.or_default (Mortality.diseaseBaseRatePerYear m) 0 * (1 - health01)
  else 0.

Definition stormHazard (m : Mortality.t) (e : Environment) : R :=
  if storm e then
    let wind01 := clamp (windSpeed e / 100) 0 1 in
    JS.or_default (Mortality.stormFrequency m) 0 * 0.02 * wind01
  else 0.

(** The conditions of the fire and windthrow hazards; the attribution of
    the cause tests the same conditions. *)
Definition fireConditions (cfg : CONFIG.Disturbance) (e : Environment)
  : bool :=
  (water01 e <? CONFIG.FIRE_DROUGHT_THRESHOLD cfg)
  && (temperature e >? CONFIG.FIRE_HEAT_THRESHOLD cfg).

Definition windthrowConditions (cfg : CONFIG.Disturbance) (e : Environment)
  : bool :=
  storm e && (windSpeed e >? CONFIG.WINDTHROW_WIND_THRESHOLD cfg).

(** Fire hazard. *)
Definition fireHazard (cfg : CONFIG.Disturbance) (e : Environment)
    (t : Tree) : R :=
  let species := TREE_SPECIES.get_or_OAK (species t) in
  let fireResistance := JS.or_default (Species.fireResistance species) 0.5 in
  if fireConditions cfg e then
    let droughtSeverity :=
      (CONFIG.FIRE_DROUGHT_THRESHOLD cfg - water01 e)
      / CONFIG.FIRE_DROUGHT_THRESHOLD cfg in
    let heatSeverity :=
      clamp ((temperature e - CONFIG.FIRE_HEAT_THRESHOLD cfg) / 20) 0 1 in
    0.05 * droughtSeverity * heatSeverity * (1 - fireResistance)
  else 0.

(** Windthrow hazard. *)
Definition windthrowHazard (cfg : CONFIG.Disturbance) (e : Environment)
    (t : Tree) : R :=
  let species := TREE_SPECIES.get_or_OAK (species t) in
  let windthrowResistance :=
    JS.or_default (Species.windthrowResistance species) 0.5 in
  if windthrowConditions cfg e then
    let windSeverity :=
      clamp ((windSpeed e - CONFIG.WINDTHROW_WIND_THRESHOLD cfg)
             / CONFIG.WINDTHROW_WIND_RANGE cfg) 0 1 in
    let sizeFactor :=
      clamp (height (morphology t)
             / JS.or_default (Species.maxHeight species) 40) 0 1 in
    0.06 * windSeverity * sizeFactor * (1 - windthrowResistance)
  else 0.

(** The annualized hazard that [applyMortalityModel] accumulates in
    [hazardPerYear], after the final clamp. *)
Definition hazardPerYear (cfg : CONFIG.Disturbance) (m : Mortality.t)
    (e : Environment) (t : Tree) : R :=
  clamp
    (baseHazard m + senescenceHazard m t + stressHazard t
     + droughtHazard m e + heatHazard m e + diseaseHazard m e t
     + stormHazard m e + fireHazard cfg e t + windthrowHazard cfg e t)
    0 5.

(** The constant [pDie] of [applyMortalityModel]. *)
Definition pDie (hazardPerYear dtDays : R) : R :=
  let dtYears := dtDays / CONFIG.DAYS_PER_YEAR in
  1 - exp (- hazardPerYear * dtYears).

(** The cause that [applyMortalityModel] records when the sampled death
    test succeeds. *)
Definition sampledDeathCause (cfg : CONFIG.Disturbance) (m : Mortality.t)
    (e : Environment) (t : Tree) : string :=
  if windthrowConditions cfg e then "Windthrow"
  else if fireConditions cfg e then "Fire"
  else if disease e then "Disease"
  else if match Mortality.senescenceStartAge m with
          | Some senescenceStartAge => age (temporal t) >? senescenceStartAge
          | None => false
          end then "Old age"
  else "Mortality event".

(** function applyMortalityModel(dtDays) *)
Definition applyMortalityModel (cfg : CONFIG.Disturbance) (dtDays : R)
    (e : Environment) (t : Tree) : PRNG.Rand Tree :=
  if health (vitality t) <=? 0 then PRNG.ret t
  else
    match mortality t with
    | None => PRNG.ret t
    | Some m =>
        if negb (Mortality.enabled m) then PRNG.ret t
        else if match Mortality.maxAge m with
                | Some maxAge => age (temporal t) >=? maxAge
                | None => false
                end then
          (* Hard cap: max age reached. *)
          PRNG.ret (set_deathCause (Some "Old age"%string) (set_health 0 t))
        else
          let dtYears := dtDays / CONFIG.DAYS_PER_YEAR in
          if dtYears <=? 0 then PRNG.ret t
          else
            r <- PRNG.random ;;
            if r <? pDie (hazardPerYear cfg m e t) dtDays then
              PRNG.ret
                (set_deathCause (Some (sampledDeathCause cfg m e t))
                   (set_health 0 t))
            else PRNG.ret t
    end.

(** function calculatePhotosynthesis(sunlight, water, soilQuality) *)
Definition calculatePhotosynthesis (sunlight water soilQuality : R) : R :=
  let lightFactor := sunlight / 100 in
  let waterFactor := JS.Math_min 1 (water / 50) in
  let nutrientFactor := soilQuality / 100 in
  let baseRate := 1.0 in
  baseRate * lightFactor * waterFactor * nutrientFactor.

(** function calculateTotalStress() *)
Definition calculateTotalStress (e : Environment) : R :=
  let stress := 0 in
  let stress :=
    if water e <? 40 then stress + (40 - water e) / 40 * 30
    else if water e >? 85 then stress + (water e - 85) / 15 * 20
    else stress in
  let stress :=
    if (temperature e <? 5) || (temperature e >? 35) then stress + 20
    else if (temperature e <? 12) || (temperature e >? 28) then stress + 10
    else stress in
  let stress :=
    if sunlight e <? 30 then stress + (30 - sunlight e) / 30 * 15
    else stress in
  let stress := if disease e then stress + 25 else stress in
  let stress := if pests e then stress + 20 else stress in
  let stress := if storm e then stress + 15 else stress in
  let stress := if pollution e then stress + 10 else stress in
  JS.Math_min 100 stress.

(** function calculateEvapotranspiration() *)
Definition calculateEvapotranspiration (e : Environment) : R :=
  let tempFactor := JS.Math_max 0 (temperature e / 30) in
  let windFactor := windSpeed e / 100 in
  let humidityFactor := 1 - humidity e / 100 in
  tempFactor * (1 + windFactor) * humidityFactor * 0.5.

(** function updateFoliage(dt) *)
Definition updateFoliage (dt : R) (e : Environment) (t : Tree) : Tree :=
  let targetOpacity := health (vitality t) / 100 in
  let targetDensity := health (vitality t) / 100 in
  let species := TREE_SPECIES.get_or_OAK (species t) in
  let isEvergreen := evergreen_or_false species in
  let seasonProgress := getSeasonProgress (dayOfYear e) in
  let targets :=
    match season e with
    | SeasonObject WINTER =>
        if isEvergreen then (targetOpacity * 0.7, targetDensity * 0.8)
        else (targetOpacity * 0.05, targetDensity * 0.1)
    | SeasonObject AUTUMN =>
        if isEvergreen then (targetOpacity * 0.8, targetDensity * 0.85)
        else
          let dropRate := JS.or_default (Species.autumnLeafDrop species) 0.5 in
          let autumnFade :=
            1 - JS.Math_pow seasonProgress 1.5 * (1 - dropRate * 0.3) in
          (targetOpacity * autumnFade, targetDensity * autumnFade)
    | SeasonObject SPRING =>
        let leafOutRate :=
          if isEvergreen then 0.8
          else JS.or_default (Species.springLeafOut species) 0.3 in
        let springGrowth :=
          JS.Math_pow seasonProgress 0.7 * (1 - leafOutRate) + leafOutRate in
        (targetOpacity * springGrowth,
         targetDensity * (0.4 + springGrowth * 0.6))
    | SeasonObject SUMMER =>
        (targetOpacity, JS.Math_min 1 (targetDensity * 1.1))
    | SeasonString _ => (targetOpacity, targetDensity)
    end in
  let targetOpacity := fst targets in
  let targetDensity := snd targets in
  (* Stress reduces foliage. *)
  let targetOpacity :=
    if stressLevel (vitality t) >? 40 then
      let stressFactor := 1 - (stressLevel (vitality t) - 40) / 120 in
      targetOpacity * stressFactor
    else targetOpacity in
  (* Smooth transitions. *)
  let t :=
    set_foliageOpacity
      (foliageOpacity (leafSystem t)
       + (targetOpacity - foliageOpacity (leafSystem t)) * 0.08) t in
  let t :=
    set_foliageDensity
      (foliageDensity (leafSystem t)
       + (targetDensity - foliageDensity (leafSystem t)) * 0.06) t in
  (* Clamp. *)
  let t := set_foliageOpacity (clamp (foliageOpacity (leafSystem t)) 0 1) t in
  set_foliageDensity (clamp (foliageDensity (leafSystem t)) 0 1) t.

(** function updateBiomass(dt, growthFactor) *)
Definition updateBiomass (dt growthFactor : R) (e : Environment) (t : Tree)
  : Tree :=
  if growthFactor <=? 0 then t
  else
    let healthFactor := health (vitality t) / 100 in
    let allocation := growthFactor * healthFactor * dt in
    (* Allocation priorities change with season. *)
    let spring := is_season (season e) SPRING in
    let autumn := is_season (season e) AUTUMN in
    let trunkAlloc := if spring then 0.25 else 0.35 in
    let branchAlloc := 0.20 in
    let leafAlloc := if spring then 0.40 else if autumn then 0.10 else 0.25 in
    let rootAlloc := if spring then 0.20 else if autumn then 0.35 else 0.20 in
    (* Apply growth. *)
    let b := biomass t in
    let trunk := Biomass.trunk b + allocation * trunkAlloc * 10 in
    let branches := Biomass.branches b + allocation * branchAlloc * 5 in
    let leaves :=
      Biomass.leaves b
      + allocation * leafAlloc * 2 * foliageOpacity (leafSystem t) in
    let roots := Biomass.roots b + allocation * rootAlloc * 3 in
    (* Heartwood formation. *)
    let old := age (temporal t) >? 10 in
    let heartwoodFormation := Biomass.sapwood b * 0.001 * dt in
    let heartwood :=
      if old then Biomass.heartwood b + heartwoodFormation
      else Biomass.heartwood b in
    let sapwood := if old then trunk - heartwood else trunk in
    (* Total. *)
    set_biomass
      {| Biomass.total := trunk + branches + leaves + roots;
         Biomass.trunk := trunk; Biomass.branches := branches;
         Biomass.leaves := leaves; Biomass.roots := roots;
         Biomass.heartwood := heartwood; Biomass.sapwood := sapwood |}
      t.

(** function getAutumnLeafDropRate(progress) *)
Definition getAutumnLeafDropRate (progress : R) : R :=
  JS.Math_pow progress 2 * 0.8.

(** function handleLeafDrop(dt); [renderer.width] is
    [CONFIG.CANVAS_WIDTH]. *)
Definition handleLeafDrop (dt : R) (e : Environment) (t : Tree)
  : PRNG.Rand Tree :=
  let seasonProgress := getSeasonProgress (dayOfYear e) in
  let dropProbability := 0 in
  let dropProbability :=
    if is_season (season e) AUTUMN then getAutumnLeafDropRate seasonProgress
    else dropProbability in
  let dropProbability :=
    if stressLevel (vitality t) >? 50
    then dropProbability + (stressLevel (vitality t) - 50) / 100 * 0.3
    else dropProbability in
  let dropProbability :=
    if storm e && (windSpeed e >? 50) then dropProbability + 0.4
    else dropProbability in
  r <- PRNG.random ;;
  if (r <? dropProbability * dt * 0.15)
     && (foliageOpacity (leafSystem t) >? 0.1) then
    let centerX := CONFIG.CANVAS_WIDTH / 2 in
    let treeTop := 850 - height (morphology t) * 100 in
    let canopyRadius := 60 + height (morphology t) * 20 in
    angle <- PRNG.random2 0 (PI * 2) ;;
    r1 <- PRNG.random2 0.3 1 ;;
    let radius := r1 * canopyRadius in
    let leafX := centerX + cos angle * radius in
    r2 <- PRNG.random2 (-30) 30 ;;
    let leafY := treeTop + crownHeight (morphology t) * 50 + r2 in
    createFallingLeaf leafX leafY (season e) t
  else PRNG.ret t.

(** function recordHealth() *)
Definition recordHealth (g : Global) : list R :=
  if negb (Z.eqb (JS.rem (frameCount (simulationState g)) 5) 0)
  then healthHistory g
  else
    let history :=
      if Nat.leb CONFIG.MAX_HISTORY (List.length (healthHistory g))
      then tl (healthHistory g) else healthHistory g in
    history ++ [JS.Math_round (health (vitality (tree g)) * 10) / 10].

(** *** The blocks of [updateBiology] *)

(** The constant [photoRate]. *)
Definition photoRate (e : Environment) : R :=
  calculatePhotosynthesis (sunlight e) (water e) (soilQuality e).

(** The constant [netCarbon]: PHOTOSYNTHESIS, RESPIRATION, NET CARBON
    BALANCE. *)
Definition netCarbon (e : Environment) (t : Tree) : R :=
  let tempFactor := JS.Math_pow 2 ((temperature e - 20) / 10) in
  let respirationRate :=
    0.02 * tempFactor * (Biomass.total (biomass t) / 100) in
  photoRate e - respirationRate.

(** The assignments to [environment.totalStress] and
    [environment.waterAvailability]. *)
Definition recordStress (stress : R) (e : Environment) : Environment :=
  {| year := year e; dayOfYear := dayOfYear e; season := season e;
     hour := hour e; sunlight := sunlight e; water := water e;
     temperature := temperature e; soilQuality := soilQuality e;
     windSpeed := windSpeed e; humidity := humidity e;
     totalStress := stress; waterAvailability := water e;
     disease := disease e; pests := pests e; storm := storm e;
     pollution := pollution e |}.

(** The constant [isDormant]: DORMANCY CHECK. *)
Definition isDormant (e : Environment) (t : Tree) : bool :=
  let dormancySpecies := TREE_SPECIES.get_or_OAK (species t) in
  let speciesIsEvergreen := evergreen_or_false dormancySpecies in
  (negb speciesIsEvergreen && is_season (season e) WINTER)
  || (temperature e <? (if speciesIsEvergreen then -10 else 5))
  || (negb speciesIsEvergreen && is_season (season e) AUTUMN
      && (getSeasonProgress (dayOfYear e) >? 0.7)).

(** The constant [netGrowthFactor]: NET GROWTH FACTOR. *)
Definition netGrowthFactor (isDormant : bool) (e : Environment) (t : Tree)
  : R :=
  let stress := calculateTotalStress e in
  let seasonGrowth := getSeasonalGrowthMultiplier (season e) in
  if isDormant then 0
  else JS.Math_max 0 ((netCarbon e t * 0.8 - stress * 0.3) * seasonGrowth).

(** HEALTH DYNAMICS; [noise] is the value of [randomGaussian(0, 0.3)]. *)
Definition healthDynamics (dt netGrowthFactor noise : R) (e : Environment)
    (t : Tree) : Tree :=
  let stress := calculateTotalStress e in
  let stressImpact := stress * 20 in
  let recoveryRate :=
    photoRate e * 0.5 + (100 - stressLevel (vitality t)) * 0.1 in
  let healthDelta := netGrowthFactor * 10 + recoveryRate * 0.5 - stressImpact in
  let t :=
    set_health (health (vitality t) + (healthDelta * dt + noise * dt)) t in
  set_health (clamp (health (vitality t)) 0 100) t.

(** VIGOR *)
Definition vigorDynamics (netGrowthFactor : R) (t : Tree) : Tree :=
  let t :=
    set_vigor
      (vigor (vitality t) * 0.98
       + (health (vitality t) * netGrowthFactor) * 0.02) t in
  set_vigor (clamp (vigor (vitality t)) 0 100) t.

(** STRESS ACCUMULATION *)
Definition stressAccumulation (dt : R) (e : Environment) (t : Tree) : Tree :=
  let stress := calculateTotalStress e in
  let t :=
    set_stressLevel (stressLevel (vitality t) * 0.95 + stress * 30 * dt) t in
  set_stressLevel (clamp (stressLevel (vitality t)) 0 100) t.

(** DISEASE PROGRESSION *)
Definition diseaseProgression (dt : R) (e : Environment) (t : Tree) : Tree :=
  set_diseaseLoad
    (if disease e then
       JS.Math_min 100
         (diseaseLoad (vitality t)
          + dt * 2 * (100 - health (vitality t)) / 100)
     else JS.Math_max 0 (diseaseLoad (vitality t) - dt * 0.5))
    t.

(** The body of the block PHYSICAL GROWTH. *)
Definition physicalGrowth (dt netGrowthFactor : R) (e : Environment)
    (t : Tree) : Tree :=
  let species := TREE_SPECIES.get_or_OAK (species t) in
  let speciesGrowthRate := JS.or_default (Species.growthRate species) 1.0 in
  let healthFactor := health (vitality t) / 100 in
  let vigorFactor := vigor (vitality t) / 100 in
  let ageFactor :=
    JS.Math_max 0.1 (1 - age (temporal t) / (Species.maxAge species * 0.4)) in
  let growthRate :=
    netGrowthFactor * healthFactor * vigorFactor * ageFactor
    * speciesGrowthRate in
  (* Height growth. *)
  let heightLimit :=
    JS.or_default (Species.maxHeight species) CONFIG.TREE_MAX_HEIGHT in
  let heightSaturation :=
    JS.Math_pow (1 - height (morphology t) / heightLimit) 2 in
  let heightGrowth :=
    growthRate * CONFIG.HEIGHT_GROWTH_FACTOR * heightSaturation in
  let t :=
    set_height
      (JS.Math_min heightLimit (height (morphology t) + heightGrowth * dt)) t in
  let t :=
    set_growthThisYear (growthThisYear (annual t) + heightGrowth * dt) t in
  (* DBH growth. *)
  let expectedDBH := JS.Math_pow (height (morphology t)) 0.8 * 0.05 in
  let dbhGrowth :=
    (expectedDBH - dbh (morphology t)) * growthRate * 0.1
    + growthRate * CONFIG.DBH_GROWTH_FACTOR * 0.0005 in
  let t :=
    set_dbh
      (JS.Math_max (dbh (morphology t)) (dbh (morphology t) + dbhGrowth * dt))
      t in
  (* Crown dimensions. *)
  let t := set_crownRadius (height (morphology t) * 0.4 * healthFactor) t in
  let t := set_crownHeight (height (morphology t) * 0.5 * healthFactor) t in
  (* Root expansion. *)
  let rootGrowth :=
    growthRate * CONFIG.ROOT_GROWTH_FACTOR * (soilQuality e / 100) * 0.005 in
  let t :=
    set_rootDepth
      (JS.Math_min (height (morphology t) * 0.8)
         (rootDepth (morphology t) + rootGrowth * dt)) t in
  let t :=
    set_rootSpread
      (JS.Math_min (crownRadius (morphology t) * 1.5)
         (rootSpread (morphology t) + rootGrowth * 0.8 * dt)) t in
  (* Leaf metrics. *)
  let t :=
    set_leafArea
      (crownRadius (morphology t) * crownRadius (morphology t) * PI
       * foliageOpacity (leafSystem t) * healthFactor) t in
  set_leafCount (JS.Math_floor (leafArea (leafSystem t) * 500)) t.

(** The condition of the block PHYSICAL GROWTH. *)
Definition grows (isDormant : bool) (netGrowthFactor : R) (t : Tree) : bool :=
  (health (vitality t) >? 25) && negb isDormant && (netGrowthFactor >? 0).

(** GAS EXCHANGE *)
Definition gasExchange (dt : R) (isDormant : bool) (e : Environment)
    (t : Tree) : Tree :=
  if negb isDormant then
    let effectiveLeafArea :=
      leafArea (leafSystem t) * foliageOpacity (leafSystem t) in
    let absorbedCO2 :=
      photoRate e * effectiveLeafArea * CONFIG.CO2_ABSORPTION_RATE * dt / 365
    in
    let producedO2 :=
      photoRate e * effectiveLeafArea * CONFIG.O2_PRODUCTION_RATE * dt / 365
    in
    let t := set_co2Absorbed (co2Absorbed (carbon t) + absorbedCO2) t in
    let t := set_o2Produced (o2Produced (carbon t) + producedO2) t in
    set_carbonStored (Biomass.total (biomass t) * 0.5) t
  else t.

(** WATER DYNAMICS *)
Definition waterDynamics (dt : R) (e : Environment) (t : Tree) : Tree :=
  let evapotranspiration := calculateEvapotranspiration e in
  let waterUptake :=
    (water e / 100) * rootDepth (morphology t) * rootSpread (morphology t)
    * 0.5 in
  let t :=
    set_waterContent
      (waterContent (vitality t) + (waterUptake - evapotranspiration) * dt) t
  in
  let t := set_waterContent (clamp (waterContent (vitality t)) 0 100) t in
  set_waterTranspired (waterTranspired (carbon t) + evapotranspiration * dt) t.

(** CHLOROPHYLL CONTENT: the value assigned to
    [tree.chlorophyllContent]. *)
Definition chlorophyll (dt : R) (e : Environment) (t : Tree) : R :=
  let currentSpecies := TREE_SPECIES.get_or_OAK (species t) in
  let currentIsEvergreen := evergreen_or_false currentSpecies in
  let c := chlorophyllContent (leafSystem t) in
  if currentIsEvergreen then
    if is_season (season e) WINTER then JS.Math_max 50 (c - dt * 0.5)
    else JS.Math_min 100 (c + dt * 2)
  else if is_season (season e) AUTUMN then
    let progress := getSeasonProgress (dayOfYear e) in
    JS.Math_max 0 (100 * (1 - progress))
  else if is_season (season e) SPRING then
    let progress := getSeasonProgress (dayOfYear e) in
    JS.Math_min 100 (progress * 100)
  else if is_season (season e) WINTER then 0
  else JS.Math_min 100 (c + dt * 2).

(** AGE & ANNUAL CYCLES *)
Definition annualCycle (dt : R) (t : Tree) : PRNG.Rand Tree :=
  let prevYear :=
    Zfloor ((daysSinceBirth (temporal t) - dt) / CONFIG.DAYS_PER_YEAR) in
  let t := set_age (age (temporal t) + dt / CONFIG.DAYS_PER_YEAR) t in
  let t := set_daysSinceBirth (daysSinceBirth (temporal t) + dt) t in
  let currentYear :=
    Zfloor (daysSinceBirth (temporal t) / CONFIG.DAYS_PER_YEAR) in
  if (prevYear <? currentYear)%Z then
    (* New year: add growth ring. *)
    let t := set_ringsGrown (ringsGrown (annual t) + 1)%Z t in
    let t := set_growthThisYear 0 t in
    if Z.eqb (JS.rem (ringsGrown (annual t)) 5) 0 then
      t <- generateBranchArchitecture t ;;
      t <- generateLeafClusters t ;;
      generateRootMesh t
    else PRNG.ret t
  else PRNG.ret t.

(** [updateBiology] from the dormancy check to CHLOROPHYLL CONTENT, for
    the value [noise] of [randomGaussian(0, 0.3)]. *)
Definition metabolism (dt noise : R) (e : Environment) (t : Tree) : Tree :=
  let isDormant := isDormant e t in
  let netGrowthFactor := netGrowthFactor isDormant e t in
  let t := set_dormant isDormant t in
  let t := healthDynamics dt netGrowthFactor noise e t in
  let t := vigorDynamics netGrowthFactor t in
  let t := stressAccumulation dt e t in
  let t := diseaseProgression dt e t in
  let t := updateFoliage dt e t in
  let t :=
    if grows isDormant netGrowthFactor t
    then physicalGrowth dt netGrowthFactor e t else t in
  let t := updateBiomass dt netGrowthFactor e t in
  let t := gasExchange dt isDormant e t in
  let t := waterDynamics dt e t in
  set_chlorophyllContent (chlorophyll dt e t) t.

(** [updateBiology] after the mortality model, for a tree that is still
    alive: from PHOTOSYNTHESIS to LEAF DROP. *)
Definition physiology (dt : R) (e : Environment) (t : Tree)
  : PRNG.Rand (Environment * Tree) :=
  let e := recordStress (calculateTotalStress e) e in
  noise <- PRNG.randomGaussian 0 0.3 ;;
  let t := metabolism dt noise e t in
  t <- annualCycle dt t ;;
  t <- handleLeafDrop dt e t ;;
  PRNG.ret (e, updateLeafDrops dt (windSpeed e) t).

(** function updateBiology(dt) *)
Definition updateBiology (cfg : CONFIG.Disturbance) (dt : R) (g : Global)
  : Global :=
  if health (vitality (tree g)) <=? 0 then
    (* Dead tree still has falling leaves. *)
    {| tree := updateLeafDrops dt (windSpeed (environment g)) (tree g);
       environment := environment g; prngState := prngState g;
       simulationState := simulationState g;
       healthHistory := healthHistory g |}
  else
    (* Update environment time. *)
    let e := updateEnvironmentTime dt (environment g) in
    (* Optional mortality model. *)
    let mortal := applyMortalityModel cfg dt e (tree g) (prngState g) in
    if health (vitality (fst mortal)) <=? 0 then
      {| tree := updateLeafDrops dt (windSpeed e) (fst mortal);
         environment := e; prngState := snd mortal;
         simulationState := simulationState g;
         healthHistory := healthHistory g |}
    else
      let live := physiology dt e (fst mortal) (snd mortal) in
      let g' :=
        {| tree := snd (fst live); environment := fst (fst live);
           prngState := snd live; simulationState := simulationState g;
           healthHistory := healthHistory g |} in
      (* Record health history. *)
      {| tree := tree g'; environment := environment g';
         prngState := prngState g'; simulationState := simulationState g';
         healthHistory := recordHealth g' |}.

(** *** The scheduler *)

(** The loop [while (physicsAccumulator >= substepTime && substeps <
    maxSubsteps)] of [animationLoop]; [remaining] is [maxSubsteps -
    substeps], [step] is the body up to the update of the accumulator, and
    the result carries the final value of [substeps]. *)
Definition consume (g : Global) : Global :=
  let s := simulationState g in
  {| tree := tree g; environment := environment g; prngState := prngState g;
     simulationState :=
       {| running := running s; paused := paused s; time := time s;
          lastFrameTime := lastFrameTime s; fps := fps s;
          frameCount := frameCount s;
          physicsAccumulator := physicsAccumulator s - substepTime s;
          substepTime := substepTime s |};
     healthHistory := healthHistory g |}.

Fixpoint physicsLoop (remaining : nat) (step : Global -> Global)
    (substeps : nat) (g : Global) : nat * Global :=
  match remaining with
  | O => (substeps, g)
  | S remaining' =>
      if physicsAccumulator (simulationState g)
         >=? substepTime (simulationState g)
      then physicsLoop remaining' step (S substeps) (consume (step g))
      else (substeps, g)
  end.

Definition maxSubsteps : nat := 10.

(** One substep of the scheduler: [updateEnvironmentFromUI();
    updateBiology(simulationState.substepTime)]. *)
Definition substep (cfg : CONFIG.Disturbance) (ui : UI.t) (g : Global)
  : Global :=
  let g1 :=
    {| tree := tree g;
       environment := updateEnvironmentFromUI ui (environment g);
       prngState := prngState g; simulationState := simulationState g;
       healthHistory := healthHistory g |} in
  updateBiology cfg (substepTime (simulationState g1)) g1.

(** The block "fixed timestep physics with accumulator" of
    [animationLoop], for the [deltaTime] of the frame; the result carries
    the number of substeps of the frame. *)
Definition fixedTimestep (step : Global -> Global) (deltaTime : R)
    (g : Global) : nat * Global :=
  let s := simulationState g in
  if running s && negb (paused s) then
    let g1 :=
      {| tree := tree g; environment := environment g;
         prngState := prngState g;
         simulationState :=
           {| running := running s; paused := paused s; time := time s;
              lastFrameTime := lastFrameTime s; fps := fps s;
              frameCount := frameCount s;
              physicsAccumulator := physicsAccumulator s + deltaTime;
              substepTime := substepTime s |};
         healthHistory := healthHistory g |} in
    let (substeps, g2) := physicsLoop maxSubsteps step 0 g1 in
    let s2 := simulationState g2 in
    (substeps,
     {| tree := tree g2; environment := environment g2;
        prngState := prngState g2;
        simulationState :=
          {| running := running s2; paused := paused s2;
             time := time s2 + deltaTime;
             lastFrameTime := lastFrameTime s2; fps := fps s2;
             frameCount := frameCount s2;
             physicsAccumulator := physicsAccumulator s2;
             substepTime := substepTime s2 |};
        healthHistory := healthHistory g2 |})
  else (O, g).

(** function getTimeSpeed() *)
Definition getTimeSpeed (ui : UI.t) : R := JS.or_default (UI.speed ui) 1.

(** function animationLoop(timestamp).  [render] stands for [renderScene],
    [updateReadout] and the graphs, which draw from the generator and
    leave [tree], [environment] and [simulationState] as they are: it
    gives the generator state after them. *)
Definition animationLoop (cfg : CONFIG.Disturbance)
    (render : Global -> PRNG.prngState) (ui : UI.t) (timestamp : R)
    (g : Global) : Global :=
  let s := simulationState g in
  let lastFrameTime0 :=
    if JS.eqb (lastFrameTime s) 0 then timestamp else lastFrameTime s in
  let deltaMs := JS.Math_min (timestamp - lastFrameTime0) 100 in
  let g0 :=
    {| tree := tree g; environment := environment g;
       prngState := prngState g;
       simulationState :=
         {| running := running s; paused := paused s; time := time s;
            lastFrameTime := timestamp; fps := fps s;
            frameCount := frameCount s;
            physicsAccumulator := physicsAccumulator s;
            substepTime := substepTime s |};
       healthHistory := healthHistory g |} in
  (* Time speed from UI. *)
  let speedMultiplier := getTimeSpeed ui in
  let deltaTime := (deltaMs / 1000) * speedMultiplier in
  (* Fixed timestep physics with accumulator. *)
  let g1 := snd (fixedTimestep (substep cfg ui) deltaTime g0) in
  (* Render and update the UI. *)
  let p := render g1 in
  (* FPS tracking. *)
  let s1 := simulationState g1 in
  let frameCount1 := (frameCount s1 + 1)%Z in
  {| tree := tree g1; environment := environment g1; prngState := p;
     simulationState :=
       {| running := running s1; paused := paused s1; time := time s1;
          lastFrameTime := lastFrameTime s1;
          fps :=
            if Z.eqb (JS.rem frameCount1 30) 0
            then JS.Math_round (1000 / (if JS.eqb deltaMs 0 then 16.67
                                        else deltaMs))
            else fps s1;
          frameCount := frameCount1;
          physicsAccumulator := physicsAccumulator s1;
          substepTime := substepTime s1 |};
     healthHistory := healthHistory g1 |}.



(** The substeps of a run: the tree after each of them, one UI reading per
    substep, each with [dt = substepTime]. *)
Fixpoint trajectory (cfg : CONFIG.Disturbance) (uis : list UI.t)
    (g : Global) : list Tree :=
  match uis with
  | [] => []
  | ui :: rest =>
      let g' := substep cfg ui g in
      tree g' :: trajectory cfg rest g'
  end.


(** ** js/simulation.js before the mortality model and the species

    The revision of [updateBiology] and [updateFoliage] that has neither
    [applyMortalityModel] nor [TREE_SPECIES].  The other functions and the
    other blocks of [updateBiology] are the same in both revisions. *)

Module Basic.

(** function updateFoliage(dt) *)
Definition updateFoliage (dt : R) (e : Environment) (t : Tree) : Tree :=
  let targetOpacity := health (vitality t) / 100 in
  let targetDensity := health (vitality t) / 100 in
  let seasonProgress := getSeasonProgress (dayOfYear e) in
  let targets :=
    match season e with
    | SeasonObject WINTER => (targetOpacity * 0.05, targetDensity * 0.1)
    | SeasonObject AUTUMN =>
        let autumnFade := 1 - JS.Math_pow seasonProgress 1.5 in
        (targetOpacity * autumnFade, targetDensity * autumnFade)
    | SeasonObject SPRING =>
        let springGrowth := JS.Math_pow seasonProgress 0.7 in
        (targetOpacity * springGrowth,
         targetDensity * (0.4 + springGrowth * 0.6))
    | SeasonObject SUMMER =>
        (targetOpacity, JS.Math_min 1 (targetDensity * 1.1))
    | SeasonString _ => (targetOpacity, targetDensity)
    end in
  let targetOpacity := fst targets in
  let targetDensity := snd targets in
  let targetOpacity :=
    if stressLevel (vitality t) >? 40 then
      let stressFactor := 1 - (stressLevel (vitality t) - 40) / 120 in
      targetOpacity * stressFactor
    else targetOpacity in
  let t :=
    set_foliageOpacity
      (foliageOpacity (leafSystem t)
       + (targetOpacity - foliageOpacity (leafSystem t)) * 0.08) t in
  let t :=
    set_foliageDensity
      (foliageDensity (leafSystem t)
       + (targetDensity - foliageDensity (leafSystem t)) * 0.06) t in
  let t := set_foliageOpacity (clamp (foliageOpacity (leafSystem t)) 0 1) t in
  set_foliageDensity (clamp (foliageDensity (leafSystem t)) 0 1) t.

(** The constant [isDormant]: DORMANCY CHECK. *)
Definition isDormant (e : Environment) : bool :=
  is_season (season e) WINTER
  || (temperature e <? 5)
  || (is_season (season e) AUTUMN
      && (getSeasonProgress (dayOfYear e) >? 0.7)).

(** The body of the block PHYSICAL GROWTH. *)
Definition physicalGrowth (dt netGrowthFactor : R) (e : Environment)
    (t : Tree) : Tree :=
  let healthFactor := health (vitality t) / 100 in
  let vigorFactor := vigor (vitality t) / 100 in
  let ageFactor := JS.Math_max 0.1 (1 - age (temporal t) / 200) in
  let growthRate := netGrowthFactor * healthFactor * vigorFactor * ageFactor in
  let heightLimit := CONFIG.TREE_MAX_HEIGHT in
  let heightSaturation :=
    JS.Math_pow (1 - height (morphology t) / heightLimit) 2 in
  let heightGrowth :=
    growthRate * CONFIG.HEIGHT_GROWTH_FACTOR * heightSaturation in
  let t :=
    set_height
      (JS.Math_min heightLimit (height (morphology t) + heightGrowth * dt)) t in
  let t :=
    set_growthThisYear (growthThisYear (annual t) + heightGrowth * dt) t in
  let expectedDBH := JS.Math_pow (height (morphology t)) 0.8 * 0.05 in
  let dbhGrowth :=
    (expectedDBH - dbh (morphology t)) * growthRate * 0.1
    + growthRate * CONFIG.DBH_GROWTH_FACTOR * 0.0005 in
  let t :=
    set_dbh
      (JS.Math_max (dbh (morphology t)) (dbh (morphology t) + dbhGrowth * dt))
      t in
  let t := set_crownRadius (height (morphology t) * 0.4 * healthFactor) t in
  let t := set_crownHeight (height (morphology t) * 0.5 * healthFactor) t in
  let rootGrowth :=
    growthRate * CONFIG.ROOT_GROWTH_FACTOR * (soilQuality e / 100) * 0.005 in
  let t :=
    set_rootDepth
      (JS.Math_min (height (morphology t) * 0.8)
         (rootDepth (morphology t) + rootGrowth * dt)) t in
  let t :=
    set_rootSpread
      (JS.Math_min (crownRadius (morphology t) * 1.5)
         (rootSpread (morphology t) + rootGrowth * 0.8 * dt)) t in
  let t :=
    set_leafArea
      (crownRadius (morphology t) * crownRadius (morphology t) * PI
       * foliageOpacity (leafSystem t) * healthFactor) t in
  set_leafCount (JS.Math_floor (leafArea (leafSystem t) * 500)) t.

(** CHLOROPHYLL CONTENT: the value assigned to
    [tree.chlorophyllContent]. *)
Definition chlorophyll (dt : R) (e : Environment) (t : Tree) : R :=
  if is_season (season e) AUTUMN then
    let progress := getSeasonProgress (dayOfYear e) in
    JS.Math_max 0 (100 * (1 - progress))
  else if is_season (season e) SPRING then
    let progress := getSeasonProgress (dayOfYear e) in
    JS.Math_min 100 (progress * 100)
  else if is_season (season e) WINTER then 0
  else JS.Math_min 100 (chlorophyllContent (leafSystem t) + dt * 2).

(** [updateBiology] from the dormancy check to CHLOROPHYLL CONTENT. *)
Definition metabolism (dt noise : R) (e : Environment) (t : Tree) : Tree :=
  let isDormant := isDormant e in
  let netGrowthFactor := netGrowthFactor isDormant e t in
  let t := set_dormant isDormant t in
  let t := healthDynamics dt netGrowthFactor noise e t in
  let t := vigorDynamics netGrowthFactor t in
  let t := stressAccumulation dt e t in
  let t := diseaseProgression dt e t in
  let t := updateFoliage dt e t in
  let t :=
    if grows isDormant netGrowthFactor t
    then physicalGrowth dt netGrowthFactor e t else t in
  let t := updateBiomass dt netGrowthFactor e t in
  let t := gasExchange dt isDormant e t in
  let t := waterDynamics dt e t in
  set_chlorophyllContent (chlorophyll dt e t) t.

(** [updateBiology] for a living tree, from PHOTOSYNTHESIS to LEAF DROP. *)
Definition physiology (dt : R) (e : Environment) (t : Tree)
  : PRNG.Rand (Environment * Tree) :=
  let e := recordStress (calculateTotalStress e) e in
  noise <- PRNG.randomGaussian 0 0.3 ;;
  let t := metabolism dt noise e t in
  t <- annualCycle dt t ;;
  t <- handleLeafDrop dt e t ;;
  PRNG.ret (e, updateLeafDrops dt (windSpeed e) t).

(** function updateBiology(dt) *)
Definition updateBiology (dt : R) (g : Global) : Global :=
  if health (vitality (tree g)) <=? 0 then
    {| tree := updateLeafDrops dt (windSpeed (environment g)) (tree g);
       environment := environment g; prngState := prngState g;
       simulationState := simulationState g;
       healthHistory := healthHistory g |}
  else
    let e := updateEnvironmentTime dt (environment g) in
    let live := physiology dt e (tree g) (prngState g) in
    let g' :=
      {| tree := snd (fst live); environment := fst (fst live);
         prngState := snd live; simulationState := simulationState g;
         healthHistory := healthHistory g |} in
    {| tree := tree g'; environment := environment g';
       prngState := prngState g'; simulationState := simulationState g';
       healthHistory := recordHealth g' |}.

(** One substep of the scheduler. *)
Definition substep (ui : UI.t) (g : Global) : Global :=
  let g1 :=
    {| tree := tree g;
       environment := updateEnvironmentFromUI ui (environment g);
       prngState := prngState g; simulationState := simulationState g;
       healthHistory := healthHistory g |} in
  updateBiology (substepTime (simulationState g1)) g1.

(** The substeps of a run: the tree after each of them. *)
Fixpoint trajectory (uis : list UI.t) (g : Global) : list Tree :=
  match uis with
  | [] => []
  | ui :: rest =>
      let g' := substep ui g in
      tree g' :: trajectory rest g'
  end.

End Basic.

(** ** js/tree.js: the class [Tree]

    The earlier, class-based simulation.  [Math.random()] is the host's
    generator: it is not seeded by [initPRNG], and the model reads its
    values from the host. *)

Module ClassTree.

(** The host's source of [Math.random()] values: the values it will
    return, and how many have been taken. *)
Record Host : Type := { values : nat -> R; taken : nat }.

Definition Math_random (h : Host) : R * Host :=
  (values h (taken h), {| values := values h; taken := S (taken h) |}).

Definition SENESCENCE_MORTALITY_RATE : R := 0.1.
Definition DROUGHT_MORTALITY_THRESHOLD : R := 0.7.
Definition DROUGHT_MORTALITY_RATE : R := 0.05.
Definition HEAT_MORTALITY_THRESHOLD : R := 0.8.
Definition HEAT_MORTALITY_RATE : R := 0.03.

(** The object that [Simulation.getEnvironment] returns. *)
Record Env : Type := {
  water_level : R;
  temperature : R;
  light_intensity : option R;
  growth_rate : option R;
  drought_threshold : R;
  heat_stress_temp : R;
  disease_base_rate : R;
  storm_frequency : R;
  enable_mortality : bool;
  enable_growth : bool
}.

(** class Tree *)
Record t : Type := {
  x : R;
  y : R;
  age : R;
  height : R;
  radius : R;
  health : R;
  alive : bool;
  deathCause : option string;
  deathAge : option R;
  maxAge : R;
  senescenceStartAge : R;
  baseMortalityRate : R;
  waterStress : R;
  heatStress : R;
  diseaseResistance : R
}.

(** die(cause) *)
Definition die (cause : string) (tr : t) : t :=
  {| x := x tr; y := y tr; age := age tr; height := height tr;
     radius := radius tr; health := health tr; alive := false;
     deathCause := Some cause; deathAge := Some (age tr);
     maxAge := maxAge tr; senescenceStartAge := senescenceStartAge tr;
     baseMortalityRate := baseMortalityRate tr;
     waterStress := waterStress tr; heatStress := heatStress tr;
     diseaseResistance := diseaseResistance tr |}.

(** calculateStress(environment) *)
Definition calculateStress (environment : Env) (tr : t) : t :=
  let waterStress :=
    if water_level environment <? drought_threshold environment
    then 1 - water_level environment / drought_threshold environment
    else JS.Math_max 0 (waterStress tr - 0.05) in
  let heatStress :=
    if temperature environment >? heat_stress_temp environment
    then (temperature environment - heat_stress_temp environment) / 20
    else JS.Math_max 0 (heatStress tr - 0.05) in
  let stressDamage := (waterStress + heatStress) * 0.5 in
  {| x := x tr; y := y tr; age := age tr; height := height tr;
     radius := radius tr;
     health := JS.Math_max 0 (health tr - stressDamage);
     alive := alive tr; deathCause := deathCause tr;
     deathAge := deathAge tr; maxAge := maxAge tr;
     senescenceStartAge := senescenceStartAge tr;
     baseMortalityRate := baseMortalityRate tr;
     waterStress := waterStress; heatStress := heatStress;
     diseaseResistance := diseaseResistance tr |}.

(** The rest of [checkMortality] after the senescence test: drought, heat,
    disease, storm, health. *)
Definition checkOtherCauses (environment : Env) (tr : t) (h : Host)
  : bool * t * Host :=
  let droughtTest :=
    if waterStress tr >? DROUGHT_MORTALITY_THRESHOLD then
      let droughtHazard := waterStress tr * DROUGHT_MORTALITY_RATE in
      let (r, h1) := Math_random h in (r <? droughtHazard, h1)
    else (false, h) in
  if fst droughtTest then (true, die "drought" tr, snd droughtTest)
  else
    let h := snd droughtTest in
    let heatTest :=
      if heatStress tr >? HEAT_MORTALITY_THRESHOLD then
        let heatHazard := heatStress tr * HEAT_MORTALITY_RATE in
        let (r, h1) := Math_random h in (r <? heatHazard, h1)
      else (false, h) in
    if fst heatTest then (true, die "heat_stress" tr, snd heatTest)
    else
      let h := snd heatTest in
      let diseaseHazard :=
        disease_base_rate environment * (1 - diseaseResistance tr) in
      let (r, h) := Math_random h in
      if r <? diseaseHazard then (true, die "disease" tr, h)
      else
        let (r, h) := Math_random h in
        let stormTest :=
          if r <? storm_frequency environment then
            let stormHazard := (height tr / 100) * 0.1 in
            let (r', h1) := Math_random h in (r' <? stormHazard, h1)
          else (false, h) in
        if fst stormTest then (true, die "storm_damage" tr, snd stormTest)
        else
          let h := snd stormTest in
          if health tr <=? 0 then (true, die "poor_health" tr, h)
          else (false, tr, h).

(** checkMortality(environment) *)
Definition checkMortality (environment : Env) (tr : t) (h : Host)
  : bool * t * Host :=
  if negb (enable_mortality environment) then (false, tr, h)
  else
    let mortalityHazard := baseMortalityRate tr in
    if age tr >? senescenceStartAge tr then
      let senescenceFactor :=
        JS.Math_pow
          ((age tr - senescenceStartAge tr)
           / (maxAge tr - senescenceStartAge tr)) 2 in
      let mortalityHazard :=
        mortalityHazard + senescenceFactor * SENESCENCE_MORTALITY_RATE in
      let (r, h) := Math_random h in
      if r <? mortalityHazard then (true, die "senescence" tr, h)
      else checkOtherCauses environment tr h
    else checkOtherCauses environment tr h.

(** grow(environment) *)
Definition grow (environment : Env) (tr : t) : t :=
  let growthRate := JS.or_default (growth_rate environment) 1.0 in
  let lightFactor := JS.or_default (light_intensity environment) 0.8 in
  let waterFactor := JS.Math_min 1 (water_level environment / 0.5) in
  let ageFactor :=
    if age tr <? senescenceStartAge tr then 1.0
    else 1.0 - ((age tr - senescenceStartAge tr)
                / (maxAge tr - senescenceStartAge tr)) * 0.5 in
  let growthAmount := growthRate * lightFactor * waterFactor * ageFactor * 0.1 in
  let height1 := height tr + growthAmount in
  let radius1 := sqrt (height1 / 2) in
  {| x := x tr; y := y tr; age := age tr;
     height := JS.Math_min height1 100;
     radius := JS.Math_min radius1 15;
     health := health tr; alive := alive tr; deathCause := deathCause tr;
     deathAge := deathAge tr; maxAge := maxAge tr;
     senescenceStartAge := senescenceStartAge tr;
     baseMortalityRate := baseMortalityRate tr;
     waterStress := waterStress tr; heatStress := heatStress tr;
     diseaseResistance := diseaseResistance tr |}.

(** update(environment) *)
Definition update (environment : Env) (tr : t) (h : Host) : t * Host :=
  if negb (alive tr) then (tr, h)
  else
    let tr :=
      {| x := x tr; y := y tr; age := age tr + 1; height := height tr;
         radius := radius tr; health := health tr; alive := alive tr;
         deathCause := deathCause tr; deathAge := deathAge tr;
         maxAge := maxAge tr; senescenceStartAge := senescenceStartAge tr;
         baseMortalityRate := baseMortalityRate tr;
         waterStress := waterStress tr; heatStress := heatStress tr;
         diseaseResistance := diseaseResistance tr |} in
    let tr := calculateStress environment tr in
    let '(dead, tr, h) := checkMortality environment tr h in
    if dead then (tr, h)
    else if enable_growth environment then (grow environment tr, h)
    else (tr, h).

End ClassTree.

(** *** The scheduler on the accumulator alone *)




(** ** The state of the page when the simulation starts *)

(** The global objects as their declarations initialise them, with the
    default seed. *)
Definition global0 : Global :=
  {| tree := tree0; environment := environment0;
     prngState := {| PRNG.seed := 12345; PRNG.state := 12345 |};
     simulationState := simulationState0; healthHistory := [] |}.

(** The declared environment on a given day of the year, with the season
    that [updateEnvironmentTime] assigns to that day. *)
Definition environmentOnDay (d : R) : Environment :=
  {| year := 0; dayOfYear := d; season := SeasonObject (seasonOfDay d);
     hour := 12;
     sunlight := 70; water := 60; temperature := 20; soilQuality := 70;
     windSpeed := 30; humidity := 60; totalStress := 0;
     waterAvailability := 60;
     disease := false; pests := false; storm := false; pollution := false |}.

(** The page at the start of the simulation, on a given day of the
    year. *)
Definition globalOnDay (d : R) : Global :=
  {| tree := tree0; environment := environmentOnDay d;
     prngState := {| PRNG.seed := 12345; PRNG.state := 12345 |};
     simulationState := simulationState0; healthHistory := [] |}.

(** A generator state from which the next call of [random()] returns 0:
    634785765 * 1664525 + 1013904223 is a multiple of 2^32. *)
Definition zeroDraw : PRNG.prngState :=
  {| PRNG.seed := 12345; PRNG.state := 634785765 |}.

(** The declared mortality parameters with the model enabled. *)
Definition mortalityEnabled : Mortality.t :=
  {| Mortality.enabled := true;
     Mortality.baseRatePerYear := Some 0.001;
     Mortality.senescenceStartAge := Some 150;
     Mortality.maxAge := Some CONFIG.TREE_MAX_AGE;
     Mortality.droughtThreshold := 0.3;
     Mortality.heatStressTemp := 35;
     Mortality.diseaseBaseRatePerYear := Some 0.02;
     Mortality.stormFrequency := Some 0.05 |}.

(** The declared tree with given age, height and health; the mortality
    model enabled or as declared (disabled). *)
Definition treeWith (enabled : bool) (age height health : R) : Tree :=
  {| temporal := {| age := age; daysSinceBirth := 0; germinationDate := 0 |};
     morphology :=
       {| height := height; dbh := 0.008; crownRadius := 0.3;
          crownHeight := 0.2; rootDepth := 0.15; rootSpread := 0.4;
          trunkTaper := 0.85 |};
     leafSystem := leafSystem tree0;
     vitality :=
       {| health := health; vigor := 100; waterContent := 100;
          nutrientLevel := 100; stressLevel := 0; diseaseLoad := 0 |};
     biomass := biomass tree0; carbon := carbon tree0;
     annual := annual tree0; visual := visual tree0;
     phenology := phenology tree0; species := "OAK";
     mortality := if enabled then Some mortalityEnabled else mortality tree0;
     deathCause := None |}.

(** A stormy day with the disease stressor on: day 100, wind speed 90. *)
Definition stormyDay : Environment :=
  {| year := 0; dayOfYear := 100; season := SeasonObject SUMMER; hour := 12;
     sunlight := 70; water := 60; temperature := 20; soilQuality := 70;
     windSpeed := 90; humidity := 60; totalStress := 0;
     waterAvailability := 60;
     disease := true; pests := false; storm := true; pollution := false |}.

(** The page at the start of the simulation with a tree that has reached
    the declared maximum age of 600 years; the mortality model is as
    declared (disabled). *)
Definition oldTreeGlobal : Global :=
  {| tree := treeWith false 600 0.25 100; environment := environmentOnDay 0;
     prngState := {| PRNG.seed := 12345; PRNG.state := 12345 |};
     simulationState := simulationState0; healthHistory := [] |}.

(** A page without controls: [updateEnvironmentFromUI] finds no element. *)
Definition noControls : UI.t :=
  {| UI.sun := None; UI.water := None; UI.temp := None; UI.soil := None;
     UI.wind := None; UI.humidity := None; UI.disease := None;
     UI.pests := None; UI.storm := None; UI.pollution := None;
     UI.speed := None |}.

(** Sample values of the constants that js/config.js does not declare. *)
Definition sampleDisturbance : CONFIG.Disturbance :=
  {| CONFIG.FIRE_DROUGHT_THRESHOLD := 0.15;
     CONFIG.FIRE_HEAT_THRESHOLD := 38;
     CONFIG.WINDTHROW_WIND_THRESHOLD := 70;
     CONFIG.WINDTHROW_WIND_RANGE := 30 |}.

(** ** The invariants of the tree state *)

(** The vitality fields and the chlorophyll content lie in [0, 100]. *)
Definition vitals_in_range (t : Tree) : Prop :=
  0 <= health (vitality t) <= 100
  /\ 0 <= vigor (vitality t) <= 100
  /\ 0 <= stressLevel (vitality t) <= 100
  /\ 0 <= diseaseLoad (vitality t) <= 100
  /\ 0 <= chlorophyllContent (leafSystem t) <= 100
  /\ 0 <= waterContent (vitality t) <= 100.

(** [biomass.total] is the sum of the four primary compartments. *)
Definition biomass_balanced (t : Tree) : Prop :=
  Biomass.total (biomass t)
  = Biomass.trunk (biomass t) + Biomass.branches (biomass t)
    + Biomass.leaves (biomass t) + Biomass.roots (biomass t).

(** The part of the tree state that the visual structures, the morphology
    and the calendar of the tree do not touch. *)
Definition core (t : Tree)
  : Vitality * Biomass.t * Phenology * option string * R * string
    * option Mortality.t :=
  (vitality t, biomass t, phenology t, deathCause t,
   chlorophyllContent (leafSystem t), species t, mortality t).

(** ** A tree of the class [Tree] *)

(** The object that [new Tree(x, y, config)] builds with the defaults of
    its constructor, when the [Math.random()] of the constructor gives a
    disease resistance of 0.5. *)
Definition classTree0 : ClassTree.t :=
  {| ClassTree.x := 0; ClassTree.y := 0; ClassTree.age := 0;
     ClassTree.height := 10; ClassTree.radius := 5; ClassTree.health := 100;
     ClassTree.alive := true; ClassTree.deathCause := None;
     ClassTree.deathAge := None; ClassTree.maxAge := 200;
     ClassTree.senescenceStartAge := 150;
     ClassTree.baseMortalityRate := 0.001;
     ClassTree.waterStress := 0; ClassTree.heatStress := 0;
     ClassTree.diseaseResistance := 0.5 |}.

(** The environment of [Simulation.getEnvironment] for the values of
    variables.JSON that the README lists. *)
Definition classEnvironment : ClassTree.Env :=
  {| ClassTree.water_level := 0.7; ClassTree.temperature := 20;
     ClassTree.light_intensity := Some 0.8;
     ClassTree.growth_rate := Some 1.0;
     ClassTree.drought_threshold := 0.3; ClassTree.heat_stress_temp := 35;
     ClassTree.disease_base_rate := 0.02;
     ClassTree.storm_frequency := 0.05;
     ClassTree.enable_mortality := true; ClassTree.enable_growth := true |}.

(** A host whose [Math.random()] returns the same value at every call. *)
Definition constantHost (v : R) : ClassTree.Host :=
  {| ClassTree.values := fun _ => v; ClassTree.taken := O |}.



(** * Further functions of the program *)

(** ** js/prng.js: noise *)

(** function perlin2D(x, y) *)
Definition perlin2D (x y : R) : R :=
  let n := sin (x * 12.9898 + y * 78.233) * 43758.5453 in
  (n - JS.Math_floor n) * 2 - 1.

(** The variables of the loop of [fbm]. *)
Module Fbm.
Record t : Type := {
  total : R;
  frequency : R;
  amplitude : R;
  maxValue : R
}.
End Fbm.

(** A parameter with a default value: the default replaces undefined. *)
Definition default_arg (a : option R) (d : R) : R :=
  match a with Some v => v | None => d end.

(** function fbm(x, y, octaves = 4, persistence = 0.5) *)
Definition fbm (x y : R) (octaves persistence : option R) : R :=
  let octaves := default_arg octaves 4 in
  let persistence := default_arg persistence 0.5 in
  let s :=
    for_loop (JS.passes octaves)
      (fun _ s =>
         {| Fbm.total :=
              Fbm.total s
              + perlin2D (x * Fbm.frequency s) (y * Fbm.frequency s)
                * Fbm.amplitude s;
            Fbm.frequency := Fbm.frequency s * 2;
            Fbm.amplitude := Fbm.amplitude s * persistence;
            Fbm.maxValue := Fbm.maxValue s + Fbm.amplitude s |})
      {| Fbm.total := 0; Fbm.frequency := 1; Fbm.amplitude := 1;
         Fbm.maxValue := 0 |} in
  Fbm.total s / Fbm.maxValue s.

(** ** The seed of a run *)

(** The value of [parseInt] on the text of the element 'seed': [None] when
    the page has no such element, [Some None] when [parseInt] gives NaN. *)
Definition SeedInput : Type := option (option Z).

(** The seed that [startSimulation] passes to [initPRNG]:
    [seedInput ? parseInt(seedInput.value) || 12345 : 12345]. *)
Definition startSeed (seedInput : SeedInput) : Z :=
  match seedInput with
  | Some (Some v) => if Z.eqb v 0 then 12345%Z else v
  | _ => 12345%Z
  end.

(** The seed that [applySeed] passes to [initPRNG]:
    [Math.abs(parseInt(seedInput?.value) || Date.now()) % 2147483647];
    [now] is the value of [Date.now()]. *)
Definition appliedSeed (seedInput : SeedInput) (now : Z) : Z :=
  let seedValue :=
    match seedInput with
    | Some (Some v) => if Z.eqb v 0 then now else v
    | _ => now
    end in
  JS.rem (Z.abs seedValue) 2147483647.

(** ** Runs of the engine *)

(** The page after a run of substeps, one reading of the controls for
    each substep. *)
Definition run (cfg : CONFIG.Disturbance) (uis : list UI.t) (g : Global)
  : Global :=
  fold_left (fun g0 ui => substep cfg ui g0) uis g.

(** A tree without its falling leaves, and a tree without any of its
    visual structures: what is left to compare when only those change. *)
Definition withoutLeafDrops (t : Tree) : Tree := set_leafDrops [] t.

Definition inner (t : Tree) : Tree :=
  with_visual
    {| branches := []; leafClusters := []; leaves := []; rootMesh := [];
       leafDrops := []; barkSegments := [] |} t.

(** The foliage of a tree is in range: opacity and density in [0, 1]. *)
Definition foliage_in_range (t : Tree) : Prop :=
  0 <= foliageOpacity (leafSystem t) <= 1
  /\ 0 <= foliageDensity (leafSystem t) <= 1.

(** The parent of every branch of a list comes before it: its
    [parentIndex] is -1 (the trunk) or the index of an earlier branch. *)
Definition parents_precede (bs : list Branch.t) : Prop :=
  forall (i : nat) (b : Branch.t),
    nth_error bs i = Some b ->
    (-1 <= Branch.parentIndex b < Z.of_nat i)%Z.

(** What [createBranch] gives every branch it makes. *)
Definition branch_made (b : Branch.t) : Prop :=
  (1 <= Branch.depth b <= CONFIG.BRANCH_RECURSION)%nat
  /\ 0.5 <= Branch.thickness b
  /\ Branch.hasLeaves b = Nat.leb (Branch.depth b) 2
  /\ Branch.healthy b = true.

(** ** The class [Simulation] (the earlier, class-based simulation) *)

Module ClassSimulation.

(** [this.stats]; [deathsByCause] is an object used as a map from the
    cause to the number of deaths. *)
Record Stats : Type := {
  totalDeaths : Z;
  deathsByCause : list (string * Z);
  aliveCount : Z;
  averageAge : R
}.

(** The causes that the constructor declares in [deathsByCause]. *)
Definition causes : list string :=
  ["senescence"; "drought"; "heat_stress"; "disease"; "storm_damage";
   "poor_health"]%string.

(** [this.stats] as the constructor leaves it. *)
Definition stats0 : Stats :=
  {| totalDeaths := 0; deathsByCause := map (fun c => (c, 0%Z)) causes;
     aliveCount := 0; averageAge := 0 |}.

(** [o.hasOwnProperty(key)] and [o[key]++]. *)
Definition hasOwnProperty (o : list (string * Z)) (key : string) : bool :=
  existsb (fun kv => String.eqb (fst kv) key) o.

Definition increment (o : list (string * Z)) (key : string)
  : list (string * Z) :=
  map (fun kv => if String.eqb (fst kv) key then (fst kv, (snd kv + 1)%Z)
                 else kv) o.

(** The variables of the loop of [update]: the trees already updated, the
    host, the two counters of [this.stats] that the loop writes, and the
    local [aliveCount] and [totalAge]. *)
Record Loop : Type := {
  updated : list ClassTree.t;
  host : ClassTree.Host;
  deaths : Z;
  byCause : list (string * Z);
  alive : Z;
  totalAge : R
}.

(** The body of [for (let tree of this.trees)]. *)
Definition visit (environment : ClassTree.Env) (s : Loop)
    (tree : ClassTree.t) : Loop :=
  let wasAlive := ClassTree.alive tree in
  let (tree', h) := ClassTree.update environment tree (host s) in
  let died := wasAlive && negb (ClassTree.alive tree') in
  let deaths' := if died then (deaths s + 1)%Z else deaths s in
  let byCause' :=
    if died then
      match ClassTree.deathCause tree' with
      | Some cause =>
          (* An empty string is false as a condition. *)
          if negb (String.eqb cause "") && hasOwnProperty (byCause s) cause
          then increment (byCause s) cause
          else byCause s (* console.warn, for a cause that is not empty *)
      | None => byCause s
      end
    else byCause s in
  {| updated := updated s ++ [tree']; host := h;
     deaths := deaths'; byCause := byCause';
     alive := if ClassTree.alive tree' then (alive s + 1)%Z else alive s;
     totalAge := if ClassTree.alive tree'
                 then totalAge s + ClassTree.age tree' else totalAge s |}.

(** update() *)
Definition update (environment : ClassTree.Env) (trees : list ClassTree.t)
    (stats : Stats) (h : ClassTree.Host)
  : list ClassTree.t * Stats * ClassTree.Host :=
  let s :=
    fold_left (visit environment) trees
      {| updated := []; host := h; deaths := totalDeaths stats;
         byCause := deathsByCause stats; alive := 0; totalAge := 0 |} in
  (updated s,
   {| totalDeaths := deaths s; deathsByCause := byCause s;
      aliveCount := alive s;
      averageAge := if (0 <? alive s)%Z then totalAge s / IZR (alive s)
                    else 0 |},
   host s).

(** The number of living trees of a list, and the deaths that a table
    counts. *)
Definition living (trees : list ClassTree.t) : Z :=
  Z.of_nat (List.length (filter ClassTree.alive trees)).

Definition counted (o : list (string * Z)) : Z :=
  fold_right Z.add 0%Z (map snd o).

End ClassSimulation.

(** ** js/tree.js: saving and restoring the tree *)

Module Save.

(** [data.tree] and [data.environment]: a property that the object does
    not have is [None].  ([growthRings] is left out: the tree has no such
    property, and assigning undefined to it changes nothing that the
    engine reads.) *)
Record TreeData : Type := {
  age : option R;
  health : option R;
  height : option R;
  dbh : option R;
  species : option string;
  biomass : option Biomass.t;
  co2Absorbed : option R;
  o2Produced : option R
}.

Record EnvironmentData : Type := {
  year : option Z;
  dayOfYear : option R
}.

(** The object that [exportTreeData] returns. *)
Record t : Type := {
  version : string;
  timestamp : Z;
  seed : Z;
  tree : TreeData;
  environment : EnvironmentData;
  healthHistory : option (list R)
}.

End Save.

(** [array.slice(-n)]: the last [n] elements. *)
Definition slice_last {A : Type} (n : nat) (array : list A) : list A :=
  skipn (List.length array - n) array.

(** What [Object.assign] leaves in a property: the value of the source
    when the source has the property. *)
Definition assigned {A : Type} (source : option A) (current : A) : A :=
  match source with Some v => v | None => current end.

(** function exportTreeData(), for the page's tree (which is never
    null once the page is loaded); [now] is the value of [Date.now()].
    [data.tree.biomass] is the object [tree.biomass] itself, not a copy:
    the save holds what that object holds. *)
Definition exportTreeData (now : Z) (g : Global) : Save.t :=
  let t := tree g in
  {| Save.version := "2.0";
     Save.timestamp := now;
     Save.seed := PRNG.seed (prngState g);
     Save.tree :=
       {| Save.age := Some (age (temporal t));
          Save.health := Some (health (vitality t));
          Save.height := Some (height (morphology t));
          Save.dbh := Some (dbh (morphology t));
          Save.species := Some (species t);
          Save.biomass := Some (biomass t);
          Save.co2Absorbed := Some (co2Absorbed (carbon t));
          Save.o2Produced := Some (o2Produced (carbon t)) |};
     Save.environment :=
       {| Save.year := Some (year (environment g));
          Save.dayOfYear := Some (dayOfYear (environment g)) |};
     Save.healthHistory := Some (slice_last 100 (healthHistory g)) |}.

(** [Object.assign(tree, data.tree)] *)
Definition assignTree (d : Save.TreeData) (t : Tree) : Tree :=
  let t := set_age (assigned (Save.age d) (age (temporal t))) t in
  let t := set_health (assigned (Save.health d) (health (vitality t))) t in
  let t := set_height (assigned (Save.height d) (height (morphology t))) t in
  let t := set_dbh (assigned (Save.dbh d) (dbh (morphology t))) t in
  let t := set_biomass (assigned (Save.biomass d) (biomass t)) t in
  let t :=
    set_co2Absorbed (assigned (Save.co2Absorbed d) (co2Absorbed (carbon t)))
      t in
  let t :=
    set_o2Produced (assigned (Save.o2Produced d) (o2Produced (carbon t)))
      t in
  {| temporal := temporal t; morphology := morphology t;
     leafSystem := leafSystem t; vitality := vitality t;
     biomass := biomass t; carbon := carbon t; annual := annual t;
     visual := visual t; phenology := phenology t;
     species := assigned (Save.species d) (species t);
     mortality := mortality t; deathCause := deathCause t |}.

(** [Object.assign(environment, data.environment)] *)
Definition assignEnvironment (d : Save.EnvironmentData) (e : Environment)
  : Environment :=
  {| year := assigned (Save.year d) (year e);
     dayOfYear := assigned (Save.dayOfYear d) (dayOfYear e);
     season := season e; hour := hour e;
     sunlight := sunlight e; water := water e; temperature := temperature e;
     soilQuality := soilQuality e; windSpeed := windSpeed e;
     humidity := humidity e; totalStress := totalStress e;
     waterAvailability := waterAvailability e;
     disease := disease e; pests := pests e; storm := storm e;
     pollution := pollution e |}.

(** function importTreeData(data): the result and the page after it.
    [data] is [None] for null or undefined.  ([updateReadout] and
    [drawHealthGraph] only draw; they are taken not to throw.) *)
Definition importTreeData (data : option Save.t) (g : Global)
  : bool * Global :=
  match data with
  | None => (false, g)
  | Some d =>
      if negb (String.eqb (Save.version d) "2.0") then (false, g)
      else
        (true,
         {| tree := assignTree (Save.tree d) (tree g);
            environment :=
              assignEnvironment (Save.environment d) (environment g);
            prngState := PRNG.initPRNG (Save.seed d) (prngState g);
            simulationState := simulationState g;
            healthHistory :=
              match Save.healthHistory d with
              | Some h => h
              | None => []
              end |})
  end.

(** The save [d] when the biomass object that it shares with the tree
    holds [b]. *)
Definition holding (b : Biomass.t) (d : Save.t) : Save.t :=
  {| Save.version := Save.version d; Save.timestamp := Save.timestamp d;
     Save.seed := Save.seed d;
     Save.tree :=
       {| Save.age := Save.age (Save.tree d);
          Save.health := Save.health (Save.tree d);
          Save.height := Save.height (Save.tree d);
          Save.dbh := Save.dbh (Save.tree d);
          Save.species := Save.species (Save.tree d);
          Save.biomass := Some b;
          Save.co2Absorbed := Save.co2Absorbed (Save.tree d);
          Save.o2Produced := Save.o2Produced (Save.tree d) |};
     Save.environment := Save.environment d;
     Save.healthHistory := Save.healthHistory d |}.

(** The page [g] with the scheduler's record [s] in place of its own:
    the substeps of a frame run on a page whose accumulator, clock and
    frame time the scheduler has changed. *)
Definition on_clock (s : SimulationState) (g : Global) : Global :=
  {| tree := tree g; environment := environment g; prngState := prngState g;
     simulationState := s; healthHistory := healthHistory g |}.

(** ** js/tree.js: the series of the graphs *)

Module EnvironmentHistory.
Record t : Type := {
  temperature : list R;
  water : list R;
  stress : list R
}.
(** [{ temperature: [], water: [], stress: [] }] *)
Definition empty : t := {| temperature := []; water := []; stress := [] |}.
End EnvironmentHistory.

Module BiomassHistory.
Record t : Type := {
  trunk : list R;
  branches : list R;
  leaves : list R;
  roots : list R
}.
(** [{ trunk: [], branches: [], leaves: [], roots: [] }] *)
Definition empty : t :=
  {| trunk := []; branches := []; leaves := []; roots := [] |}.
End BiomassHistory.

(** function updateEnvironmentHistory().  [CONFIG?.MAX_HISTORY || 500] is
    [CONFIG.MAX_HISTORY]; [waterAvailability] and [totalStress] are
    numbers from the declaration of [environment] on. *)
Definition updateEnvironmentHistory (e : Environment)
    (h : EnvironmentHistory.t) : EnvironmentHistory.t :=
  let maxHistory := CONFIG.MAX_HISTORY in
  let temperature' := EnvironmentHistory.temperature h ++ [temperature e] in
  let waterValue := waterAvailability e in
  let stressValue := totalStress e in
  let water' := EnvironmentHistory.water h ++ [waterValue] in
  let stress' := EnvironmentHistory.stress h ++ [stressValue] in
  if Nat.ltb maxHistory (List.length temperature') then
    {| EnvironmentHistory.temperature := tl temperature';
       EnvironmentHistory.water := tl water';
       EnvironmentHistory.stress := tl stress' |}
  else
    {| EnvironmentHistory.temperature := temperature';
       EnvironmentHistory.water := water';
       EnvironmentHistory.stress := stress' |}.

(** function updateBiomassHistory() *)
Definition updateBiomassHistory (t : Tree) (h : BiomassHistory.t)
  : BiomassHistory.t :=
  let maxHistory := CONFIG.MAX_HISTORY in
  let trunk' := BiomassHistory.trunk h ++ [Biomass.trunk (biomass t)] in
  let branches' :=
    BiomassHistory.branches h ++ [Biomass.branches (biomass t)] in
  let leaves' := BiomassHistory.leaves h ++ [Biomass.leaves (biomass t)] in
  let roots' := BiomassHistory.roots h ++ [Biomass.roots (biomass t)] in
  if Nat.ltb maxHistory (List.length trunk') then
    {| BiomassHistory.trunk := tl trunk';
       BiomassHistory.branches := tl branches';
       BiomassHistory.leaves := tl leaves';
       BiomassHistory.roots := tl roots' |}
  else
    {| BiomassHistory.trunk := trunk';
       BiomassHistory.branches := branches';
       BiomassHistory.leaves := leaves';
       BiomassHistory.roots := roots' |}.

(** What [generateLeafClusters] gives every cluster it keeps, for the
    tree [t] it is made for: the cluster lies within the canopy shape that
    the acceptance test allows, and its attributes are in the ranges that
    they are drawn from. *)
Definition cluster_made (t : Tree) (c : LeafCluster.t) : Prop :=
  let m := morphology t in
  let crownCenter := height m * 0.75 in
  sqrt (LeafCluster.x c * LeafCluster.x c + LeafCluster.z c * LeafCluster.z c)
  <= crownRadius m
     * (1 - JS.Math_pow ((LeafCluster.y c - crownCenter) / crownHeight m) 2
            * 0.5)
     * 1.2
  /\ LeafCluster.lightExposure c
     = 0.5 + LeafCluster.y c / height m * 0.5
  /\ (exists factor : R,
        0.8 <= factor < 1.5
        /\ LeafCluster.size c = factor * leafSize (leafSystem t))
  /\ (exists factor : R,
        0.6 <= factor < 1
        /\ LeafCluster.density c = factor * foliageDensity (leafSystem t))
  /\ -10 <= LeafCluster.hueShift c < 10
  /\ 0 <= LeafCluster.swayPhase c < PI * 2
  /\ 0.01 <= LeafCluster.swayAmount c < 0.03.

(** * Properties *)

(** ** Comparisons and clamping *)

Lemma ltb_true (x y : R) : (x <? y) = true <-> x < y.
Proof. unfold JS.ltb; destruct (Rlt_dec x y); split; intros; try easy. Qed.

Lemma ltb_false (x y : R) : (x <? y) = false <-> y <= x.
Proof.
  unfold JS.ltb; destruct (Rlt_dec x y); split; intros; try easy; lra.
Qed.

Lemma leb_true (x y : R) : (x <=? y) = true <-> x <= y.
Proof. unfold JS.leb; destruct (Rle_dec x y); split; intros; try easy. Qed.

Lemma leb_false (x y : R) : (x <=? y) = false <-> y < x.
Proof.
  unfold JS.leb; destruct (Rle_dec x y); split; intros; try easy; lra.
Qed.

Lemma gtb_true (x y : R) : (x >? y) = true <-> y < x.
Proof. apply ltb_true. Qed.

Lemma gtb_false (x y : R) : (x >? y) = false <-> x <= y.
Proof. apply ltb_false. Qed.

Lemma geb_true (x y : R) : (x >=? y) = true <-> y <= x.
Proof. apply leb_true. Qed.

Lemma geb_false (x y : R) : (x >=? y) = false <-> x < y.
Proof. apply leb_false. Qed.

Lemma clamp_range (v lo hi : R) : lo <= hi -> lo <= clamp v lo hi <= hi.
Proof.
  intros H; unfold clamp, JS.Math_min, JS.Math_max.
  unfold Rmin, Rmax.
  destruct (Rle_dec v lo); destruct (Rle_dec _ hi); lra.
Qed.

Lemma clamp_id (v lo hi : R) : lo <= v <= hi -> clamp v lo hi = v.
Proof.
  intros H; unfold clamp, JS.Math_min, JS.Math_max.
  unfold Rmin, Rmax.
  destruct (Rle_dec v lo); destruct (Rle_dec _ hi); lra.
Qed.

(** Decides the comparisons of a goal on concrete numbers. *)
Ltac decide_comparisons :=
  repeat match goal with
  | |- context [Rlt_dec ?a ?b] => destruct (Rlt_dec a b); try lra
  | |- context [Rle_dec ?a ?b] => destruct (Rle_dec a b); try lra
  | |- context [Req_dec_T ?a ?b] => destruct (Req_dec_T a b); try lra
  end.

(** ** The generator (js/prng.js) *)

Lemma lcg_range (s : Z) :
  (0 <= s < 4294967296)%Z ->
  (0 <= PRNG.lcg s < 4294967296)%Z
  /\ (0 <= s * 1664525 + 1013904223 < 2 ^ 53)%Z.
Proof.
  intros Hs; split.
  - unfold PRNG.lcg, JS.rem. apply Z.rem_bound_pos; lia.
  - lia.
Qed.

Lemma random_range (p : PRNG.prngState) :
  PRNG.valid p ->
  0 <= fst (PRNG.random p) < 1 /\ PRNG.valid (snd (PRNG.random p)).
Proof.
  unfold PRNG.valid; intros Hp.
  destruct (lcg_range _ Hp) as [[Hlo Hhi] _].
  unfold PRNG.random; cbn [fst snd PRNG.state].
  split; [|lia].
  apply IZR_le in Hlo. apply IZR_lt in Hhi.
  split.
  - apply Rmult_le_pos; [exact Hlo | lra].
  - apply Rmult_lt_reg_r with 4294967296; [lra|].
    unfold Rdiv. rewrite Rmult_assoc, Rinv_l by lra. lra.
Qed.

Lemma draws_range (n : nat) (p : PRNG.prngState) :
  PRNG.valid p ->
  Forall (fun r => 0 <= r < 1) (fst (PRNG.draws n p))
  /\ PRNG.valid (snd (PRNG.draws n p)).
Proof.
  revert p; induction n as [|n IH]; intros p Hp; cbn [PRNG.draws].
  - split; [constructor | exact Hp].
  - destruct (random_range p Hp) as [Hr Hv].
    destruct (PRNG.random p) as [r p'] eqn:E; cbn [fst snd] in Hr, Hv.
    destruct (IH p' Hv) as [Hrs Hv'].
    destruct (PRNG.draws n p') as [rs p'']; cbn [fst snd] in *.
    split; [constructor; assumption | assumption].
Qed.

Lemma floor_of_scaled (r : R) (n : Z) :
  0 <= r < 1 -> (1 <= n)%Z -> (0 <= Zfloor (r * IZR n) <= n - 1)%Z.
Proof.
  intros Hr Hn. apply IZR_le in Hn.
  assert (H0 : 0 <= r * IZR n) by (apply Rmult_le_pos; lra).
  assert (H1 : r * IZR n < IZR n) by nra.
  destruct (Zfloor_bound (r * IZR n)) as [Hfl _].
  split.
  - apply (Zfloor_lub 0). exact H0.
  - assert (Hlt : (Zfloor (r * IZR n) < n)%Z) by (apply lt_IZR; lra).
    lia.
Qed.

Lemma randomInt_range (p : PRNG.prngState) (lo hi : Z) :
  PRNG.valid p -> (lo <= hi)%Z ->
  exists k : Z,
    fst (PRNG.randomInt (IZR lo) (IZR hi) p) = IZR k /\ (lo <= k <= hi)%Z.
Proof.
  intros Hp Hle.
  destruct (random_range p Hp) as [Hr _].
  unfold PRNG.randomInt, PRNG.bind, PRNG.ret.
  destruct (PRNG.random p) as [r p']; cbn [fst snd] in *.
  exists (Zfloor (r * IZR (hi - lo + 1)) + lo)%Z.
  split.
  - unfold JS.Math_floor. rewrite plus_IZR.
    repeat rewrite ?plus_IZR, ?minus_IZR. reflexivity.
  - pose proof (floor_of_scaled r (hi - lo + 1) Hr ltac:(lia)). lia.
Qed.

Lemma randomChoice_member {A : Type} (p : PRNG.prngState) (a : A)
    (array : list A) :
  PRNG.valid p ->
  exists c : A,
    fst (PRNG.randomChoice (a :: array) p) = Some c /\ In c (a :: array).
Proof.
  intros Hp.
  destruct (random_range p Hp) as [Hr _].
  unfold PRNG.randomChoice, PRNG.bind, PRNG.ret.
  destruct (PRNG.random p) as [r p']; cbn [fst snd] in *.
  set (len := List.length (a :: array)).
  assert (Hlen : (1 <= Z.of_nat len)%Z) by (subst len; cbn; lia).
  pose proof (floor_of_scaled r (Z.of_nat len) Hr Hlen) as Hfl.
  rewrite <- INR_IZR_INZ in Hfl.
  assert (Hidx : (Z.to_nat (Zfloor (r * INR len)) < len)%nat) by lia.
  destruct (nth_error (a :: array) (Z.to_nat (Zfloor (r * INR len))))
    as [c|] eqn:E.
  - exists c; split; [reflexivity | eapply nth_error_In; exact E].
  - apply nth_error_None in E. fold len in E. lia.
Qed.

(** C10.  After [initPRNG(seed)] with an integer seed in [0, 2^32), every
    call of [random()] returns a value in [0, 1) and leaves the generator
    state an integer in [0, 2^32); the double arithmetic of the update is
    exact on such a state (the intermediate value stays below 2^53); and
    on such a state [randomInt(lo, hi)] returns an integer of [lo, hi] and
    [randomChoice] an element of a non-empty array. *)
Theorem random_unit_interval (seed : Z) (p0 : PRNG.prngState) (n : nat) :
  (0 <= seed < 4294967296)%Z ->
  let run := PRNG.draws n (PRNG.initPRNG seed p0) in
  Forall (fun r => 0 <= r < 1) (fst run)
  /\ PRNG.valid (snd run)
  /\ (0 <= PRNG.state (snd run) * 1664525 + 1013904223 < 2 ^ 53)%Z
  /\ (forall lo hi : Z, (lo <= hi)%Z ->
      exists k : Z,
        fst (PRNG.randomInt (IZR lo) (IZR hi) (snd run)) = IZR k
        /\ (lo <= k <= hi)%Z)
  /\ (forall (A : Type) (a : A) (array : list A),
      exists c : A,
        fst (PRNG.randomChoice (a :: array) (snd run)) = Some c
        /\ In c (a :: array)).
Proof.
  intros Hseed run.
  assert (Hinit : PRNG.valid (PRNG.initPRNG seed p0)) by exact Hseed.
  destruct (draws_range n _ Hinit) as [Hrs Hv]. fold run in Hrs, Hv.
  split; [exact Hrs|]. split; [exact Hv|].
  split; [exact (proj2 (lcg_range _ Hv))|].
  split.
  - intros lo hi Hle. apply randomInt_range; assumption.
  - intros A a array. apply randomChoice_member; assumption.
Qed.

Lemma random_unit_interval_witness :
  (0 <= 12345 < 4294967296)%Z
  /\ PRNG.valid (snd (PRNG.draws 3 (PRNG.initPRNG 12345 (prngState global0)))).
Proof.
  split; [lia|].
  apply (random_unit_interval 12345 (prngState global0) 3); lia.
Defined.

(** ** The season classifier (js/environment.js) *)

Lemma getSeasonProgress_range (d : R) : 0 <= getSeasonProgress d < 1.
Proof.
  unfold getSeasonProgress, JS.Math_floor.
  destruct (Zfloor_bound (d / (365 / 4))) as [Hlo Hhi].
  set (k := IZR (Zfloor (d / (365 / 4)))) in *.
  replace ((d - k * (365 / 4)) / (365 / 4)) with (d / (365 / 4) - k)
    by (field; lra).
  lra.
Qed.

(** The day ranges of the classifier: widths 90, 90, 90 and 95. *)
Lemma seasonOfDay_ranges (d : R) :
  (seasonOfDay d = SPRING <-> d < 90)
  /\ (seasonOfDay d = SUMMER <-> 90 <= d < 180)
  /\ (seasonOfDay d = AUTUMN <-> 180 <= d < 270)
  /\ (seasonOfDay d = WINTER <-> 270 <= d).
Proof.
  unfold seasonOfDay, JS.ltb.
  destruct (Rlt_dec d 90); destruct (Rlt_dec d 180);
    destruct (Rlt_dec d 270);
    repeat split; intros; try discriminate; try reflexivity; lra.
Qed.

(** The season is a function of the day of year alone: the season that
    [updateEnvironmentTime] assigns is [seasonOfDay] of the day it
    assigns. *)
Lemma updateEnvironmentTime_season (dt : R) (e : Environment) :
  season (updateEnvironmentTime dt e)
  = SeasonObject (seasonOfDay (dayOfYear (updateEnvironmentTime dt e))).
Proof. reflexivity. Qed.

(** C9, at day 90.  The classifier puts day 90 in Summer, the table
    [SEASONS] puts it in Spring (days 0 to 91), and the season progress of
    day 90 is 72/73, its position in the first quarter of 91.25 days: it
    is not the position of the day in the range of its season, which
    starts at day 90.  The progress is in [0, 1) for every day. *)
Theorem season_classifier_day_90 :
  seasonOfDay 90 = SUMMER
  /\ SEASONS.dayStart SPRING <= 90 < SEASONS.dayEnd SPRING
  /\ getSeasonProgress 90 = 72 / 73
  /\ (forall d : R, 0 <= getSeasonProgress d < 1).
Proof.
  split.
  { unfold seasonOfDay, JS.ltb. decide_comparisons. reflexivity. }
  split.
  { unfold SEASONS.dayStart, SEASONS.dayEnd. lra. }
  split.
  { unfold getSeasonProgress, JS.Math_floor.
    rewrite (Zfloor_eq 0) by lra. field. }
  exact getSeasonProgress_range.
Qed.

(** ** What each block of the substep leaves unchanged *)

(** Unfolds the generator monad and names the results of the draws. *)
Ltac run_draws :=
  unfold PRNG.random2, PRNG.random1, PRNG.randomInt, PRNG.randomChoice,
    PRNG.randomGaussian, PRNG.randomNormal, PRNG.bind, PRNG.ret;
  repeat match goal with
  | |- context [PRNG.random ?p] => destruct (PRNG.random p)
  end.

Ltac split_if :=
  match goal with
  | |- context [if ?c then _ else _] => destruct c
  end.

Lemma core_updateLeafDrops (dt wind : R) (t : Tree) :
  core (updateLeafDrops dt wind t) = core t.
Proof. reflexivity. Qed.

Lemma core_updateFoliage (dt : R) (e : Environment) (t : Tree) :
  core (updateFoliage dt e t) = core t.
Proof. reflexivity. Qed.

Lemma core_physicalGrowth (dt n : R) (e : Environment) (t : Tree) :
  core (physicalGrowth dt n e t) = core t.
Proof. reflexivity. Qed.

Lemma core_Basic_updateFoliage (dt : R) (e : Environment) (t : Tree) :
  core (Basic.updateFoliage dt e t) = core t.
Proof. reflexivity. Qed.

Lemma core_Basic_physicalGrowth (dt n : R) (e : Environment) (t : Tree) :
  core (Basic.physicalGrowth dt n e t) = core t.
Proof. reflexivity. Qed.

Lemma core_gasExchange (dt : R) (d : bool) (e : Environment) (t : Tree) :
  core (gasExchange dt d e t) = core t.
Proof. unfold gasExchange; destruct d; reflexivity. Qed.

Lemma core_createFallingLeaf (x y : R) (s : SeasonRef) (t : Tree)
    (p : PRNG.prngState) :
  core (fst (createFallingLeaf x y s t p)) = core t.
Proof.
  unfold createFallingLeaf. split_if; [reflexivity|].
  run_draws. reflexivity.
Qed.

Lemma core_handleLeafDrop (dt : R) (e : Environment) (t : Tree)
    (p : PRNG.prngState) :
  core (fst (handleLeafDrop dt e t p)) = core t.
Proof.
  unfold handleLeafDrop, PRNG.bind. destruct (PRNG.random p) as [r p1].
  split_if; [|reflexivity].
  run_draws. apply core_createFallingLeaf.
Qed.

Lemma core_generateBranchArchitecture (t : Tree) (p : PRNG.prngState) :
  core (fst (generateBranchArchitecture t p)) = core t.
Proof.
  unfold generateBranchArchitecture, PRNG.bind, PRNG.ret.
  destruct (createBranch _ _ _ _ _ _ _ _ p). reflexivity.
Qed.

Lemma core_generateLeafClusters (t : Tree) (p : PRNG.prngState) :
  core (fst (generateLeafClusters t p)) = core t.
Proof.
  unfold generateLeafClusters, PRNG.bind at 1, PRNG.ret at 1.
  destruct (for_rand _ _ _ p). reflexivity.
Qed.

Lemma core_generateRootMesh (t : Tree) (p : PRNG.prngState) :
  core (fst (generateRootMesh t p)) = core t.
Proof.
  unfold generateRootMesh, PRNG.bind at 1.
  destruct (PRNG.random2 0.9 1.1 p) as [d p1].
  unfold PRNG.bind at 1, PRNG.ret at 1.
  destruct (for_rand _ _ _ p1). reflexivity.
Qed.

Lemma core_annualCycle (dt : R) (t : Tree) (p : PRNG.prngState) :
  core (fst (annualCycle dt t p)) = core t.
Proof.
  unfold annualCycle. cbv zeta.
  split_if; [|reflexivity].
  split_if; [|reflexivity].
  unfold PRNG.bind.
  match goal with
  | |- context [generateBranchArchitecture ?u p] =>
      pose proof (core_generateBranchArchitecture u p) as H1;
      destruct (generateBranchArchitecture u p) as [t1 p1]
  end.
  pose proof (core_generateLeafClusters t1 p1) as H2.
  destruct (generateLeafClusters t1 p1) as [t2 p2].
  pose proof (core_generateRootMesh t2 p2) as H3.
  cbn [fst] in *. rewrite H3, H2, H1. reflexivity.
Qed.

(** ** The shape of a substep *)

(** The mortality model leaves the tree as it is or kills it: it sets
    [health] to 0 and records a cause. *)
Lemma applyMortalityModel_cases (cfg : CONFIG.Disturbance) (dt : R)
    (e : Environment) (t : Tree) (p : PRNG.prngState) :
  fst (applyMortalityModel cfg dt e t p) = t
  \/ exists c : string,
       fst (applyMortalityModel cfg dt e t p)
       = set_deathCause (Some c) (set_health 0 t).
Proof.
  unfold applyMortalityModel.
  split_if; [left; reflexivity|].
  destruct (mortality t) as [m|]; [|left; reflexivity].
  split_if; [left; reflexivity|].
  split_if; [right; eexists; reflexivity|].
  split_if; [left; reflexivity|].
  unfold PRNG.bind. destruct (PRNG.random p) as [r p1].
  split_if; [right; eexists; reflexivity | left; reflexivity].
Qed.

Lemma physiology_core (dt : R) (e : Environment) (t : Tree)
    (p : PRNG.prngState) :
  core (snd (fst (physiology dt e t p)))
  = core (metabolism dt (fst (PRNG.randomGaussian 0 0.3 p))
            (recordStress (calculateTotalStress e) e) t).
Proof.
  unfold physiology. cbv zeta. unfold PRNG.bind at 1.
  destruct (PRNG.randomGaussian 0 0.3 p) as [noise p1]. cbn [fst].
  unfold PRNG.bind, PRNG.ret.
  match goal with
  | |- context [annualCycle dt ?u p1] =>
      pose proof (core_annualCycle dt u p1) as H1;
      destruct (annualCycle dt u p1) as [t1 p2]
  end.
  match goal with
  | |- context [handleLeafDrop dt ?e' t1 p2] =>
      pose proof (core_handleLeafDrop dt e' t1 p2) as H2;
      destruct (handleLeafDrop dt e' t1 p2) as [t2 p3]
  end.
  cbn [fst snd] in *. rewrite core_updateLeafDrops, H2, H1. reflexivity.
Qed.

Lemma Basic_physiology_core (dt : R) (e : Environment) (t : Tree)
    (p : PRNG.prngState) :
  core (snd (fst (Basic.physiology dt e t p)))
  = core (Basic.metabolism dt (fst (PRNG.randomGaussian 0 0.3 p))
            (recordStress (calculateTotalStress e) e) t).
Proof.
  unfold Basic.physiology. cbv zeta. unfold PRNG.bind at 1.
  destruct (PRNG.randomGaussian 0 0.3 p) as [noise p1]. cbn [fst].
  unfold PRNG.bind, PRNG.ret.
  match goal with
  | |- context [annualCycle dt ?u p1] =>
      pose proof (core_annualCycle dt u p1) as H1;
      destruct (annualCycle dt u p1) as [t1 p2]
  end.
  match goal with
  | |- context [handleLeafDrop dt ?e' t1 p2] =>
      pose proof (core_handleLeafDrop dt e' t1 p2) as H2;
      destruct (handleLeafDrop dt e' t1 p2) as [t2 p3]
  end.
  cbn [fst snd] in *. rewrite core_updateLeafDrops, H2, H1. reflexivity.
Qed.

(** The three ways through [updateBiology]: the tree was dead; the
    mortality model killed it; it lived through the substep. *)
Lemma updateBiology_cases (cfg : CONFIG.Disturbance) (dt : R) (g : Global) :
  let e := updateEnvironmentTime dt (environment g) in
  let mortal := applyMortalityModel cfg dt e (tree g) (prngState g) in
  (health (vitality (tree g)) <= 0
   /\ core (tree (updateBiology cfg dt g)) = core (tree g))
  \/ (0 < health (vitality (tree g))
      /\ health (vitality (fst mortal)) <= 0
      /\ core (tree (updateBiology cfg dt g)) = core (fst mortal))
  \/ (0 < health (vitality (tree g))
      /\ 0 < health (vitality (fst mortal))
      /\ core (tree (updateBiology cfg dt g))
         = core (metabolism dt
                   (fst (PRNG.randomGaussian 0 0.3 (snd mortal)))
                   (recordStress (calculateTotalStress e) e) (fst mortal))).
Proof.
  intros e mortal. unfold updateBiology. fold e. fold mortal.
  destruct (health (vitality (tree g)) <=? 0) eqn:Hdead.
  - left. apply leb_true in Hdead. split; [exact Hdead | reflexivity].
  - apply leb_false in Hdead. right.
    destruct (health (vitality (fst mortal)) <=? 0) eqn:Hkilled.
    + left. apply leb_true in Hkilled. repeat split; assumption.
    + right. apply leb_false in Hkilled.
      split; [exact Hdead|]. split; [exact Hkilled|].
      cbn [tree]. apply physiology_core.
Qed.

Lemma Basic_updateBiology_cases (dt : R) (g : Global) :
  let e := updateEnvironmentTime dt (environment g) in
  (health (vitality (tree g)) <= 0
   /\ core (tree (Basic.updateBiology dt g)) = core (tree g))
  \/ (0 < health (vitality (tree g))
      /\ core (tree (Basic.updateBiology dt g))
         = core (Basic.metabolism dt
                   (fst (PRNG.randomGaussian 0 0.3 (prngState g)))
                   (recordStress (calculateTotalStress e) e) (tree g))).
Proof.
  intros e. unfold Basic.updateBiology. fold e.
  destruct (health (vitality (tree g)) <=? 0) eqn:Hdead.
  - left. apply leb_true in Hdead. split; [exact Hdead | reflexivity].
  - apply leb_false in Hdead. right.
    split; [exact Hdead|]. cbn [tree]. apply Basic_physiology_core.
Qed.

Lemma updateBiology_simulationState (cfg : CONFIG.Disturbance) (dt : R)
    (g : Global) :
  simulationState (updateBiology cfg dt g) = simulationState g.
Proof. unfold updateBiology. repeat split_if; reflexivity. Qed.

Lemma Basic_updateBiology_simulationState (dt : R) (g : Global) :
  simulationState (Basic.updateBiology dt g) = simulationState g.
Proof. unfold Basic.updateBiology. repeat split_if; reflexivity. Qed.

Lemma substep_simulationState (cfg : CONFIG.Disturbance) (ui : UI.t)
    (g : Global) :
  simulationState (substep cfg ui g) = simulationState g.
Proof. unfold substep. rewrite updateBiology_simulationState. reflexivity. Qed.

Lemma Basic_substep_simulationState (ui : UI.t) (g : Global) :
  simulationState (Basic.substep ui g) = simulationState g.
Proof.
  unfold Basic.substep. rewrite Basic_updateBiology_simulationState.
  reflexivity.
Qed.

(** ** The clamp invariant (C3) *)

Lemma vitals_core (t t' : Tree) :
  core t' = core t -> vitals_in_range t -> vitals_in_range t'.
Proof.
  unfold core, vitals_in_range. intros E H.
  injection E as Ev _ _ _ Ec _ _. rewrite Ev, Ec. exact H.
Qed.

Lemma vitals_killed (c : option string) (t : Tree) :
  vitals_in_range t -> vitals_in_range (set_deathCause c (set_health 0 t)).
Proof.
  intros [Hh H]. split; [cbn; lra | exact H].
Qed.

Lemma vitals_healthDynamics (dt n noise : R) (e : Environment) (t : Tree) :
  vitals_in_range t -> vitals_in_range (healthDynamics dt n noise e t).
Proof.
  intros [Hh H]. split; [|exact H].
  apply clamp_range; lra.
Qed.

Lemma vitals_vigorDynamics (n : R) (t : Tree) :
  vitals_in_range t -> vitals_in_range (vigorDynamics n t).
Proof.
  intros [Hh [Hv H]]. split; [exact Hh|]. split; [|exact H].
  apply clamp_range; lra.
Qed.

Lemma vitals_stressAccumulation (dt : R) (e : Environment) (t : Tree) :
  vitals_in_range t -> vitals_in_range (stressAccumulation dt e t).
Proof.
  intros [Hh [Hv [Hs H]]]. split; [exact Hh|]. split; [exact Hv|].
  split; [|exact H]. apply clamp_range; lra.
Qed.

Lemma vitals_diseaseProgression (dt : R) (e : Environment) (t : Tree) :
  0 <= dt ->
  vitals_in_range t -> vitals_in_range (diseaseProgression dt e t).
Proof.
  intros Hdt [Hh [Hv [Hs [Hd H]]]].
  split; [exact Hh|]. split; [exact Hv|]. split; [exact Hs|].
  split; [|exact H].
  unfold diseaseProgression; cbn [vitality diseaseLoad set_diseaseLoad
    with_vitality].
  unfold JS.Math_min, JS.Math_max, Rmin, Rmax.
  destruct (disease e).
  - assert (0 <= dt * 2 * (100 - health (vitality t)) / 100) by nra.
    destruct (Rle_dec _ _); lra.
  - destruct (Rle_dec _ _); lra.
Qed.

Lemma vitals_waterDynamics (dt : R) (e : Environment) (t : Tree) :
  vitals_in_range t -> vitals_in_range (waterDynamics dt e t).
Proof.
  intros [Hh [Hv [Hs [Hd [Hc Hw]]]]].
  repeat (split; [assumption|]).
  apply clamp_range; lra.
Qed.

Lemma vitals_updateBiomass (dt n : R) (e : Environment) (t : Tree) :
  vitals_in_range t -> vitals_in_range (updateBiomass dt n e t).
Proof. intros H. unfold updateBiomass. split_if; exact H. Qed.

Lemma chlorophyll_range (dt : R) (e : Environment) (t : Tree) :
  0 <= dt ->
  0 <= chlorophyllContent (leafSystem t) <= 100 ->
  0 <= chlorophyll dt e t <= 100.
Proof.
  intros Hdt Hc. pose proof (getSeasonProgress_range (dayOfYear e)) as Hp.
  unfold chlorophyll, JS.Math_min, JS.Math_max, Rmin, Rmax.
  repeat split_if; lra.
Qed.

Lemma Basic_chlorophyll_range (dt : R) (e : Environment) (t : Tree) :
  0 <= dt ->
  0 <= chlorophyllContent (leafSystem t) <= 100 ->
  0 <= Basic.chlorophyll dt e t <= 100.
Proof.
  intros Hdt Hc. pose proof (getSeasonProgress_range (dayOfYear e)) as Hp.
  unfold Basic.chlorophyll, JS.Math_min, JS.Math_max, Rmin, Rmax.
  repeat split_if; lra.
Qed.

Lemma vitals_set_chlorophyllContent (c : R) (t : Tree) :
  0 <= c <= 100 ->
  vitals_in_range t -> vitals_in_range (set_chlorophyllContent c t).
Proof.
  intros Hc [Hh [Hv [Hs [Hd [_ Hw]]]]]. repeat (split; try assumption).
  all: apply Hc.
Qed.

Lemma metabolism_vitals (dt noise : R) (e : Environment) (t : Tree) :
  0 <= dt -> vitals_in_range t -> vitals_in_range (metabolism dt noise e t).
Proof.
  intros Hdt H. unfold metabolism. cbv zeta.
  set (d := isDormant e t). set (n := netGrowthFactor d e t).
  assert (H1 : vitals_in_range
                 (updateFoliage dt e
                    (diseaseProgression dt e
                       (stressAccumulation dt e
                          (vigorDynamics n
                             (healthDynamics dt n noise e
                                (set_dormant d t))))))).
  { apply (vitals_core _ _ (core_updateFoliage _ _ _)).
    apply vitals_diseaseProgression; [exact Hdt|].
    apply vitals_stressAccumulation, vitals_vigorDynamics,
      vitals_healthDynamics. exact H. }
  match goal with
  | |- context [if grows d n ?u then _ else _] => set (t1 := u) in *
  end.
  assert (H2 : vitals_in_range
                 (if grows d n t1 then physicalGrowth dt n e t1 else t1)).
  { destruct (grows d n t1); [|exact H1].
    apply (vitals_core _ _ (core_physicalGrowth _ _ _ _)). exact H1. }
  match goal with
  | |- vitals_in_range (set_chlorophyllContent _ ?u) => set (t2 := u)
  end.
  assert (H3 : vitals_in_range t2).
  { subst t2. apply vitals_waterDynamics.
    apply (vitals_core _ _ (core_gasExchange _ _ _ _)).
    apply vitals_updateBiomass. exact H2. }
  apply vitals_set_chlorophyllContent; [|exact H3].
  apply chlorophyll_range; [exact Hdt | apply H3].
Qed.

Lemma Basic_metabolism_vitals (dt noise : R) (e : Environment) (t : Tree) :
  0 <= dt ->
  vitals_in_range t -> vitals_in_range (Basic.metabolism dt noise e t).
Proof.
  intros Hdt H. unfold Basic.metabolism. cbv zeta.
  set (d := Basic.isDormant e). set (n := netGrowthFactor d e t).
  assert (H1 : vitals_in_range
                 (Basic.updateFoliage dt e
                    (diseaseProgression dt e
                       (stressAccumulation dt e
                          (vigorDynamics n
                             (healthDynamics dt n noise e
                                (set_dormant d t))))))).
  { apply (vitals_core _ _ (core_Basic_updateFoliage _ _ _)).
    apply vitals_diseaseProgression; [exact Hdt|].
    apply vitals_stressAccumulation, vitals_vigorDynamics,
      vitals_healthDynamics. exact H. }
  match goal with
  | |- context [if grows d n ?u then _ else _] => set (t1 := u) in *
  end.
  assert (H2 : vitals_in_range
                 (if grows d n t1 then Basic.physicalGrowth dt n e t1
                  else t1)).
  { destruct (grows d n t1); [|exact H1].
    apply (vitals_core _ _ (core_Basic_physicalGrowth _ _ _ _)). exact H1. }
  match goal with
  | |- vitals_in_range (set_chlorophyllContent _ ?u) => set (t2 := u)
  end.
  assert (H3 : vitals_in_range t2).
  { subst t2. apply vitals_waterDynamics.
    apply (vitals_core _ _ (core_gasExchange _ _ _ _)).
    apply vitals_updateBiomass. exact H2. }
  apply vitals_set_chlorophyllContent; [|exact H3].
  apply Basic_chlorophyll_range; [exact Hdt | apply H3].
Qed.

Lemma updateBiology_vitals (cfg : CONFIG.Disturbance) (dt : R) (g : Global) :
  0 <= dt ->
  vitals_in_range (tree g) -> vitals_in_range (tree (updateBiology cfg dt g)).
Proof.
  intros Hdt H.
  set (e := updateEnvironmentTime dt (environment g)).
  assert (Hm : vitals_in_range
                 (fst (applyMortalityModel cfg dt e (tree g) (prngState g)))).
  { destruct (applyMortalityModel_cases cfg dt e (tree g) (prngState g))
      as [E | [c E]]; rewrite E; [exact H | apply vitals_killed; exact H]. }
  destruct (updateBiology_cases cfg dt g)
    as [[_ E] | [[_ [_ E]] | [_ [_ E]]]];
    apply (vitals_core _ _ E); try assumption.
  apply metabolism_vitals; assumption.
Qed.

Lemma Basic_updateBiology_vitals (dt : R) (g : Global) :
  0 <= dt ->
  vitals_in_range (tree g) -> vitals_in_range (tree (Basic.updateBiology dt g)).
Proof.
  intros Hdt H.
  destruct (Basic_updateBiology_cases dt g) as [[_ E] | [_ E]];
    apply (vitals_core _ _ E); try assumption.
  apply Basic_metabolism_vitals; assumption.
Qed.

(** C3.  From a tree state whose vitality fields and chlorophyll content
    lie in [0, 100], with a substep size that is not negative, after every
    substep of a run [health], [vigor], [stressLevel], [diseaseLoad],
    [chlorophyllContent] and [waterContent] lie in [0, 100], whatever the
    controls of the page give as environment at each substep and whatever
    the generator draws; in both revisions of [updateBiology]. *)
Theorem vitals_stay_clamped (cfg : CONFIG.Disturbance) (uis : list UI.t)
    (g : Global) :
  0 <= substepTime (simulationState g) ->
  vitals_in_range (tree g) ->
  Forall vitals_in_range (trajectory cfg uis g)
  /\ Forall vitals_in_range (Basic.trajectory uis g).
Proof.
  intros Hdt H. split.
  - revert g Hdt H. induction uis as [|ui uis IH]; intros g Hdt H;
      cbn [trajectory]; constructor.
    + unfold substep. apply updateBiology_vitals; assumption.
    + apply IH.
      * rewrite substep_simulationState. exact Hdt.
      * unfold substep. apply updateBiology_vitals; assumption.
  - revert g Hdt H. induction uis as [|ui uis IH]; intros g Hdt H;
      cbn [Basic.trajectory]; constructor.
    + unfold Basic.substep. apply Basic_updateBiology_vitals; assumption.
    + apply IH.
      * rewrite Basic_substep_simulationState. exact Hdt.
      * unfold Basic.substep. apply Basic_updateBiology_vitals; assumption.
Qed.

Lemma vitals_stay_clamped_witness :
  0 <= substepTime (simulationState global0)
  /\ vitals_in_range (tree global0)
  /\ Forall vitals_in_range
       (trajectory sampleDisturbance [noControls; noControls] global0).
Proof.
  assert (H0 : 0 <= substepTime (simulationState global0)) by (cbn; lra).
  assert (H1 : vitals_in_range (tree global0))
    by (unfold vitals_in_range; cbn; lra).
  split; [exact H0|]. split; [exact H1|].
  apply (vitals_stay_clamped sampleDisturbance [noControls; noControls]
           global0 H0 H1).
Defined.

(** ** The biomass total (C4) *)

Lemma balanced_core (t t' : Tree) :
  core t' = core t -> biomass_balanced t -> biomass_balanced t'.
Proof.
  unfold core, biomass_balanced. intros E H.
  injection E as _ Eb _ _ _ _ _. rewrite Eb. exact H.
Qed.

(** When the allocation runs, the total is assigned the sum; when it does
    not, [updateBiomass] returns at once and the biomass is as before. *)
Lemma updateBiomass_recomputes (dt n : R) (e : Environment) (t : Tree) :
  0 < n -> biomass_balanced (updateBiomass dt n e t).
Proof.
  intros Hn. unfold updateBiomass.
  destruct (n <=? 0) eqn:E; [apply leb_true in E; lra|].
  reflexivity.
Qed.

Lemma updateBiomass_skips (dt n : R) (e : Environment) (t : Tree) :
  n <= 0 -> updateBiomass dt n e t = t.
Proof.
  intros Hn. unfold updateBiomass.
  destruct (n <=? 0) eqn:E; [reflexivity | apply leb_false in E; lra].
Qed.

Lemma balanced_updateBiomass (dt n : R) (e : Environment) (t : Tree) :
  biomass_balanced t -> biomass_balanced (updateBiomass dt n e t).
Proof.
  intros H. destruct (Rle_dec n 0) as [Hn|Hn].
  - rewrite updateBiomass_skips by exact Hn. exact H.
  - apply updateBiomass_recomputes. lra.
Qed.

Lemma metabolism_balanced (dt noise : R) (e : Environment) (t : Tree) :
  biomass_balanced t -> biomass_balanced (metabolism dt noise e t).
Proof.
  intros H. unfold metabolism. cbv zeta.
  set (d := isDormant e t). set (n := netGrowthFactor d e t).
  match goal with
  | |- context [if grows d n ?u then _ else _] => set (t1 := u) in *
  end.
  assert (H1 : biomass_balanced t1) by exact H.
  clearbody t1 n d.
  match goal with
  | |- context [updateBiomass dt n e ?u] => set (t2 := u) in *
  end.
  assert (H2 : biomass_balanced t2).
  { subst t2. destruct (grows d n t1); [|exact H1].
    apply (balanced_core _ _ (core_physicalGrowth _ _ _ _)). exact H1. }
  clearbody t2.
  match goal with
  | |- biomass_balanced (set_chlorophyllContent _ (waterDynamics _ _ ?u)) =>
      set (t3 := u) in *
  end.
  assert (H3 : biomass_balanced t3).
  { apply (balanced_core _ _ (core_gasExchange _ _ _ _)).
    apply balanced_updateBiomass. exact H2. }
  clearbody t3. exact H3.
Qed.

Lemma Basic_metabolism_balanced (dt noise : R) (e : Environment) (t : Tree) :
  biomass_balanced t -> biomass_balanced (Basic.metabolism dt noise e t).
Proof.
  intros H. unfold Basic.metabolism. cbv zeta.
  set (d := Basic.isDormant e). set (n := netGrowthFactor d e t).
  match goal with
  | |- context [if grows d n ?u then _ else _] => set (t1 := u) in *
  end.
  assert (H1 : biomass_balanced t1) by exact H.
  clearbody t1 n d.
  match goal with
  | |- context [updateBiomass dt n e ?u] => set (t2 := u) in *
  end.
  assert (H2 : biomass_balanced t2).
  { subst t2. destruct (grows d n t1); [|exact H1].
    apply (balanced_core _ _ (core_Basic_physicalGrowth _ _ _ _)). exact H1. }
  clearbody t2.
  match goal with
  | |- biomass_balanced (set_chlorophyllContent _ (waterDynamics _ _ ?u)) =>
      set (t3 := u) in *
  end.
  assert (H3 : biomass_balanced t3).
  { apply (balanced_core _ _ (core_gasExchange _ _ _ _)).
    apply balanced_updateBiomass. exact H2. }
  clearbody t3. exact H3.
Qed.

Lemma updateBiology_balanced (cfg : CONFIG.Disturbance) (dt : R) (g : Global) :
  biomass_balanced (tree g) ->
  biomass_balanced (tree (updateBiology cfg dt g)).
Proof.
  intros H.
  set (e := updateEnvironmentTime dt (environment g)).
  assert (Hm : biomass_balanced
                 (fst (applyMortalityModel cfg dt e (tree g) (prngState g)))).
  { destruct (applyMortalityModel_cases cfg dt e (tree g) (prngState g))
      as [E | [c E]]; rewrite E; exact H. }
  destruct (updateBiology_cases cfg dt g)
    as [[_ E] | [[_ [_ E]] | [_ [_ E]]]];
    apply (balanced_core _ _ E); try assumption.
  apply metabolism_balanced; assumption.
Qed.

Lemma Basic_updateBiology_balanced (dt : R) (g : Global) :
  biomass_balanced (tree g) ->
  biomass_balanced (tree (Basic.updateBiology dt g)).
Proof.
  intros H.
  destruct (Basic_updateBiology_cases dt g) as [[_ E] | [_ E]];
    apply (balanced_core _ _ E); try assumption.
  apply Basic_metabolism_balanced; assumption.
Qed.

(** C4.  From a tree state whose [biomass.total] is the sum of trunk,
    branches, leaves and roots (as the declared tree is), [biomass.total]
    is that sum after every substep of a run, in both revisions of
    [updateBiology]: a substep whose growth factor is positive assigns the
    sum to the total, and a substep whose growth factor is zero or
    negative leaves every compartment and the total as they were. *)
Theorem biomass_total_is_sum (cfg : CONFIG.Disturbance) (uis : list UI.t)
    (g : Global) :
  biomass_balanced (tree g) ->
  Forall biomass_balanced (trajectory cfg uis g)
  /\ Forall biomass_balanced (Basic.trajectory uis g)
  /\ (forall (dt n : R) (e : Environment) (t : Tree),
        (0 < n -> biomass_balanced (updateBiomass dt n e t))
        /\ (n <= 0 -> updateBiomass dt n e t = t)).
Proof.
  intros H. split; [|split].
  - revert g H. induction uis as [|ui uis IH]; intros g H;
      cbn [trajectory]; constructor.
    + unfold substep. apply updateBiology_balanced; exact H.
    + apply IH. unfold substep. apply updateBiology_balanced; exact H.
  - revert g H. induction uis as [|ui uis IH]; intros g H;
      cbn [Basic.trajectory]; constructor.
    + unfold Basic.substep. apply Basic_updateBiology_balanced; exact H.
    + apply IH. unfold Basic.substep.
      apply Basic_updateBiology_balanced; exact H.
  - intros dt n e t. split.
    + apply updateBiomass_recomputes.
    + apply updateBiomass_skips.
Qed.

Lemma biomass_total_is_sum_witness :
  biomass_balanced (tree global0)
  /\ Forall biomass_balanced
       (trajectory sampleDisturbance [noControls; noControls] global0).
Proof.
  assert (H : biomass_balanced (tree global0))
    by (unfold biomass_balanced; cbn; lra).
  split; [exact H|].
  apply (biomass_total_is_sum sampleDisturbance [noControls; noControls]
           global0 H).
Defined.

(** ** Winter dormancy (C8) *)

Lemma phenology_updateBiomass (dt n : R) (e : Environment) (t : Tree) :
  phenology (updateBiomass dt n e t) = phenology t.
Proof. unfold updateBiomass. split_if; reflexivity. Qed.

Lemma phenology_core (t t' : Tree) :
  core t' = core t -> phenology t' = phenology t.
Proof. unfold core. intros E. injection E as _ _ Ep _ _ _ _. exact Ep. Qed.

(** The substep assigns the constant [isDormant] to [tree.dormant]. *)
Lemma metabolism_dormant (dt noise : R) (e : Environment) (t : Tree) :
  dormant (phenology (metabolism dt noise e t)) = isDormant e t.
Proof.
  unfold metabolism. cbv zeta.
  set (d := isDormant e t). set (n := netGrowthFactor d e t).
  match goal with
  | |- context [if grows d n ?u then _ else _] => set (t1 := u) in *
  end.
  assert (H1 : dormant (phenology t1) = d) by reflexivity.
  clearbody t1 n.
  match goal with
  | |- context [updateBiomass dt n e ?u] => set (t2 := u) in *
  end.
  assert (H2 : dormant (phenology t2) = d).
  { subst t2. destruct (grows d n t1); [|exact H1].
    rewrite (phenology_core _ _ (core_physicalGrowth _ _ _ _)). exact H1. }
  clearbody t2.
  match goal with
  | |- context [waterDynamics _ _ ?u] => set (t3 := u) in *
  end.
  assert (H3 : dormant (phenology t3) = d).
  { subst t3. rewrite (phenology_core _ _ (core_gasExchange _ _ _ _)).
    rewrite phenology_updateBiomass. exact H2. }
  clearbody t3. exact H3.
Qed.

Lemma Basic_metabolism_dormant (dt noise : R) (e : Environment) (t : Tree) :
  dormant (phenology (Basic.metabolism dt noise e t)) = Basic.isDormant e.
Proof.
  unfold Basic.metabolism. cbv zeta.
  set (d := Basic.isDormant e). set (n := netGrowthFactor d e t).
  match goal with
  | |- context [if grows d n ?u then _ else _] => set (t1 := u) in *
  end.
  assert (H1 : dormant (phenology t1) = d) by reflexivity.
  clearbody t1 n.
  match goal with
  | |- context [updateBiomass dt n e ?u] => set (t2 := u) in *
  end.
  assert (H2 : dormant (phenology t2) = d).
  { subst t2. destruct (grows d n t1); [|exact H1].
    rewrite (phenology_core _ _ (core_Basic_physicalGrowth _ _ _ _)).
    exact H1. }
  clearbody t2.
  match goal with
  | |- context [waterDynamics _ _ ?u] => set (t3 := u) in *
  end.
  assert (H3 : dormant (phenology t3) = d).
  { subst t3. rewrite (phenology_core _ _ (core_gasExchange _ _ _ _)).
    rewrite phenology_updateBiomass. exact H2. }
  clearbody t3. exact H3.
Qed.

Lemma applyMortalityModel_species (cfg : CONFIG.Disturbance) (dt : R)
    (e : Environment) (t : Tree) (p : PRNG.prngState) :
  species (fst (applyMortalityModel cfg dt e t p)) = species t.
Proof.
  destruct (applyMortalityModel_cases cfg dt e t p) as [E | [c E]];
    rewrite E; reflexivity.
Qed.

(** In Winter a species that is not evergreen is dormant, and the net
    growth factor of a dormant tree is 0. *)
Lemma winter_isDormant (e : Environment) (t : Tree) :
  season e = SeasonObject WINTER ->
  evergreen_or_false (TREE_SPECIES.get_or_OAK (species t)) = false ->
  isDormant e t = true.
Proof.
  intros Hs He. unfold isDormant. rewrite He, Hs. reflexivity.
Qed.

Lemma winter_Basic_isDormant (e : Environment) :
  season e = SeasonObject WINTER -> Basic.isDormant e = true.
Proof. intros Hs. unfold Basic.isDormant. rewrite Hs. reflexivity. Qed.

(** C8.  When the season of the substep (the season that
    [updateEnvironmentTime] assigns at its start) is Winter and the
    species of the tree is not evergreen, the constant [isDormant] is true
    and the net growth factor is 0, whatever the other fields of the
    environment and of the tree; and a substep that the tree lives through
    sets [tree.dormant] to true.  In the revision without species, Winter
    alone gives the same. *)
Theorem winter_dormancy (cfg : CONFIG.Disturbance) (dt : R) (g : Global) :
  let e0 := updateEnvironmentTime dt (environment g) in
  let e := recordStress (calculateTotalStress e0) e0 in
  let t := fst (applyMortalityModel cfg dt e0 (tree g) (prngState g)) in
  season e0 = SeasonObject WINTER ->
  evergreen_or_false (TREE_SPECIES.get_or_OAK (species (tree g))) = false ->
  (isDormant e t = true
   /\ netGrowthFactor (isDormant e t) e t = 0
   /\ (0 < health (vitality (tree g)) -> 0 < health (vitality t) ->
       dormant (phenology (tree (updateBiology cfg dt g))) = true))
  /\ (Basic.isDormant e = true
      /\ netGrowthFactor (Basic.isDormant e) e (tree g) = 0
      /\ (0 < health (vitality (tree g)) ->
          dormant (phenology (tree (Basic.updateBiology dt g))) = true)).
Proof.
  intros e0 e t Hs He.
  assert (Hse : season e = SeasonObject WINTER) by exact Hs.
  assert (Hd : isDormant e t = true).
  { apply winter_isDormant; [exact Hse|].
    unfold t. rewrite applyMortalityModel_species. exact He. }
  assert (Hb : Basic.isDormant e = true)
    by (apply winter_Basic_isDormant; exact Hse).
  split; split; try assumption; split.
  - rewrite Hd. reflexivity.
  - intros Hlive Hsurvives.
    destruct (updateBiology_cases cfg dt g)
      as [[Hdead _] | [[_ [Hkilled _]] | [_ [_ E]]]].
    + lra.
    + fold e0 in Hkilled. fold t in Hkilled. lra.
    + rewrite (phenology_core _ _ E). fold e0. fold e. fold t.
      rewrite metabolism_dormant. exact Hd.
  - rewrite Hb. reflexivity.
  - intros Hlive.
    destruct (Basic_updateBiology_cases dt g)
      as [[Hdead _] | [_ E]].
    + lra.
    + rewrite (phenology_core _ _ E). fold e0. fold e.
      rewrite Basic_metabolism_dormant. exact Hb.
Qed.

Lemma updateEnvironmentTime_day_300 :
  season (updateEnvironmentTime (1 / 60) (environmentOnDay 300))
  = SeasonObject WINTER.
Proof.
  unfold updateEnvironmentTime, environmentOnDay; cbn [dayOfYear season].
  unfold JS.geb, JS.leb.
  destruct (Rle_dec 365 (300 + 1 / 60)); [lra|].
  unfold seasonOfDay, JS.ltb. decide_comparisons. reflexivity.
Qed.

Lemma winter_dormancy_witness :
  season (updateEnvironmentTime (1 / 60) (environment (globalOnDay 300)))
  = SeasonObject WINTER
  /\ evergreen_or_false
       (TREE_SPECIES.get_or_OAK (species (tree (globalOnDay 300)))) = false
  /\ netGrowthFactor
       (isDormant
          (recordStress
             (calculateTotalStress
                (updateEnvironmentTime (1 / 60) (environmentOnDay 300)))
             (updateEnvironmentTime (1 / 60) (environmentOnDay 300)))
          (fst (applyMortalityModel sampleDisturbance (1 / 60)
                  (updateEnvironmentTime (1 / 60) (environmentOnDay 300))
                  tree0 (prngState (globalOnDay 300)))))
       (recordStress
          (calculateTotalStress
             (updateEnvironmentTime (1 / 60) (environmentOnDay 300)))
          (updateEnvironmentTime (1 / 60) (environmentOnDay 300)))
       (fst (applyMortalityModel sampleDisturbance (1 / 60)
               (updateEnvironmentTime (1 / 60) (environmentOnDay 300))
               tree0 (prngState (globalOnDay 300))))
     = 0.
Proof.
  assert (H1 := updateEnvironmentTime_day_300).
  assert (H2 : evergreen_or_false
                 (TREE_SPECIES.get_or_OAK (species (tree (globalOnDay 300))))
               = false) by reflexivity.
  split; [exact H1|]. split; [exact H2|].
  exact (proj1 (proj2 (proj1
           (winter_dormancy sampleDisturbance (1 / 60) (globalOnDay 300)
              H1 H2)))).
Defined.

(** ** The death probability of a substep (C1) *)

Lemma hazardPerYear_range (cfg : CONFIG.Disturbance) (m : Mortality.t)
    (e : Environment) (t : Tree) :
  0 <= hazardPerYear cfg m e t <= 5.
Proof. unfold hazardPerYear. apply clamp_range. lra. Qed.

Lemma pDie_formula (h dtDays : R) :
  pDie h dtDays = 1 - exp (- h * (dtDays / 365)).
Proof. reflexivity. Qed.

Lemma pDie_zero_hazard (dtDays : R) : pDie 0 dtDays = 0.
Proof.
  rewrite pDie_formula.
  replace (- 0 * (dtDays / 365)) with 0 by lra. rewrite exp_0. lra.
Qed.

Lemma exp_monotone (x y : R) : x <= y -> exp x <= exp y.
Proof.
  intros [H | H]; [left; apply exp_increasing; exact H | rewrite H; lra].
Qed.

Lemma pDie_monotone (h dt1 dt2 : R) :
  0 <= h -> dt1 <= dt2 -> pDie h dt1 <= pDie h dt2.
Proof.
  intros Hh Hdt. rewrite !pDie_formula.
  assert (H : exp (- h * (dt2 / 365)) <= exp (- h * (dt1 / 365)))
    by (apply exp_monotone; nra).
  lra.
Qed.

Lemma pDie_strictly_monotone (h dt1 dt2 : R) :
  0 < h -> dt1 < dt2 -> pDie h dt1 < pDie h dt2.
Proof.
  intros Hh Hdt. rewrite !pDie_formula.
  assert (H : exp (- h * (dt2 / 365)) < exp (- h * (dt1 / 365)))
    by (apply exp_increasing; nra).
  lra.
Qed.

Lemma pDie_range (h dtDays : R) :
  0 <= h -> 0 <= dtDays -> 0 <= pDie h dtDays < 1.
Proof.
  intros Hh Hdt. rewrite pDie_formula. split.
  - assert (H : exp (- h * (dtDays / 365)) <= exp 0)
      by (apply exp_monotone; nra).
    rewrite exp_0 in H. lra.
  - pose proof (exp_pos (- h * (dtDays / 365))). lra.
Qed.

Lemma pDie_positive (h dtDays : R) : 0 < h -> 0 < dtDays -> 0 < pDie h dtDays.
Proof.
  intros Hh Hdt. rewrite <- (pDie_zero_hazard dtDays) at 1.
  rewrite !pDie_formula.
  assert (H : exp (- h * (dtDays / 365)) < exp (- 0 * (dtDays / 365)))
    by (apply exp_increasing; nra).
  lra.
Qed.

(** The probability is at most the linear approximation [h * dtYears]. *)
Lemma pDie_below_linear (h dtDays : R) : pDie h dtDays <= h * (dtDays / 365).
Proof.
  rewrite pDie_formula.
  pose proof (exp_ineq1_le (- h * (dtDays / 365))). lra.
Qed.

Lemma pDie_vanishes (h eps : R) :
  0 <= h -> 0 < eps ->
  exists delta : R,
    0 < delta /\ forall dt : R, 0 < dt < delta -> pDie h dt < eps.
Proof.
  intros Hh Heps. exists (eps * 365 / (h + 1)).
  assert (Hpos : 0 < / (h + 1)) by (apply Rinv_0_lt_compat; lra).
  split.
  - unfold Rdiv. apply Rmult_lt_0_compat; [lra | exact Hpos].
  - intros dt [Hdt0 Hdt].
    apply Rle_lt_trans with (h * (dt / 365)); [apply pDie_below_linear|].
    assert (Hb : dt * (h + 1) < eps * 365).
    { apply Rmult_lt_reg_r with (/ (h + 1)); [exact Hpos|].
      rewrite Rmult_assoc, Rinv_r by lra. unfold Rdiv in Hdt. lra. }
    nra.
Qed.

(** The sampled death test of [applyMortalityModel]: for a living tree
    with the model enabled, below its maximum age, and a positive substep,
    the model draws one value and kills the tree exactly when the value is
    below [pDie] of the clamped hazard. *)
Lemma applyMortalityModel_sampled (cfg : CONFIG.Disturbance) (dtDays : R)
    (e : Environment) (t : Tree) (p : PRNG.prngState) (m : Mortality.t) :
  0 < health (vitality t) ->
  mortality t = Some m ->
  Mortality.enabled m = true ->
  (forall maxAge : R,
     Mortality.maxAge m = Some maxAge -> age (temporal t) < maxAge) ->
  0 < dtDays ->
  applyMortalityModel cfg dtDays e t p
  = (if fst (PRNG.random p) <? pDie (hazardPerYear cfg m e t) dtDays
     then set_deathCause (Some (sampledDeathCause cfg m e t)) (set_health 0 t)
     else t,
     snd (PRNG.random p)).
Proof.
  intros Hlive Hm Hen Hage Hdt. unfold applyMortalityModel.
  destruct (health (vitality t) <=? 0) eqn:E1;
    [apply leb_true in E1; lra|].
  rewrite Hm, Hen. cbn [negb].
  assert (E2 : match Mortality.maxAge m with
               | Some maxAge => age (temporal t) >=? maxAge
               | None => false
               end = false).
  { destruct (Mortality.maxAge m) as [mx|] eqn:Emx; [|reflexivity].
    apply geb_false. apply Hage. reflexivity. }
  rewrite E2.
  destruct (dtDays / CONFIG.DAYS_PER_YEAR <=? 0) eqn:E3.
  { apply leb_true in E3. unfold CONFIG.DAYS_PER_YEAR in E3. lra. }
  unfold PRNG.bind, PRNG.ret.
  destruct (PRNG.random p) as [r p1]. cbn [fst snd].
  destruct (r <? _); reflexivity.
Qed.

(** C1.  For a hazard [h >= 0] and substeps [0 < dt1 <= dt2]: the death
    probability of a substep is [1 - exp (- h * dtYears)] with [dtYears =
    dtDays / DAYS_PER_YEAR]; it is 0 for the hazard 0; it lies in [0, 1),
    does not grow when the substep shrinks (and strictly shrinks when [h >
    0]), and is below any [eps > 0] for every small enough substep.  The
    mortality model uses it with the clamped hazard, which lies in [0, 5]:
    for a living tree with the model enabled and below its maximum age,
    it kills the tree exactly when the value drawn from the generator is
    below that probability. *)
Theorem death_probability (h dt1 dt2 eps : R) :
  0 <= h -> 0 < dt1 <= dt2 -> 0 < eps ->
  pDie h dt1 = 1 - exp (- h * (dt1 / CONFIG.DAYS_PER_YEAR))
  /\ pDie 0 dt1 = 0
  /\ 0 <= pDie h dt1 < 1
  /\ pDie h dt1 <= pDie h dt2
  /\ (0 < h -> dt1 < dt2 -> pDie h dt1 < pDie h dt2)
  /\ (exists delta : R,
        0 < delta /\ forall dt : R, 0 < dt < delta -> pDie h dt < eps)
  /\ (forall (cfg : CONFIG.Disturbance) (m : Mortality.t) (e : Environment)
             (t : Tree) (p : PRNG.prngState),
        0 <= hazardPerYear cfg m e t <= 5
        /\ (0 < health (vitality t) ->
            mortality t = Some m ->
            Mortality.enabled m = true ->
            (forall maxAge : R,
               Mortality.maxAge m = Some maxAge ->
               age (temporal t) < maxAge) ->
            fst (applyMortalityModel cfg dt1 e t p)
            = if fst (PRNG.random p)
                 <? 1 - exp (- hazardPerYear cfg m e t
                               * (dt1 / CONFIG.DAYS_PER_YEAR))
              then set_deathCause (Some (sampledDeathCause cfg m e t))
                     (set_health 0 t)
              else t)).
Proof.
  intros Hh [Hdt1 Hdt] Heps.
  split; [reflexivity|].
  split; [apply pDie_zero_hazard|].
  split; [apply pDie_range; lra|].
  split; [apply pDie_monotone; assumption|].
  split; [intros; apply pDie_strictly_monotone; assumption|].
  split; [apply pDie_vanishes; assumption|].
  intros cfg m e t p. split; [apply hazardPerYear_range|].
  intros Hlive Hm Hen Hage.
  rewrite (applyMortalityModel_sampled cfg dt1 e t p m) by assumption.
  reflexivity.
Qed.

Lemma death_probability_witness :
  0 <= 1 /\ 0 < 1 / 60 <= 1 /\ 0 < 1 / 2
  /\ pDie 1 (1 / 60) <= pDie 1 1.
Proof.
  assert (H1 : 0 <= 1) by lra.
  assert (H2 : 0 < 1 / 60 <= 1) by lra.
  assert (H3 : 0 < 1 / 2) by lra.
  split; [exact H1|]. split; [exact H2|]. split; [exact H3|].
  exact (proj1 (proj2 (proj2 (proj2
           (death_probability 1 (1 / 60) 1 (1 / 2) H1 H2 H3))))).
Defined.


(** ** The recorded cause of a sampled death (C6) *)

(** Evaluates the comparisons, minima and maxima of a goal on concrete
    numbers. *)
Ltac no_test x :=
  lazymatch x with
  | context [Rlt_dec _ _] => fail
  | context [Rle_dec _ _] => fail
  | context [Req_dec_T _ _] => fail
  | _ => idtac
  end.

Ltac evaluate :=
  unfold JS.gtb, JS.geb;
  unfold clamp, JS.Math_min, JS.Math_max, JS.or_default, JS.ltb, JS.leb,
    JS.eqb, Rmin, Rmax;
  repeat match goal with
  | |- context [Rlt_dec ?a ?b] =>
      no_test a; no_test b; destruct (Rlt_dec a b); try lra
  | |- context [Rle_dec ?a ?b] =>
      no_test a; no_test b; destruct (Rle_dec a b); try lra
  | |- context [Req_dec_T ?a ?b] =>
      no_test a; no_test b; destruct (Req_dec_T a b); try lra
  end;
  cbn [andb orb negb]; try lra.

Lemma random_zeroDraw : fst (PRNG.random zeroDraw) = 0.
Proof.
  unfold PRNG.random, zeroDraw; cbn [fst PRNG.state].
  replace (PRNG.lcg 634785765) with 0%Z by reflexivity. lra.
Qed.

(** On the stormy day a tree of height 0 has a windthrow term of 0 in its
    hazard, below its disease term 0.01; the hazard is the base rate
    0.001, the disease term and the storm term 0.0009. *)
Lemma hazard_on_stormyDay :
  windthrowHazard sampleDisturbance stormyDay (treeWith true 10 0 50) = 0
  /\ diseaseHazard mortalityEnabled stormyDay (treeWith true 10 0 50) = 0.01
  /\ hazardPerYear sampleDisturbance mortalityEnabled stormyDay
       (treeWith true 10 0 50) = 0.0119.
Proof.
  assert (Hw : windthrowHazard sampleDisturbance stormyDay
                 (treeWith true 10 0 50) = 0).
  { unfold windthrowHazard, windthrowConditions; cbn [storm stormyDay andb].
    replace (TREE_SPECIES.get_or_OAK (species (treeWith true 10 0 50)))
      with TREE_SPECIES.OAK by reflexivity.
    cbn [windSpeed stormyDay CONFIG.WINDTHROW_WIND_THRESHOLD
         CONFIG.WINDTHROW_WIND_RANGE sampleDisturbance treeWith height
         morphology Species.windthrowResistance Species.maxHeight
         TREE_SPECIES.OAK].
    evaluate. }
  assert (Hd : diseaseHazard mortalityEnabled stormyDay
                 (treeWith true 10 0 50) = 0.01).
  { unfold diseaseHazard; cbn [disease stormyDay].
    cbn [Mortality.diseaseBaseRatePerYear mortalityEnabled treeWith health
         vitality].
    evaluate. }
  split; [exact Hw|]. split; [exact Hd|].
  unfold hazardPerYear. rewrite Hw, Hd.
  replace (baseHazard mortalityEnabled) with 0.001
    by (unfold baseHazard; cbn [Mortality.baseRatePerYear mortalityEnabled];
        evaluate).
  replace (senescenceHazard mortalityEnabled (treeWith true 10 0 50)) with 0
    by (unfold senescenceHazard;
        cbn [Mortality.senescenceStartAge Mortality.maxAge mortalityEnabled
             treeWith age temporal];
        evaluate).
  replace (stressHazard (treeWith true 10 0 50)) with 0
    by (unfold stressHazard; cbn [treeWith stressLevel vitality];
        evaluate).
  replace (droughtHazard mortalityEnabled stormyDay) with 0
    by (unfold droughtHazard, water01;
        cbn [Mortality.droughtThreshold mortalityEnabled water stormyDay];
        evaluate).
  replace (heatHazard mortalityEnabled stormyDay) with 0
    by (unfold heatHazard;
        cbn [Mortality.heatStressTemp mortalityEnabled temperature stormyDay];
        evaluate).
  replace (stormHazard mortalityEnabled stormyDay) with 0.0009
    by (unfold stormHazard; cbn [storm stormyDay];
        cbn [Mortality.stormFrequency mortalityEnabled windSpeed stormyDay];
        evaluate).
  replace (fireHazard sampleDisturbance stormyDay (treeWith true 10 0 50))
    with 0
    by (unfold fireHazard, fireConditions, water01;
        cbn [CONFIG.FIRE_DROUGHT_THRESHOLD CONFIG.FIRE_HEAT_THRESHOLD
             sampleDisturbance water temperature stormyDay];
        evaluate).
  evaluate.
Qed.

(** C6.  When the sampled death test succeeds, the recorded cause is the
    first active condition in the order windthrow (a storm with wind above
    the windthrow threshold), fire (water below the fire drought threshold
    and temperature above the fire heat threshold), disease, senescence
    (age past [senescenceStartAge]), and otherwise the generic cause.  The
    conditions, not the sizes of the hazard terms, decide. *)
Theorem death_cause_priority (cfg : CONFIG.Disturbance) (dt : R)
    (e : Environment) (t : Tree) (p : PRNG.prngState) (m : Mortality.t) :
  0 < health (vitality t) ->
  mortality t = Some m ->
  Mortality.enabled m = true ->
  (forall maxAge : R,
     Mortality.maxAge m = Some maxAge -> age (temporal t) < maxAge) ->
  0 < dt ->
  fst (PRNG.random p) < pDie (hazardPerYear cfg m e t) dt ->
  let t' := fst (applyMortalityModel cfg dt e t p) in
  let windthrow :=
    storm e = true /\ CONFIG.WINDTHROW_WIND_THRESHOLD cfg < windSpeed e in
  let fire :=
    clamp (water e / 100) 0 1 < CONFIG.FIRE_DROUGHT_THRESHOLD cfg
    /\ CONFIG.FIRE_HEAT_THRESHOLD cfg < temperature e in
  let senescent :=
    exists s : R,
      Mortality.senescenceStartAge m = Some s /\ s < age (temporal t) in
  health (vitality t') = 0
  /\ (windthrow -> deathCause t' = Some "Windthrow"%string)
  /\ (~ windthrow -> fire -> deathCause t' = Some "Fire"%string)
  /\ (~ windthrow -> ~ fire -> disease e = true ->
      deathCause t' = Some "Disease"%string)
  /\ (~ windthrow -> ~ fire -> disease e = false -> senescent ->
      deathCause t' = Some "Old age"%string)
  /\ (~ windthrow -> ~ fire -> disease e = false -> ~ senescent ->
      deathCause t' = Some "Mortality event"%string).
Proof.
  intros Hlive Hm Hen Hage Hdt Htest t' windthrow fire senescent.
  subst t'. rewrite (applyMortalityModel_sampled cfg dt e t p m) by assumption.
  cbn [fst]. apply ltb_true in Htest. rewrite Htest.
  split; [reflexivity|].
  cbn [deathCause set_deathCause].
  assert (Hw : windthrowConditions cfg e = true <-> windthrow).
  { unfold windthrow, windthrowConditions.
    rewrite andb_true_iff, gtb_true. reflexivity. }
  assert (Hf : fireConditions cfg e = true <-> fire).
  { unfold fire, fireConditions, water01.
    rewrite andb_true_iff, ltb_true, gtb_true. reflexivity. }
  assert (Hs : match Mortality.senescenceStartAge m with
               | Some s => age (temporal t) >? s
               | None => false
               end = true <-> senescent).
  { unfold senescent. destruct (Mortality.senescenceStartAge m) as [s|].
    - rewrite gtb_true. split.
      + intros H. exists s. split; [reflexivity | exact H].
      + intros [s' [E H]]. injection E as ->. exact H.
    - split; [discriminate | intros [s' [E _]]; discriminate]. }
  unfold sampledDeathCause.
  destruct (windthrowConditions cfg e) eqn:Ew.
  { assert (windthrow) by (apply Hw; reflexivity).
    repeat split; intros; try reflexivity; contradiction. }
  assert (Hnw : ~ windthrow) by (intros H; apply Hw in H; discriminate).
  destruct (fireConditions cfg e) eqn:Ef.
  { assert (fire) by (apply Hf; reflexivity).
    repeat split; intros; try reflexivity; contradiction. }
  assert (Hnf : ~ fire) by (intros H; apply Hf in H; discriminate).
  destruct (disease e) eqn:Ed.
  { repeat split; intros; try reflexivity; try contradiction;
      discriminate. }
  destruct (match Mortality.senescenceStartAge m with
            | Some s => age (temporal t) >? s
            | None => false
            end) eqn:Es.
  { assert (senescent) by (apply Hs; reflexivity).
    repeat split; intros; try reflexivity; try contradiction;
      discriminate. }
  assert (Hns : ~ senescent) by (intros H; apply Hs in H; discriminate).
  repeat split; intros; try reflexivity; try contradiction; discriminate.
Qed.

Lemma death_cause_priority_witness :
  fst (PRNG.random zeroDraw)
  < pDie (hazardPerYear sampleDisturbance mortalityEnabled stormyDay
            (treeWith true 10 0 50)) (1 / 60)
  /\ windthrowHazard sampleDisturbance stormyDay (treeWith true 10 0 50)
     < diseaseHazard mortalityEnabled stormyDay (treeWith true 10 0 50)
  /\ deathCause
       (fst (applyMortalityModel sampleDisturbance (1 / 60) stormyDay
               (treeWith true 10 0 50) zeroDraw))
     = Some "Windthrow"%string.
Proof.
  destruct hazard_on_stormyDay as [Hw [Hd Hh]].
  assert (Htest : fst (PRNG.random zeroDraw)
                  < pDie (hazardPerYear sampleDisturbance mortalityEnabled
                            stormyDay (treeWith true 10 0 50)) (1 / 60)).
  { rewrite random_zeroDraw, Hh. apply pDie_positive; lra. }
  split; [exact Htest|]. split; [rewrite Hw, Hd; lra|].
  refine (proj1 (proj2
            (death_cause_priority sampleDisturbance (1 / 60) stormyDay
               (treeWith true 10 0 50) zeroDraw mortalityEnabled
               _ _ _ _ _ Htest)) _).
  - cbn [health vitality treeWith]. lra.
  - reflexivity.
  - reflexivity.
  - intros maxAge E. injection E as <-.
    cbn [age temporal treeWith]. unfold CONFIG.TREE_MAX_AGE. lra.
  - lra.
  - split; [reflexivity|].
    cbn [CONFIG.WINDTHROW_WIND_THRESHOLD sampleDisturbance windSpeed
         stormyDay]. lra.
Defined.

(** ** Death at the maximum age (C2) *)

Lemma applyMortalityModel_old_age (cfg : CONFIG.Disturbance) (dt : R)
    (e : Environment) (t : Tree) (p : PRNG.prngState) (m : Mortality.t)
    (maxAge : R) :
  0 < health (vitality t) ->
  mortality t = Some m ->
  Mortality.enabled m = true ->
  Mortality.maxAge m = Some maxAge ->
  maxAge <= age (temporal t) ->
  applyMortalityModel cfg dt e t p
  = (set_deathCause (Some "Old age"%string) (set_health 0 t), p).
Proof.
  intros Hlive Hm Hen Hmax Hage. unfold applyMortalityModel.
  destruct (health (vitality t) <=? 0) eqn:E1;
    [apply leb_true in E1; lra|].
  rewrite Hm, Hen, Hmax. cbn [negb].
  destruct (age (temporal t) >=? maxAge) eqn:E2;
    [reflexivity | apply geb_false in E2; lra].
Qed.

Lemma applyMortalityModel_disabled (cfg : CONFIG.Disturbance) (dt : R)
    (e : Environment) (t : Tree) (p : PRNG.prngState) :
  match mortality t with
  | Some m => Mortality.enabled m = false
  | None => True
  end ->
  applyMortalityModel cfg dt e t p = (t, p).
Proof.
  intros H. unfold applyMortalityModel.
  destruct (health (vitality t) <=? 0); [reflexivity|].
  destruct (mortality t) as [m|]; [|reflexivity].
  rewrite H. reflexivity.
Qed.

(** The noise of a substep is bounded: the Box-Muller value is at most 8
    in absolute value on a generator state, so [randomGaussian(0, 0.3)] is
    at most 2.4. *)
Lemma ln_nonpositive (x : R) : x <= 0 -> ln x = 0.
Proof.
  intros H. unfold ln. destruct (Rlt_dec 0 x); [exfalso; lra | reflexivity].
Qed.

Lemma ln_2_le_1 : ln 2 <= 1.
Proof.
  rewrite <- (ln_exp 1). left. apply ln_increasing; [lra|].
  pose proof (exp_ineq1 1 ltac:(lra)). lra.
Qed.

Lemma ln_of_draw (s : Z) :
  (0 <= s < 4294967296)%Z -> -32 <= ln (IZR s / 4294967296) <= 0.
Proof.
  intros [Hlo Hhi].
  destruct (Z.eq_dec s 0) as [-> | Hne].
  { rewrite ln_nonpositive by lra. lra. }
  assert (H1 : (1 <= s)%Z) by lia. apply IZR_le in H1. apply IZR_lt in Hhi.
  assert (Hinv : 0 < / 4294967296) by (apply Rinv_0_lt_compat; lra).
  split.
  - apply Rle_trans with (ln (/ 4294967296)).
    + rewrite ln_Rinv by lra.
      replace 4294967296 with (2 ^ 32) by (simpl; lra).
      rewrite ln_pow by lra. pose proof ln_2_le_1.
      replace (INR 32) with 32 by (simpl; lra). lra.
    + destruct (Req_dec (IZR s) 1) as [E|E].
      * rewrite E. unfold Rdiv. rewrite Rmult_1_l. lra.
      * left. apply ln_increasing; [exact Hinv|].
        unfold Rdiv. rewrite <- (Rmult_1_l (/ 4294967296)) at 1.
        apply Rmult_lt_compat_r; [exact Hinv | lra].
  - rewrite <- ln_1. left. apply ln_increasing.
    + unfold Rdiv. apply Rmult_lt_0_compat; [lra | exact Hinv].
    + apply Rmult_lt_reg_r with 4294967296; [lra|].
      unfold Rdiv. rewrite Rmult_assoc, Rinv_l by lra. lra.
Qed.

Lemma randomGaussian_bound (p : PRNG.prngState) :
  PRNG.valid p -> -2.4 <= fst (PRNG.randomGaussian 0 0.3 p) <= 2.4.
Proof.
  intros Hp.
  destruct (lcg_range _ Hp) as [Hs _].
  unfold PRNG.randomGaussian, PRNG.randomNormal, PRNG.bind, PRNG.ret,
    PRNG.random. cbn [fst snd PRNG.state PRNG.seed].
  pose proof (ln_of_draw _ Hs) as Hln.
  set (u1 := IZR (PRNG.lcg (PRNG.state p)) / 4294967296) in *.
  match goal with |- context [cos ?a] => pose proof (COS_bound a) as Hc;
    set (c := cos a) in * end.
  assert (Hsq : 0 <= sqrt (-2 * ln u1) <= 8).
  { split; [apply sqrt_pos|].
    rewrite <- (sqrt_square 8) by lra.
    apply sqrt_le_1_alt. lra. }
  set (q := sqrt (-2 * ln u1)) in *.
  assert (-8 <= q * c <= 8) by nra.
  lra.
Qed.

Lemma netGrowthFactor_nonnegative (d : bool) (e : Environment) (t : Tree) :
  0 <= netGrowthFactor d e t.
Proof.
  unfold netGrowthFactor. destruct d; [lra|].
  unfold JS.Math_max. apply Rmax_l.
Qed.

(** The health that a substep leaves to a tree that lives through it. *)
Lemma health_after_healthDynamics (dt n : R) (e : Environment) (t : Tree) :
  health (vitality
            (updateFoliage dt e
               (diseaseProgression dt e
                  (stressAccumulation dt e (vigorDynamics n t)))))
  = health (vitality t).
Proof. reflexivity. Qed.

Lemma health_core (t t' : Tree) :
  core t' = core t -> health (vitality t') = health (vitality t).
Proof.
  unfold core. intros E. injection E as Ev _ _ _ _ _ _. rewrite Ev.
  reflexivity.
Qed.

Lemma health_updateBiomass (dt n : R) (e : Environment) (t : Tree) :
  health (vitality (updateBiomass dt n e t)) = health (vitality t).
Proof. unfold updateBiomass. split_if; reflexivity. Qed.

Lemma health_waterDynamics (dt c : R) (e : Environment) (t : Tree) :
  health (vitality (set_chlorophyllContent c (waterDynamics dt e t)))
  = health (vitality t).
Proof. reflexivity. Qed.

Lemma metabolism_health (dt noise : R) (e : Environment) (t : Tree) :
  health (vitality (metabolism dt noise e t))
  = health (vitality
              (healthDynamics dt (netGrowthFactor (isDormant e t) e t) noise e
                 (set_dormant (isDormant e t) t))).
Proof.
  unfold metabolism. cbv zeta.
  set (d := isDormant e t). set (n := netGrowthFactor d e t).
  set (t0 := healthDynamics dt n noise e (set_dormant d t)).
  clearbody t0 n d.
  rewrite health_waterDynamics.
  rewrite (health_core _ _ (core_gasExchange _ _ _ _)).
  rewrite health_updateBiomass.
  destruct (grows d n _).
  - rewrite (health_core _ _ (core_physicalGrowth _ _ _ _)).
    apply health_after_healthDynamics.
  - apply health_after_healthDynamics.
Qed.

(** C2, as amended.  For a living tree with the mortality model enabled
    and an age that has reached a finite [maxAge], one substep sets
    [health] to 0 and records the cause 'Old age'; the result does not
    depend on the generator, whose state the substep leaves as it is (no
    sample is drawn). *)
Theorem old_age_forces_death (cfg : CONFIG.Disturbance) (dt : R)
    (g : Global) (m : Mortality.t) (maxAge : R) :
  0 < health (vitality (tree g)) ->
  mortality (tree g) = Some m ->
  Mortality.enabled m = true ->
  Mortality.maxAge m = Some maxAge ->
  maxAge <= age (temporal (tree g)) ->
  let g' := updateBiology cfg dt g in
  health (vitality (tree g')) = 0
  /\ deathCause (tree g') = Some "Old age"%string
  /\ prngState g' = prngState g
  /\ tree g'
     = updateLeafDrops dt (windSpeed (environment g))
         (set_deathCause (Some "Old age"%string) (set_health 0 (tree g))).
Proof.
  intros Hlive Hm Hen Hmax Hage g'. subst g'. unfold updateBiology.
  destruct (health (vitality (tree g)) <=? 0) eqn:E1;
    [apply leb_true in E1; lra|].
  rewrite (applyMortalityModel_old_age cfg dt _ (tree g) (prngState g) m
             maxAge) by assumption.
  cbn [fst snd].
  replace (health (vitality
             (set_deathCause (Some "Old age"%string) (set_health 0 (tree g)))))
    with 0 by reflexivity.
  destruct (0 <=? 0) eqn:E2; [|apply leb_false in E2; lra].
  repeat split.
Qed.

Lemma old_age_forces_death_witness :
  deathCause
    (tree (updateBiology sampleDisturbance (1 / 60)
             {| tree := treeWith true 600 0.25 100;
                environment := environmentOnDay 0;
                prngState := zeroDraw;
                simulationState := simulationState0;
                healthHistory := [] |}))
  = Some "Old age"%string.
Proof.
  refine (proj1 (proj2
            (old_age_forces_death sampleDisturbance (1 / 60)
               {| tree := treeWith true 600 0.25 100;
                  environment := environmentOnDay 0;
                  prngState := zeroDraw;
                  simulationState := simulationState0;
                  healthHistory := [] |}
               mortalityEnabled 600 _ _ _ _ _))).
  - cbn [tree health vitality treeWith]. lra.
  - reflexivity.
  - reflexivity.
  - reflexivity.
  - cbn [tree age temporal treeWith]. lra.
Defined.

Lemma deathCause_core (t t' : Tree) :
  core t' = core t -> deathCause t' = deathCause t.
Proof. unfold core. intros E. injection E as _ _ _ Ed _ _ _. exact Ed. Qed.

Lemma deathCause_updateBiomass (dt n : R) (e : Environment) (t : Tree) :
  deathCause (updateBiomass dt n e t) = deathCause t.
Proof. unfold updateBiomass. split_if; reflexivity. Qed.

Lemma deathCause_before_foliage (dt n noise : R) (d : bool) (e : Environment)
    (t : Tree) :
  deathCause
    (updateFoliage dt e
       (diseaseProgression dt e
          (stressAccumulation dt e
             (vigorDynamics n (healthDynamics dt n noise e (set_dormant d t))))))
  = deathCause t.
Proof. reflexivity. Qed.

Lemma deathCause_waterDynamics (dt c : R) (e : Environment) (t : Tree) :
  deathCause (set_chlorophyllContent c (waterDynamics dt e t)) = deathCause t.
Proof. reflexivity. Qed.

(** Only the mortality model records a cause of death. *)
Lemma metabolism_deathCause (dt noise : R) (e : Environment) (t : Tree) :
  deathCause (metabolism dt noise e t) = deathCause t.
Proof.
  unfold metabolism. cbv zeta.
  set (d := isDormant e t). set (n := netGrowthFactor d e t).
  clearbody n d.
  rewrite deathCause_waterDynamics.
  rewrite (deathCause_core _ _ (core_gasExchange _ _ _ _)).
  rewrite deathCause_updateBiomass.
  destruct (grows d n _).
  - rewrite (deathCause_core _ _ (core_physicalGrowth _ _ _ _)).
    apply deathCause_before_foliage.
  - apply deathCause_before_foliage.
Qed.

Lemma health_of_healthDynamics (dt n noise : R) (e : Environment) (t : Tree) :
  health (vitality (healthDynamics dt n noise e t))
  = clamp
      (health (vitality t)
       + ((n * 10
           + (photoRate e * 0.5 + (100 - stressLevel (vitality t)) * 0.1)
             * 0.5
           - calculateTotalStress e * 20) * dt
          + noise * dt))
      0 100.
Proof. reflexivity. Qed.

Lemma calculateTotalStress_at_most_100 (e : Environment) :
  calculateTotalStress e <= 100.
Proof. unfold calculateTotalStress. cbv zeta. apply Rmin_l. Qed.

(** C2 as stated fails when the mortality model is disabled, as the
    declaration of [tree] has it: a tree that has reached the maximum age
    of 600 years lives through the substep, and no cause of death is
    recorded. *)
Lemma old_age_without_mortality_model :
  match mortality (tree oldTreeGlobal) with
  | Some m => Mortality.maxAge m = Some 600
  | None => False
  end
  /\ 600 <= age (temporal (tree oldTreeGlobal))
  /\ deathCause (tree (updateBiology sampleDisturbance (1 / 60) oldTreeGlobal))
     = None
  /\ 0 < health
           (vitality
              (tree (updateBiology sampleDisturbance (1 / 60) oldTreeGlobal))).
Proof.
  split; [reflexivity|].
  split; [cbn [tree oldTreeGlobal treeWith age temporal]; lra|].
  set (g := oldTreeGlobal).
  set (e0 := updateEnvironmentTime (1 / 60) (environment g)).
  assert (Hm : applyMortalityModel sampleDisturbance (1 / 60) e0 (tree g)
                 (prngState g) = (tree g, prngState g))
    by (apply applyMortalityModel_disabled; reflexivity).
  assert (Hh : health (vitality (tree g)) = 100) by reflexivity.
  destruct (updateBiology_cases sampleDisturbance (1 / 60) g)
    as [[Hdead _] | [[_ [Hkilled _]] | [_ [_ E]]]].
  { rewrite Hh in Hdead. lra. }
  { fold e0 in Hkilled. rewrite Hm in Hkilled. cbn [fst] in Hkilled.
    rewrite Hh in Hkilled. lra. }
  fold e0 in E. rewrite Hm in E. cbn [fst snd] in E.
  split.
  - rewrite (deathCause_core _ _ E), metabolism_deathCause. reflexivity.
  - rewrite (health_core _ _ E), metabolism_health, health_of_healthDynamics.
    set (e := recordStress (calculateTotalStress e0) e0).
    pose proof (randomGaussian_bound (prngState g)
                  ltac:(unfold PRNG.valid; cbn; lia)) as Hnoise.
    set (noise := fst (PRNG.randomGaussian 0 0.3 (prngState g))) in *.
    pose proof (netGrowthFactor_nonnegative (isDormant e (tree g)) e (tree g))
      as Hn.
    set (n := netGrowthFactor (isDormant e (tree g)) e (tree g)) in *.
    pose proof (calculateTotalStress_at_most_100 e) as Hs.
    set (stress := calculateTotalStress e) in *.
    assert (Hp : photoRate e = 0.49).
    { unfold photoRate, calculatePhotosynthesis.
      cbn [sunlight water soilQuality e recordStress e0
           updateEnvironmentTime environment g oldTreeGlobal
           environmentOnDay].
      evaluate. }
    rewrite Hp.
    replace (health (vitality (set_dormant (isDormant e (tree g)) (tree g))))
      with 100 by reflexivity.
    replace (stressLevel
               (vitality (set_dormant (isDormant e (tree g)) (tree g))))
      with 0 by reflexivity.
    clearbody n stress noise.
    unfold clamp, JS.Math_min, JS.Math_max, Rmin, Rmax.
    repeat match goal with
    | |- context [Rle_dec ?a ?b] => destruct (Rle_dec a b)
    end; lra.
Qed.

(** ** The fixed-timestep scheduler (C7) *)

Section Scheduler.

(** The update of a substep leaves [simulationState] as it is. *)
Variable step : Global -> Global.
Hypothesis step_clock : forall g : Global,
  simulationState (step g) = simulationState g.




End Scheduler.









(** ** Reproducible runs (C5) *)















(** * Further properties of the code *)

(** ** clamp and lerp (js/prng.js) *)

(** X1.  [clamp] for any bounds: the result never exceeds [max]; clamping
    twice is clamping once; the result grows with the value; with
    [min <= max] the result is at least [min]; and with the bounds
    inverted ([max < min]) the result is [max] for every value. *)
Theorem clamp_any_bounds (v lo hi : R) :
  clamp v lo hi <= hi
  /\ clamp (clamp v lo hi) lo hi = clamp v lo hi
  /\ (forall w : R, v <= w -> clamp v lo hi <= clamp w lo hi)
  /\ (lo <= hi -> lo <= clamp v lo hi)
  /\ (hi < lo -> clamp v lo hi = hi).
Proof.
  unfold clamp, JS.Math_min, JS.Math_max, Rmin, Rmax.
  repeat split; intros;
    repeat match goal with
    | |- context [Rle_dec ?a ?b] => no_test a; no_test b; destruct (Rle_dec a b)
    end; lra.
Qed.


(** ** The generator: ranges, states and seeds (js/prng.js) *)

Lemma scaled_draw_range (r lo hi : R) :
  0 <= r < 1 -> lo <= hi ->
  lo <= r * (hi - lo) + lo <= hi /\ (lo < hi -> r * (hi - lo) + lo < hi).
Proof. intros Hr Hle. split; [split|intros Hlt]; nra. Qed.

(** X3.  On a generator state in [0, 2^32), [random(min, max)] and
    [randomFloat(min, max)] with [min <= max] return a value of
    [min, max], below [max] when [min < max]; [random(max)] with
    [0 <= max] returns a value of [0, max]; each call takes one step of the
    generator and leaves its state in [0, 2^32). *)
Theorem random_overloads_range (p : PRNG.prngState) (lo hi : R) :
  PRNG.valid p -> lo <= hi ->
  (lo <= fst (PRNG.random2 lo hi p) <= hi
   /\ (lo < hi -> fst (PRNG.random2 lo hi p) < hi))
  /\ fst (PRNG.randomFloat lo hi p) = fst (PRNG.random2 lo hi p)
  /\ (0 <= hi -> 0 <= fst (PRNG.random1 hi p) <= hi)
  /\ snd (PRNG.random2 lo hi p) = snd (PRNG.random p)
  /\ snd (PRNG.random1 hi p) = snd (PRNG.random p)
  /\ PRNG.valid (snd (PRNG.random2 lo hi p)).
Proof.
  intros Hp Hle. destruct (random_range p Hp) as [Hr Hv].
  unfold PRNG.random2, PRNG.randomFloat, PRNG.random1, PRNG.bind, PRNG.ret.
  destruct (PRNG.random p) as [r p']. cbn [fst snd] in *.
  split; [apply scaled_draw_range; assumption|].
  split; [reflexivity|].
  split; [intros H0; split; nra|].
  split; [reflexivity|]. split; [reflexivity|]. exact Hv.
Qed.

Lemma random_overloads_range_witness :
  2 <= fst (PRNG.random2 2 5 zeroDraw) <= 5.
Proof.
  refine (proj1 (proj1 (random_overloads_range zeroDraw 2 5 _ _)));
    [unfold PRNG.valid, zeroDraw; cbn; lia | lra].
Defined.

Lemma lcg_mod (s : Z) :
  (0 <= s)%Z ->
  PRNG.lcg s = ((s * 1664525 + 1013904223) mod 4294967296)%Z.
Proof.
  intros Hs. unfold PRNG.lcg, JS.rem. apply Z.rem_mod_nonneg; lia.
Qed.

Lemma lcg_injective (s1 s2 : Z) :
  (0 <= s1 < 4294967296)%Z -> (0 <= s2 < 4294967296)%Z ->
  PRNG.lcg s1 = PRNG.lcg s2 -> s1 = s2.
Proof.
  intros H1 H2 E. rewrite !lcg_mod in E by lia.
  assert (D : (4294967296 | 1664525 * (s1 - s2))%Z).
  { apply Z.mod_divide; [lia|].
    replace (1664525 * (s1 - s2))%Z
      with ((s1 * 1664525 + 1013904223) - (s2 * 1664525 + 1013904223))%Z
      by ring.
    rewrite Zminus_mod, E, Z.sub_diag. reflexivity. }
  apply Z.gauss in D; [|reflexivity].
  destruct D as [k Hk]. nia.
Qed.

(** X4.  The step of the generator never merges two states: two generator
    states in [0, 2^32) that make [random()] return the same number are the
    same state.  (So the generator never shortens its cycle by falling
    into a repeated state that it did not start from.) *)
Theorem random_separates_states (p q : PRNG.prngState) :
  PRNG.valid p -> PRNG.valid q ->
  fst (PRNG.random p) = fst (PRNG.random q) ->
  PRNG.state p = PRNG.state q.
Proof.
  unfold PRNG.valid. intros Hp Hq E.
  unfold PRNG.random in E. cbn [fst PRNG.state] in E.
  apply lcg_injective; [exact Hp | exact Hq |].
  apply eq_IZR. lra.
Qed.

Lemma random_separates_states_witness :
  PRNG.state zeroDraw = PRNG.state zeroDraw.
Proof.
  apply (random_separates_states zeroDraw zeroDraw);
    [unfold PRNG.valid, zeroDraw; cbn; lia
    | unfold PRNG.valid, zeroDraw; cbn; lia
    | reflexivity].
Defined.

(** X5.  [startSimulation] passes the number typed in the seed box to
    [initPRNG] as it is.  For a negative seed from -610 down (to -2^32,
    where the arithmetic is still exact) the first [random()] of the run is
    never positive: it is in (-1, 0], not in the [0, 1) of a valid
    state. *)
Theorem negative_seed_first_draw (v : Z) (p0 : PRNG.prngState) :
  (-4294967296 < v <= -610)%Z ->
  let p := PRNG.initPRNG (startSeed (Some (Some v))) p0 in
  -1 < fst (PRNG.random p) <= 0
  /\ (- 2 ^ 53 < PRNG.state p * 1664525 + 1013904223 < 0)%Z.
Proof.
  intros Hv p. subst p. unfold startSeed.
  replace (Z.eqb v 0) with false by (symmetry; apply Z.eqb_neq; lia).
  unfold PRNG.initPRNG, PRNG.random, PRNG.lcg, JS.rem.
  cbn [fst PRNG.state].
  set (x := (v * 1664525 + 1013904223)%Z).
  assert (Hx : (x < 0)%Z) by (subst x; lia).
  assert (Hb : (- 4294967296 < Z.rem x 4294967296 <= 0)%Z).
  { pose proof (Z.rem_nonpos x 4294967296 ltac:(lia) ltac:(lia)) as H.
    pose proof (Z.rem_bound_abs x 4294967296 ltac:(lia)) as H'. lia. }
  split; [|subst x; lia].
  destruct Hb as [Hlo Hhi]. apply IZR_lt in Hlo. apply IZR_le in Hhi.
  split.
  - apply Rmult_lt_reg_r with 4294967296; [lra|].
    unfold Rdiv. rewrite Rmult_assoc, Rinv_l by lra. lra.
  - apply Rmult_le_reg_r with 4294967296; [lra|].
    unfold Rdiv. rewrite Rmult_assoc, Rinv_l by lra. lra.
Qed.

Lemma negative_seed_first_draw_witness :
  -1 < fst (PRNG.random
              (PRNG.initPRNG (startSeed (Some (Some (-1000)%Z)))
                 zeroDraw)) <= 0.
Proof.
  refine (proj1 (negative_seed_first_draw (-1000) zeroDraw _)). lia.
Defined.

(** X6.  [applySeed] normalises the seed: whatever is typed in the seed
    box (nothing, text that is no number, 0, a negative number) and
    whatever the clock says, the seed passed to [initPRNG] is in
    [0, 2147483647), so the generator state is valid and every later
    [random()] is in [0, 1). *)
Theorem applied_seed_is_valid (seedInput : SeedInput) (now : Z)
    (p0 : PRNG.prngState) (n : nat) :
  let p := PRNG.initPRNG (appliedSeed seedInput now) p0 in
  (0 <= PRNG.seed p < 2147483647)%Z
  /\ PRNG.valid p
  /\ Forall (fun r => 0 <= r < 1) (fst (PRNG.draws n p))
  /\ PRNG.valid (snd (PRNG.draws n p)).
Proof.
  intros p.
  assert (H : (0 <= appliedSeed seedInput now < 2147483647)%Z).
  { unfold appliedSeed, JS.rem. apply Z.rem_bound_pos; lia. }
  assert (Hv : PRNG.valid p).
  { unfold PRNG.valid, p, PRNG.initPRNG. cbn [PRNG.state]. lia. }
  split; [exact H|]. split; [exact Hv|]. apply draws_range. exact Hv.
Qed.

(** ** Noise (js/prng.js) *)

Lemma for_loop_invariant {S : Type} (P : nat -> S -> Prop) (n : nat)
    (body : nat -> S -> S) (s : S) :
  P O s ->
  (forall (i : nat) (s' : S),
      (i < n)%nat -> P i s' -> P (Datatypes.S i) (body i s')) ->
  P n (for_loop n body s).
Proof.
  intros H0 Hstep. unfold for_loop.
  assert (G : forall (m k : nat) (s' : S),
             (k + m <= n)%nat -> P k s' ->
             P (k + m)%nat (fold_left (fun s0 i => body i s0) (seq k m) s')).
  { induction m as [|m IH]; intros k s' Hk Hs; cbn [seq fold_left].
    - rewrite Nat.add_0_r. exact Hs.
    - replace (k + Datatypes.S m)%nat with (Datatypes.S k + m)%nat by lia.
      apply IH; [lia|]. apply Hstep; [lia | exact Hs]. }
  apply (G n O s); [lia | exact H0].
Qed.

Lemma perlin2D_range (x y : R) : -1 <= perlin2D x y < 1.
Proof.
  unfold perlin2D, JS.Math_floor. cbv zeta.
  pose proof (Zfloor_bound (sin (x * 12.9898 + y * 78.233) * 43758.5453)).
  lra.
Qed.

Lemma passes_positive (n : R) : 0 < n -> (1 <= JS.passes n)%nat.
Proof.
  intros Hn. unfold JS.passes.
  pose proof (Zceil_bound n) as [_ H].
  assert ((0 < Zceil n)%Z) by (apply lt_IZR; lra). lia.
Qed.

(** X7.  The noise is normalised: [perlin2D] returns a value of [-1, 1)
    at every point, and so does [fbm] for a positive number of octaves and
    a persistence that is not negative (the defaults included); with one
    octave [fbm] is [perlin2D]. *)
Theorem fbm_is_normalised (x y : R) (octaves persistence : option R) :
  0 < default_arg octaves 4 ->
  0 <= default_arg persistence 0.5 ->
  -1 <= fbm x y octaves persistence < 1
  /\ -1 <= perlin2D x y < 1
  /\ fbm x y (Some 1) persistence = perlin2D x y.
Proof.
  intros Ho Hp. split; [|split; [apply perlin2D_range|]].
  - unfold fbm. cbv zeta.
    set (body := fun (_ : nat) (s : Fbm.t) => _).
    set (s0 := {| Fbm.total := 0 |}).
    pose proof (passes_positive _ Ho) as Hn.
    destruct (for_loop_invariant
                (fun k s =>
                   0 <= Fbm.amplitude s
                   /\ (k = O ->
                       Fbm.amplitude s = 1 /\ Fbm.total s = 0
                       /\ Fbm.maxValue s = 0)
                   /\ ((1 <= k)%nat ->
                       1 <= Fbm.maxValue s
                       /\ - Fbm.maxValue s <= Fbm.total s < Fbm.maxValue s))
                (JS.passes (default_arg octaves 4)) body s0)
      as [_ [_ H]].
    { subst s0. cbn. split; [lra|]. split; [intros _; lra | lia]. }
    { intros i s _ [Ha [H0 H1]]. subst body.
      cbn [Fbm.total Fbm.amplitude Fbm.maxValue].
      pose proof (perlin2D_range (x * Fbm.frequency s) (y * Fbm.frequency s))
        as Hn'.
      split; [nra|]. split; [lia|]. intros _.
      destruct i as [|i].
      - destruct (H0 eq_refl) as [Ea [Et Em]]. rewrite Ea, Et, Em. lra.
      - destruct (H1 ltac:(lia)) as [Hm Ht]. nra. }
    destruct (H Hn) as [Hm Ht].
    set (T := Fbm.total _) in *. set (M := Fbm.maxValue _) in *.
    clearbody T M.
    split.
    + apply Rmult_le_reg_r with M; [lra|].
      unfold Rdiv. rewrite Rmult_assoc, Rinv_l by lra. lra.
    + apply Rmult_lt_reg_r with M; [lra|].
      unfold Rdiv. rewrite Rmult_assoc, Rinv_l by lra. lra.
  - unfold fbm, default_arg. cbv zeta.
    replace (JS.passes 1) with 1%nat.
    + unfold for_loop. cbn [seq fold_left Fbm.total Fbm.maxValue
        Fbm.frequency Fbm.amplitude].
      rewrite !Rmult_1_r. field.
    + unfold JS.passes. rewrite (Zceil_eq 1); [reflexivity | lra].
Qed.

Lemma fbm_is_normalised_witness : -1 <= fbm 3 7 None None < 1.
Proof.
  refine (proj1 (fbm_is_normalised 3 7 None None _ _));
    unfold default_arg; lra.
Defined.

(** ** The calendar and the seasons (js/environment.js) *)

Lemma frac_range (d : R) : 0 <= d -> 0 <= JS.frac d < 1.
Proof.
  intros Hd. unfold JS.frac.
  destruct (d <? 0) eqn:E; [apply ltb_true in E; lra|].
  pose proof (Zfloor_bound d). lra.
Qed.

(** X8.  [updateEnvironmentTime] keeps the calendar: from a day of year in
    [0, 365) and a step of at most a year, the day stays in [0, 365), the
    year grows by at most one, no time is lost (365 * year + dayOfYear
    grows by [dt]), the hour is in [0, 24) and the season is the one of
    the new day. *)
Theorem updateEnvironmentTime_keeps_calendar (dt : R) (e : Environment) :
  0 <= dayOfYear e < 365 -> 0 <= dt <= 365 ->
  let e' := updateEnvironmentTime dt e in
  0 <= dayOfYear e' < 365
  /\ IZR (year e') * 365 + dayOfYear e'
     = IZR (year e) * 365 + dayOfYear e + dt
  /\ (year e' = year e \/ year e' = (year e + 1)%Z)
  /\ 0 <= hour e' < 24
  /\ season e' = SeasonObject (seasonOfDay (dayOfYear e')).
Proof.
  intros Hd Hdt e'. subst e'. unfold updateEnvironmentTime. cbv zeta.
  cbn [dayOfYear year hour season].
  destruct (dayOfYear e + dt >=? 365) eqn:E;
    [apply geb_true in E | apply geb_false in E].
  - assert (H : 0 <= dayOfYear e + dt - 365 < 365) by lra.
    pose proof (frac_range _ (proj1 H)).
    rewrite plus_IZR. repeat split; try lra. right; reflexivity.
  - assert (H : 0 <= dayOfYear e + dt < 365) by lra.
    pose proof (frac_range _ (proj1 H)).
    repeat split; try lra. left; reflexivity.
Qed.

Lemma updateEnvironmentTime_keeps_calendar_witness :
  0 <= dayOfYear (updateEnvironmentTime 1 (environmentOnDay 364.5)) < 365.
Proof.
  refine (proj1 (updateEnvironmentTime_keeps_calendar 1
                   (environmentOnDay 364.5) _ _));
    cbn [dayOfYear environmentOnDay]; lra.
Defined.

(** X9.  [getSeasonalGrowthMultiplier] does not tell the seasons apart.
    The keys of its table are the season objects, which all become the
    key "[object Object]": the table keeps the last entry, and the
    multiplier of every season object is 0.05, the entry written for
    winter.  A season given as a string finds no entry and gets 0.5. *)
Theorem seasonal_multiplier_is_constant (s : Season) (k : string) :
  getSeasonalGrowthMultiplier (SeasonObject s) = 0.05
  /\ (k <> "[object Object]"%string ->
      getSeasonalGrowthMultiplier (SeasonString k) = 0.5).
Proof.
  split.
  - unfold getSeasonalGrowthMultiplier, propertyKey.
    cbn [literal_get String.eqb Ascii.eqb Bool.eqb].
    unfold JS.or_default, JS.eqb. destruct (Req_dec_T 0.05 0); [lra|].
    reflexivity.
  - intros Hk. unfold getSeasonalGrowthMultiplier, propertyKey.
    cbn [literal_get].
    replace (String.eqb "[object Object]" k) with false
      by (symmetry; apply String.eqb_neq; congruence).
    reflexivity.
Qed.

(** ** Stress and photosynthesis (js/simulation.js) *)

Lemma calculateTotalStress_terms (e : Environment) :
  calculateTotalStress e
  = Rmin 100
      ((if water e <? 40 then (40 - water e) / 40 * 30
        else if water e >? 85 then (water e - 85) / 15 * 20 else 0)
       + (if (temperature e <? 5) || (temperature e >? 35) then 20
          else if (temperature e <? 12) || (temperature e >? 28) then 10
          else 0)
       + (if sunlight e <? 30 then (30 - sunlight e) / 30 * 15 else 0)
       + (if disease e then 25 else 0) + (if pests e then 20 else 0)
       + (if storm e then 15 else 0) + (if pollution e then 10 else 0)).
Proof.
  unfold calculateTotalStress, JS.Math_min. cbv zeta. f_equal.
  destruct (water e <? 40), (water e >? 85),
    ((temperature e <? 5) || (temperature e >? 35)),
    ((temperature e <? 12) || (temperature e >? 28)),
    (sunlight e <? 30), (disease e), (pests e), (storm e), (pollution e);
    lra.
Qed.

(** X10.  The total stress is in [0, 100] in every environment; it is 0
    in a comfortable one (water in [40, 85], temperature in [12, 28],
    sunlight at least 30, no stressor), and at least 70 when the four
    stressors are active. *)
Theorem total_stress_range (e : Environment) :
  0 <= calculateTotalStress e <= 100
  /\ (40 <= water e <= 85 -> 12 <= temperature e <= 28 ->
      30 <= sunlight e ->
      disease e = false -> pests e = false -> storm e = false ->
      pollution e = false -> calculateTotalStress e = 0)
  /\ (disease e = true -> pests e = true -> storm e = true ->
      pollution e = true -> 70 <= calculateTotalStress e).
Proof.
  rewrite calculateTotalStress_terms.
  set (w := if water e <? 40 then _ else _).
  set (c := if (temperature e <? 5) || _ then _ else _).
  set (l := if sunlight e <? 30 then _ else _).
  assert (Hw : 0 <= w).
  { subst w. destruct (water e <? 40) eqn:E1;
      [apply ltb_true in E1; lra|].
    destruct (water e >? 85) eqn:E2; [apply gtb_true in E2; lra | lra]. }
  assert (Hc : 0 <= c) by (subst c; repeat split_if; lra).
  assert (Hl : 0 <= l).
  { subst l. destruct (sunlight e <? 30) eqn:E1;
      [apply ltb_true in E1; lra | lra]. }
  split; [|split].
  - unfold Rmin. destruct (Rle_dec _ _) as [H|H];
      destruct (disease e), (pests e), (storm e), (pollution e); lra.
  - intros Hwater Htemp Hsun -> -> -> ->.
    assert (w = 0).
    { subst w. rewrite (proj2 (ltb_false _ _)) by lra.
      rewrite (proj2 (gtb_false _ _)) by lra. reflexivity. }
    assert (c = 0).
    { subst c.
      rewrite (proj2 (ltb_false (temperature e) 5)) by lra.
      rewrite (proj2 (gtb_false (temperature e) 35)) by lra.
      rewrite (proj2 (ltb_false (temperature e) 12)) by lra.
      rewrite (proj2 (gtb_false (temperature e) 28)) by lra.
      reflexivity. }
    assert (l = 0)
      by (subst l; rewrite (proj2 (ltb_false _ _)) by lra; reflexivity).
    unfold Rmin. destruct (Rle_dec _ _); lra.
  - intros -> -> -> ->. unfold Rmin. destruct (Rle_dec _ _); lra.
Qed.

(** X11.  For sunlight and soil quality in [0, 100] and water that is not
    negative, the photosynthesis rate is in [0, 1]; it saturates in
    water: from 50 up, more water changes nothing. *)
Theorem photosynthesis_range (sunlight water soilQuality : R) :
  0 <= sunlight <= 100 -> 0 <= water -> 0 <= soilQuality <= 100 ->
  0 <= calculatePhotosynthesis sunlight water soilQuality <= 1
  /\ (50 <= water ->
      calculatePhotosynthesis sunlight water soilQuality
      = sunlight / 100 * (soilQuality / 100))
  /\ calculatePhotosynthesis sunlight 0 soilQuality = 0.
Proof.
  intros Hs Hw Hq. unfold calculatePhotosynthesis, JS.Math_min, Rmin.
  cbv zeta. split; [|split].
  - set (a := sunlight / 100). set (c := soilQuality / 100).
    assert (Ha : 0 <= a <= 1) by (subst a; lra).
    assert (Hc : 0 <= c <= 1) by (subst c; lra).
    assert (Hb : 0 <= (if Rle_dec 1 (water / 50) then 1 else water / 50)
                 <= 1)
      by (destruct (Rle_dec 1 (water / 50)); lra).
    set (b := if Rle_dec 1 (water / 50) then 1 else water / 50) in *.
    clearbody a b c.
    assert (Hab : 0 <= a * b <= 1) by nra.
    split; nra.
  - intros H50. destruct (Rle_dec 1 (water / 50)); lra.
  - destruct (Rle_dec 1 (0 / 50)); lra.
Qed.

Lemma photosynthesis_range_witness :
  0 <= calculatePhotosynthesis 70 60 70 <= 1.
Proof.
  refine (proj1 (photosynthesis_range 70 60 70 _ _ _)); lra.
Defined.

(** ** A dead tree (js/simulation.js, updateBiology) *)

Lemma updateLeafDrops_length (dt wind : R) (t : Tree) :
  (List.length (leafDrops (visual (updateLeafDrops dt wind t)))
   <= List.length (leafDrops (visual t)))%nat.
Proof.
  unfold updateLeafDrops. cbn [set_leafDrops with_visual visual leafDrops].
  induction (leafDrops (visual t)) as [|leaf rest IH]; cbn [fold_right];
    [apply Nat.le_refl|].
  split_if; cbn [List.length]; lia.
Qed.

Lemma withoutLeafDrops_updateLeafDrops (dt wind : R) (t : Tree) :
  withoutLeafDrops (updateLeafDrops dt wind t) = withoutLeafDrops t.
Proof. reflexivity. Qed.

Lemma substep_dead (cfg : CONFIG.Disturbance) (ui : UI.t) (g : Global) :
  health (vitality (tree g)) <= 0 ->
  substep cfg ui g
  = {| tree :=
         updateLeafDrops (substepTime (simulationState g))
           (windSpeed (updateEnvironmentFromUI ui (environment g))) (tree g);
       environment := updateEnvironmentFromUI ui (environment g);
       prngState := prngState g; simulationState := simulationState g;
       healthHistory := healthHistory g |}.
Proof.
  intros H. unfold substep, updateBiology.
  cbn [tree environment prngState simulationState healthHistory].
  rewrite (proj2 (leb_true _ _) H). reflexivity.
Qed.

(** X12.  Death is final.  Once [health] is 0 or less, no run of substeps
    changes the tree apart from its falling leaves, which move and
    disappear but are never added: health, age, size, biomass and cause of
    death stay as they are; the calendar of the environment stops; no
    random number is drawn and no health is recorded. *)
Theorem death_is_final (cfg : CONFIG.Disturbance) (uis : list UI.t)
    (g : Global) :
  health (vitality (tree g)) <= 0 ->
  let g' := run cfg uis g in
  withoutLeafDrops (tree g') = withoutLeafDrops (tree g)
  /\ (List.length (leafDrops (visual (tree g')))
      <= List.length (leafDrops (visual (tree g))))%nat
  /\ year (environment g') = year (environment g)
  /\ dayOfYear (environment g') = dayOfYear (environment g)
  /\ prngState g' = prngState g
  /\ healthHistory g' = healthHistory g.
Proof.
  revert g. induction uis as [|ui uis IH]; intros g Hdead; cbv zeta.
  - cbn [run fold_left]. repeat split. apply Nat.le_refl.
  - pose proof (substep_dead cfg ui g Hdead) as E.
    change (run cfg (ui :: uis) g) with (run cfg uis (substep cfg ui g)).
    set (g1 := substep cfg ui g) in *.
    assert (Hdead1 : health (vitality (tree g1)) <= 0)
      by (rewrite E; exact Hdead).
    destruct (IH g1 Hdead1) as (Ht & Hl & Hy & Hd & Hp & Hh).
    rewrite Ht, Hy, Hd, Hp, Hh.
    split; [rewrite E; reflexivity|].
    split; [|rewrite E; repeat split].
    etransitivity; [exact Hl|]. rewrite E. cbn [tree].
    apply updateLeafDrops_length.
Qed.

Lemma death_is_final_witness :
  prngState
    (run sampleDisturbance [noControls; noControls]
       {| tree := treeWith true 600 0.25 0;
          environment := environmentOnDay 0;
          prngState := zeroDraw;
          simulationState := simulationState0;
          healthHistory := [] |})
  = zeroDraw.
Proof.
  refine (proj1 (proj2 (proj2 (proj2 (proj2
            (death_is_final sampleDisturbance [noControls; noControls]
               {| tree := treeWith true 600 0.25 0;
                  environment := environmentOnDay 0;
                  prngState := zeroDraw;
                  simulationState := simulationState0;
                  healthHistory := [] |} _)))))).
  cbn [tree treeWith vitality health]. lra.
Defined.

(** ** What a substep does to the tree, visual structures apart *)

Lemma inner_updateLeafDrops (dt wind : R) (t : Tree) :
  inner (updateLeafDrops dt wind t) = inner t.
Proof. reflexivity. Qed.

Lemma inner_createFallingLeaf (x y : R) (s : SeasonRef) (t : Tree)
    (p : PRNG.prngState) :
  inner (fst (createFallingLeaf x y s t p)) = inner t.
Proof.
  unfold createFallingLeaf. split_if; [reflexivity|].
  run_draws. reflexivity.
Qed.

Lemma inner_handleLeafDrop (dt : R) (e : Environment) (t : Tree)
    (p : PRNG.prngState) :
  inner (fst (handleLeafDrop dt e t p)) = inner t.
Proof.
  unfold handleLeafDrop, PRNG.bind. destruct (PRNG.random p) as [r p1].
  split_if; [|reflexivity].
  run_draws. apply inner_createFallingLeaf.
Qed.

Lemma inner_generateBranchArchitecture (t : Tree) (p : PRNG.prngState) :
  inner (fst (generateBranchArchitecture t p)) = inner t.
Proof.
  unfold generateBranchArchitecture, PRNG.bind, PRNG.ret.
  destruct (createBranch _ _ _ _ _ _ _ _ p). reflexivity.
Qed.

Lemma inner_generateLeafClusters (t : Tree) (p : PRNG.prngState) :
  inner (fst (generateLeafClusters t p)) = inner t.
Proof.
  unfold generateLeafClusters, PRNG.bind at 1, PRNG.ret at 1.
  destruct (for_rand _ _ _ p). reflexivity.
Qed.

Lemma inner_generateRootMesh (t : Tree) (p : PRNG.prngState) :
  inner (fst (generateRootMesh t p)) = inner t.
Proof.
  unfold generateRootMesh, PRNG.bind at 1.
  destruct (PRNG.random2 0.9 1.1 p) as [d p1].
  unfold PRNG.bind at 1, PRNG.ret at 1.
  destruct (for_rand _ _ _ p1). reflexivity.
Qed.

(** The block AGE & ANNUAL CYCLES, the regenerated structures apart: the
    tree ages by [dt]; when the year of [daysSinceBirth + dt] is past the
    year of [daysSinceBirth - dt], a ring is added and the growth of the
    year restarts. *)
Lemma annualCycle_inner (dt : R) (t : Tree) (p : PRNG.prngState) :
  let aged :=
    set_daysSinceBirth (daysSinceBirth (temporal t) + dt)
      (set_age (age (temporal t) + dt / CONFIG.DAYS_PER_YEAR) t) in
  inner (fst (annualCycle dt t p))
  = inner
      (if (Zfloor ((daysSinceBirth (temporal t) - dt) / CONFIG.DAYS_PER_YEAR)
           <? Zfloor ((daysSinceBirth (temporal t) + dt)
                      / CONFIG.DAYS_PER_YEAR))%Z
       then set_growthThisYear 0
              (set_ringsGrown (ringsGrown (annual t) + 1)%Z aged)
       else aged).
Proof.
  unfold annualCycle. cbv zeta.
  cbn [set_age set_daysSinceBirth with_temporal temporal daysSinceBirth age].
  split_if; [|reflexivity].
  split_if; [|reflexivity].
  unfold PRNG.bind.
  match goal with
  | |- context [generateBranchArchitecture ?u p] =>
      pose proof (inner_generateBranchArchitecture u p) as H1;
      destruct (generateBranchArchitecture u p) as [t1 p1]
  end.
  pose proof (inner_generateLeafClusters t1 p1) as H2.
  destruct (generateLeafClusters t1 p1) as [t2 p2].
  pose proof (inner_generateRootMesh t2 p2) as H3.
  cbn [fst] in *. rewrite H3, H2, H1. reflexivity.
Qed.

Lemma physiology_inner (dt : R) (e : Environment) (t : Tree)
    (p : PRNG.prngState) :
  inner (snd (fst (physiology dt e t p)))
  = inner (fst (annualCycle dt
                  (metabolism dt (fst (PRNG.randomGaussian 0 0.3 p))
                     (recordStress (calculateTotalStress e) e) t)
                  (snd (PRNG.randomGaussian 0 0.3 p)))).
Proof.
  unfold physiology. cbv zeta. unfold PRNG.bind at 1.
  destruct (PRNG.randomGaussian 0 0.3 p) as [noise p1]. cbn [fst snd].
  unfold PRNG.bind, PRNG.ret.
  destruct (annualCycle dt _ p1) as [t1 p2].
  match goal with
  | |- context [handleLeafDrop dt ?e' t1 p2] =>
      pose proof (inner_handleLeafDrop dt e' t1 p2) as H2;
      destruct (handleLeafDrop dt e' t1 p2) as [t2 p3]
  end.
  cbn [fst snd] in *. rewrite inner_updateLeafDrops. exact H2.
Qed.

(** The three ways through [updateBiology], for the whole tree but its
    visual structures. *)
Lemma updateBiology_inner (cfg : CONFIG.Disturbance) (dt : R) (g : Global) :
  let e := updateEnvironmentTime dt (environment g) in
  let mortal := applyMortalityModel cfg dt e (tree g) (prngState g) in
  (health (vitality (tree g)) <= 0
   /\ inner (tree (updateBiology cfg dt g)) = inner (tree g))
  \/ (0 < health (vitality (tree g))
      /\ health (vitality (fst mortal)) <= 0
      /\ inner (tree (updateBiology cfg dt g)) = inner (fst mortal))
  \/ (0 < health (vitality (tree g))
      /\ 0 < health (vitality (fst mortal))
      /\ fst mortal = tree g
      /\ inner (tree (updateBiology cfg dt g))
         = inner (fst (annualCycle dt
                         (metabolism dt
                            (fst (PRNG.randomGaussian 0 0.3 (snd mortal)))
                            (recordStress (calculateTotalStress e) e)
                            (tree g))
                         (snd (PRNG.randomGaussian 0 0.3 (snd mortal)))))).
Proof.
  intros e mortal. unfold updateBiology. fold e. fold mortal.
  destruct (health (vitality (tree g)) <=? 0) eqn:Hdead.
  - left. apply leb_true in Hdead. split; [exact Hdead | reflexivity].
  - apply leb_false in Hdead. right.
    destruct (health (vitality (fst mortal)) <=? 0) eqn:Hkilled.
    + left. apply leb_true in Hkilled. repeat split; assumption.
    + right. apply leb_false in Hkilled.
      split; [exact Hdead|]. split; [exact Hkilled|].
      assert (E : fst mortal = tree g).
      { destruct (applyMortalityModel_cases cfg dt e (tree g) (prngState g))
          as [E | [c E]]; [exact E|].
        fold mortal in E. rewrite E in Hkilled.
        cbn [set_deathCause set_health with_vitality vitality health]
          in Hkilled. lra. }
      split; [exact E|]. cbn [tree]. rewrite physiology_inner, E.
      reflexivity.
Qed.

(** ** Fields that the metabolism leaves alone *)

Section TreeField.

(** A reading [f] of the tree that does not depend on its phenology,
    vitality, leaf system, biomass or carbon cycle. *)
Context {A : Type} (f : Tree -> A).
Hypothesis f_phenology : forall v t, f (with_phenology v t) = f t.
Hypothesis f_vitality : forall v t, f (with_vitality v t) = f t.
Hypothesis f_leafSystem : forall v t, f (with_leafSystem v t) = f t.
Hypothesis f_biomass : forall v t, f (set_biomass v t) = f t.
Hypothesis f_carbon : forall v t, f (with_carbon v t) = f t.

Lemma field_before_growth (dt n noise : R) (d : bool) (e : Environment)
    (t : Tree) :
  f (updateFoliage dt e
       (diseaseProgression dt e
          (stressAccumulation dt e
             (vigorDynamics n
                (healthDynamics dt n noise e (set_dormant d t))))))
  = f t.
Proof.
  unfold updateFoliage. cbv zeta.
  etransitivity; [apply f_leafSystem|].
  etransitivity; [apply f_leafSystem|].
  etransitivity; [apply f_leafSystem|].
  etransitivity; [apply f_leafSystem|].
  unfold diseaseProgression. etransitivity; [apply f_vitality|].
  unfold stressAccumulation. cbv zeta.
  etransitivity; [apply f_vitality|]. etransitivity; [apply f_vitality|].
  unfold vigorDynamics. cbv zeta.
  etransitivity; [apply f_vitality|]. etransitivity; [apply f_vitality|].
  unfold healthDynamics. cbv zeta.
  etransitivity; [apply f_vitality|]. etransitivity; [apply f_vitality|].
  apply f_phenology.
Qed.

Lemma field_after_growth (dt : R) (n : R) (d : bool) (e : Environment)
    (c : R) (t : Tree) :
  f (set_chlorophyllContent c
       (waterDynamics dt e (gasExchange dt d e (updateBiomass dt n e t))))
  = f t.
Proof.
  etransitivity; [apply f_leafSystem|].
  unfold waterDynamics. cbv zeta.
  etransitivity; [apply f_carbon|].
  etransitivity; [apply f_vitality|]. etransitivity; [apply f_vitality|].
  assert (Hb : f (updateBiomass dt n e t) = f t).
  { unfold updateBiomass. split_if; [reflexivity | apply f_biomass]. }
  unfold gasExchange. destruct (negb d); [|exact Hb].
  cbv zeta.
  etransitivity; [apply f_carbon|]. etransitivity; [apply f_carbon|].
  etransitivity; [apply f_carbon|]. exact Hb.
Qed.

(** The reading after the metabolism is the reading after the block
    PHYSICAL GROWTH, when this one runs, and the reading before
    otherwise. *)
Lemma field_metabolism (dt noise : R) (e : Environment) (t : Tree) :
  let d := isDormant e t in
  let n := netGrowthFactor d e t in
  let t1 :=
    updateFoliage dt e
      (diseaseProgression dt e
         (stressAccumulation dt e
            (vigorDynamics n
               (healthDynamics dt n noise e (set_dormant d t))))) in
  f (metabolism dt noise e t)
  = f (if grows d n t1 then physicalGrowth dt n e t1 else t1).
Proof.
  cbv zeta. unfold metabolism. cbv zeta. apply field_after_growth.
Qed.

(** A reading that does not depend on what PHYSICAL GROWTH assigns
    either. *)
Hypothesis f_physicalGrowth :
  forall dt n e t, f (physicalGrowth dt n e t) = f t.

Lemma field_metabolism_unchanged (dt noise : R) (e : Environment)
    (t : Tree) :
  f (metabolism dt noise e t) = f t.
Proof.
  rewrite field_metabolism. cbv zeta.
  split_if; [rewrite f_physicalGrowth|]; apply field_before_growth.
Qed.

End TreeField.

Lemma temporal_metabolism (dt noise : R) (e : Environment) (t : Tree) :
  temporal (metabolism dt noise e t) = temporal t.
Proof. apply (field_metabolism_unchanged temporal); reflexivity. Qed.

Lemma visual_metabolism (dt noise : R) (e : Environment) (t : Tree) :
  visual (metabolism dt noise e t) = visual t.
Proof. apply (field_metabolism_unchanged visual); reflexivity. Qed.

Lemma temporal_inner (t t' : Tree) :
  inner t' = inner t -> temporal t' = temporal t.
Proof. intros E. apply (f_equal temporal) in E. exact E. Qed.

Lemma vitality_inner (t t' : Tree) :
  inner t' = inner t -> vitality t' = vitality t.
Proof. intros E. apply (f_equal vitality) in E. exact E. Qed.

(** ** Age (js/simulation.js, updateBiology) *)


(** ** Growth rings (js/simulation.js, updateBiology) *)

Lemma annual_inner (t t' : Tree) : inner t' = inner t -> annual t' = annual t.
Proof. intros E. apply (f_equal annual) in E. exact E. Qed.

Lemma ringsGrown_metabolism (dt noise : R) (e : Environment) (t : Tree) :
  ringsGrown (annual (metabolism dt noise e t)) = ringsGrown (annual t).
Proof.
  apply (field_metabolism_unchanged (fun u => ringsGrown (annual u)));
    reflexivity.
Qed.

(** What the block AGE & ANNUAL CYCLES leaves, from [annualCycle_inner],
    for a tree [M] that has the age and the rings of [t]. *)
Lemma after_annualCycle (dt : R) (t' M t : Tree) :
  inner t'
  = inner
      (if (Zfloor ((daysSinceBirth (temporal M) - dt) / CONFIG.DAYS_PER_YEAR)
           <? Zfloor ((daysSinceBirth (temporal M) + dt)
                      / CONFIG.DAYS_PER_YEAR))%Z
       then set_growthThisYear 0
              (set_ringsGrown (ringsGrown (annual M) + 1)%Z
                 (set_daysSinceBirth (daysSinceBirth (temporal M) + dt)
                    (set_age (age (temporal M) + dt / CONFIG.DAYS_PER_YEAR)
                       M)))
       else set_daysSinceBirth (daysSinceBirth (temporal M) + dt)
              (set_age (age (temporal M) + dt / CONFIG.DAYS_PER_YEAR) M)) ->
  temporal M = temporal t ->
  ringsGrown (annual M) = ringsGrown (annual t) ->
  daysSinceBirth (temporal t') = daysSinceBirth (temporal t) + dt
  /\ ringsGrown (annual t')
     = (ringsGrown (annual t)
        + (if (Zfloor ((daysSinceBirth (temporal t) - dt) / 365)
               <? Zfloor ((daysSinceBirth (temporal t) + dt) / 365))%Z
           then 1 else 0))%Z.
Proof.
  intros E Ht Hr.
  rewrite (temporal_inner _ _ E), (annual_inner _ _ E).
  rewrite Ht. unfold CONFIG.DAYS_PER_YEAR.
  split_if;
    cbn [temporal annual set_growthThisYear set_ringsGrown with_annual
         set_daysSinceBirth set_age with_temporal daysSinceBirth
         ringsGrown];
    rewrite ?Ht, ?Hr; split; first [reflexivity | lia].
Qed.

(** A tree that is alive after a substep has lived through it: it has
    aged by [dt], and it has one more ring when the year of
    [daysSinceBirth + dt] is past the year of [daysSinceBirth - dt]. *)
Lemma living_substep (cfg : CONFIG.Disturbance) (dt : R) (g : Global) :
  let t := tree g in
  let t' := tree (updateBiology cfg dt g) in
  0 < health (vitality t') ->
  0 < health (vitality t)
  /\ daysSinceBirth (temporal t') = daysSinceBirth (temporal t) + dt
  /\ ringsGrown (annual t')
     = (ringsGrown (annual t)
        + (if (Zfloor ((daysSinceBirth (temporal t) - dt) / 365)
               <? Zfloor ((daysSinceBirth (temporal t) + dt) / 365))%Z
           then 1 else 0))%Z.
Proof.
  intros t t'. subst t t'. intros Halive.
  destruct (updateBiology_inner cfg dt g)
    as [[Hdead E] | [[Hlive [Hkilled E]] | [Hlive [Hkept [Em E]]]]].
  - rewrite (vitality_inner _ _ E) in Halive. lra.
  - rewrite (vitality_inner _ _ E) in Halive. lra.
  - split; [exact Hlive|].
    rewrite annualCycle_inner in E.
    eapply after_annualCycle;
      [exact E | apply temporal_metabolism | apply ringsGrown_metabolism].
Qed.

Lemma floor_below (x : R) (k : Z) : x < IZR k -> (Zfloor x < k)%Z.
Proof.
  intros H. apply lt_IZR. pose proof (Zfloor_bound x). lra.
Qed.

Lemma crossing_is_counted (d dt : R) (k : Z) :
  d - dt < IZR k * 365 <= d + dt ->
  (Zfloor ((d - dt) / 365) <? Zfloor ((d + dt) / 365))%Z = true.
Proof.
  intros [Hlo Hhi]. apply Z.ltb_lt.
  assert (H1 : (Zfloor ((d - dt) / 365) < k)%Z) by (apply floor_below; lra).
  assert (H2 : (k <= Zfloor ((d + dt) / 365))%Z) by (apply Zfloor_lub; lra).
  lia.
Qed.

(** X14.  A year boundary is counted twice.  The ring test compares the
    year of [daysSinceBirth + dt] with the year of [daysSinceBirth - dt],
    a window of two substeps: the substep that reaches a multiple of 365
    days adds a ring, and so does the substep after it.  Unless the tree
    dies in them, the two substeps add two rings for the one year. *)
Theorem year_boundary_counted_twice (cfg : CONFIG.Disturbance) (dt : R)
    (g : Global) (k : Z) :
  0 < dt ->
  IZR k * 365 - dt <= daysSinceBirth (temporal (tree g)) < IZR k * 365 ->
  let g1 := updateBiology cfg dt g in
  let g2 := updateBiology cfg dt g1 in
  health (vitality (tree g2)) <= 0
  \/ (ringsGrown (annual (tree g1)) = (ringsGrown (annual (tree g)) + 1)%Z
      /\ ringsGrown (annual (tree g2))
         = (ringsGrown (annual (tree g)) + 2)%Z).
Proof.
  intros Hdt Hd g1 g2.
  destruct (Rle_dec (health (vitality (tree g2))) 0) as [H|H];
    [left; exact H | right].
  apply Rnot_le_lt in H.
  destruct (living_substep cfg dt g1 H) as [H1 [Ed2 Er2]].
  destruct (living_substep cfg dt g H1) as [_ [Ed1 Er1]].
  fold g1 in Ed1, Er1. fold g2 in Ed2, Er2.
  rewrite (crossing_is_counted _ _ k) in Er1 by lra.
  rewrite Ed1 in Er2.
  rewrite (crossing_is_counted _ _ k) in Er2 by lra.
  split; lia.
Qed.

Lemma year_boundary_counted_twice_witness :
  health
    (vitality
       (tree
          (updateBiology sampleDisturbance (1 / 60)
             (updateBiology sampleDisturbance (1 / 60)
                {| tree := set_daysSinceBirth 364.99 tree0;
                   environment := environmentOnDay 0;
                   prngState := zeroDraw;
                   simulationState := simulationState0;
                   healthHistory := [] |})))) <= 0
  \/ (ringsGrown
        (annual
           (tree
              (updateBiology sampleDisturbance (1 / 60)
                 {| tree := set_daysSinceBirth 364.99 tree0;
                    environment := environmentOnDay 0;
                    prngState := zeroDraw;
                    simulationState := simulationState0;
                    healthHistory := [] |})))
      = (ringsGrown (annual (set_daysSinceBirth 364.99 tree0)) + 1)%Z
      /\ ringsGrown
           (annual
              (tree
                 (updateBiology sampleDisturbance (1 / 60)
                    (updateBiology sampleDisturbance (1 / 60)
                       {| tree := set_daysSinceBirth 364.99 tree0;
                          environment := environmentOnDay 0;
                          prngState := zeroDraw;
                          simulationState := simulationState0;
                          healthHistory := [] |}))))
         = (ringsGrown (annual (set_daysSinceBirth 364.99 tree0)) + 2)%Z).
Proof.
  refine (year_boundary_counted_twice sampleDisturbance (1 / 60)
            {| tree := set_daysSinceBirth 364.99 tree0;
               environment := environmentOnDay 0;
               prngState := zeroDraw;
               simulationState := simulationState0;
               healthHistory := [] |} 1 _ _);
    [lra|].
  cbn [tree set_daysSinceBirth with_temporal temporal daysSinceBirth].
  lra.
Defined.

(** ** The size of the tree (js/simulation.js, PHYSICAL GROWTH) *)

Lemma species_parameters (key : string) :
  let sp := TREE_SPECIES.get_or_OAK key in
  0 < JS.or_default (Species.growthRate sp) 1.0
  /\ 0 < JS.or_default (Species.maxHeight sp) CONFIG.TREE_MAX_HEIGHT.
Proof.
  unfold TREE_SPECIES.get_or_OAK, TREE_SPECIES.get.
  repeat split_if;
    cbn [Species.growthRate Species.maxHeight TREE_SPECIES.OAK
         TREE_SPECIES.MAPLE TREE_SPECIES.PINE TREE_SPECIES.BIRCH];
    unfold JS.or_default, JS.eqb, CONFIG.TREE_MAX_HEIGHT;
    repeat match goal with
    | |- context [Req_dec_T ?a ?b] => destruct (Req_dec_T a b)
    end; lra.
Qed.

Lemma Math_pow_2_nonnegative (x : R) : 0 <= JS.Math_pow x 2.
Proof.
  unfold JS.Math_pow, JS.eqb, JS.ltb.
  destruct (Req_dec_T 2 0); [lra|].
  destruct (Rlt_dec 0 x).
  - unfold Rpower. left. apply exp_pos.
  - destruct (Req_dec_T 2 2); [nra | lra].
Qed.

(** The height and the diameter that the block PHYSICAL GROWTH assigns. *)
Lemma size_after_physicalGrowth (dt n : R) (e : Environment) (t : Tree) :
  let sp := TREE_SPECIES.get_or_OAK (species t) in
  let limit := JS.or_default (Species.maxHeight sp) CONFIG.TREE_MAX_HEIGHT in
  0 <= dt -> 0 <= n ->
  0 <= health (vitality t) -> 0 <= vigor (vitality t) ->
  dbh (morphology t) <= dbh (morphology (physicalGrowth dt n e t))
  /\ (height (morphology t) <= limit ->
      height (morphology t) <= height (morphology (physicalGrowth dt n e t))
      <= limit).
Proof.
  intros sp limit Hdt Hn Hh Hv.
  destruct (species_parameters (species t)) as [Hg Hl].
  fold sp in Hg, Hl. fold limit in Hl.
  split.
  - change (dbh (morphology (physicalGrowth dt n e t)))
      with (JS.Math_max (dbh (morphology t))
              (dbh (morphology t)
               + ((JS.Math_pow
                     (height (morphology (physicalGrowth dt n e t))) 0.8
                   * 0.05 - dbh (morphology t))
                  * (n * (health (vitality t) / 100)
                     * (vigor (vitality t) / 100)
                     * JS.Math_max 0.1
                         (1 - age (temporal t) / (Species.maxAge sp * 0.4))
                     * JS.or_default (Species.growthRate sp) 1.0) * 0.1
                  + n * (health (vitality t) / 100)
                    * (vigor (vitality t) / 100)
                    * JS.Math_max 0.1
                        (1 - age (temporal t) / (Species.maxAge sp * 0.4))
                    * JS.or_default (Species.growthRate sp) 1.0
                    * CONFIG.DBH_GROWTH_FACTOR * 0.0005) * dt)).
    apply Rmax_l.
  - intros Hlim.
    change (height (morphology (physicalGrowth dt n e t)))
      with (JS.Math_min limit
              (height (morphology t)
               + n * (health (vitality t) / 100)
                 * (vigor (vitality t) / 100)
                 * JS.Math_max 0.1
                     (1 - age (temporal t) / (Species.maxAge sp * 0.4))
                 * JS.or_default (Species.growthRate sp) 1.0
                 * CONFIG.HEIGHT_GROWTH_FACTOR
                 * JS.Math_pow (1 - height (morphology t) / limit) 2 * dt)).
    pose proof (Math_pow_2_nonnegative (1 - height (morphology t) / limit))
      as Hs.
    set (s := JS.Math_pow _ 2) in *.
    assert (Ha : 0.1 <= JS.Math_max 0.1
                    (1 - age (temporal t) / (Species.maxAge sp * 0.4)))
      by apply Rmax_l.
    set (a := JS.Math_max 0.1 _) in *.
    set (r := JS.or_default (Species.growthRate sp) 1.0) in *.
    set (hf := health (vitality t) / 100).
    set (vf := vigor (vitality t) / 100).
    assert (Hhf : 0 <= hf) by (subst hf; lra).
    assert (Hvf : 0 <= vf) by (subst vf; lra).
    clearbody s a r hf vf.
    assert (H1 : 0 <= n * hf) by nra.
    assert (H2 : 0 <= n * hf * vf) by nra.
    assert (H3 : 0 <= n * hf * vf * a) by nra.
    assert (H4 : 0 <= n * hf * vf * a * r) by nra.
    assert (H5 : 0 <= n * hf * vf * a * r * CONFIG.HEIGHT_GROWTH_FACTOR)
      by (unfold CONFIG.HEIGHT_GROWTH_FACTOR; nra).
    assert (H6 : 0 <= n * hf * vf * a * r * CONFIG.HEIGHT_GROWTH_FACTOR * s)
      by nra.
    assert (H7 : 0 <= n * hf * vf * a * r * CONFIG.HEIGHT_GROWTH_FACTOR * s
                      * dt) by nra.
    unfold JS.Math_min, Rmin. destruct (Rle_dec _ _); lra.
Qed.
Lemma morphology_inner (t t' : Tree) :
  inner t' = inner t -> morphology t' = morphology t.
Proof. intros E. apply (f_equal morphology) in E. exact E. Qed.

Lemma species_inner (t t' : Tree) :
  inner t' = inner t -> species t' = species t.
Proof. intros E. apply (f_equal species) in E. exact E. Qed.

Lemma leafSystem_inner (t t' : Tree) :
  inner t' = inner t -> leafSystem t' = leafSystem t.
Proof. intros E. apply (f_equal leafSystem) in E. exact E. Qed.

Lemma species_metabolism (dt noise : R) (e : Environment) (t : Tree) :
  species (metabolism dt noise e t) = species t.
Proof. apply (field_metabolism_unchanged species); reflexivity. Qed.

(** The health and the vigor on which PHYSICAL GROWTH runs are clamped. *)
Lemma vitality_before_growth (dt n noise : R) (d : bool) (e : Environment)
    (t : Tree) :
  let t1 :=
    updateFoliage dt e
      (diseaseProgression dt e
         (stressAccumulation dt e
            (vigorDynamics n
               (healthDynamics dt n noise e (set_dormant d t))))) in
  0 <= health (vitality t1) <= 100 /\ 0 <= vigor (vitality t1) <= 100.
Proof.
  cbv zeta. split; apply clamp_range; lra.
Qed.

(** The size after the metabolism, for the tree [t1] on which PHYSICAL
    GROWTH runs. *)
Lemma size_after_growth (dt n : R) (e : Environment) (b : bool)
    (t t1 : Tree) :
  let limit :=
    JS.or_default (Species.maxHeight (TREE_SPECIES.get_or_OAK (species t)))
      CONFIG.TREE_MAX_HEIGHT in
  morphology t1 = morphology t -> species t1 = species t ->
  0 <= health (vitality t1) -> 0 <= vigor (vitality t1) ->
  0 <= dt -> 0 <= n ->
  let t2 := if b then physicalGrowth dt n e t1 else t1 in
  dbh (morphology t) <= dbh (morphology t2)
  /\ (height (morphology t) <= limit ->
      height (morphology t) <= height (morphology t2) <= limit).
Proof.
  intros limit Em Es Hh Hv Hdt Hn t2. subst t2 limit.
  destruct b.
  - pose proof (size_after_physicalGrowth dt n e t1 Hdt Hn Hh Hv) as H.
    cbv zeta in H. rewrite Em, Es in H. exact H.
  - rewrite Em. split; [lra | intros; lra].
Qed.

Lemma morphology_after_annualCycle (dt : R) (t' M : Tree) :
  inner t'
  = inner
      (if (Zfloor ((daysSinceBirth (temporal M) - dt) / CONFIG.DAYS_PER_YEAR)
           <? Zfloor ((daysSinceBirth (temporal M) + dt)
                      / CONFIG.DAYS_PER_YEAR))%Z
       then set_growthThisYear 0
              (set_ringsGrown (ringsGrown (annual M) + 1)%Z
                 (set_daysSinceBirth (daysSinceBirth (temporal M) + dt)
                    (set_age (age (temporal M) + dt / CONFIG.DAYS_PER_YEAR)
                       M)))
       else set_daysSinceBirth (daysSinceBirth (temporal M) + dt)
              (set_age (age (temporal M) + dt / CONFIG.DAYS_PER_YEAR) M)) ->
  morphology t' = morphology M /\ species t' = species M
  /\ leafSystem t' = leafSystem M /\ vitality t' = vitality M.
Proof.
  intros E.
  rewrite (morphology_inner _ _ E), (species_inner _ _ E),
    (vitality_inner _ _ E), (leafSystem_inner _ _ E).
  split_if; repeat split.
Qed.

(** X15.  The trunk never shrinks.  In a substep with [dt >= 0] the
    diameter [dbh] does not decrease, the species stays, and a height that
    is within the species' height limit does not decrease and stays
    within the limit. *)
Theorem trunk_never_shrinks (cfg : CONFIG.Disturbance) (dt : R)
    (g : Global) :
  0 <= dt ->
  let t := tree g in
  let t' := tree (updateBiology cfg dt g) in
  let limit :=
    JS.or_default (Species.maxHeight (TREE_SPECIES.get_or_OAK (species t)))
      CONFIG.TREE_MAX_HEIGHT in
  dbh (morphology t) <= dbh (morphology t')
  /\ species t' = species t
  /\ (height (morphology t) <= limit ->
      height (morphology t) <= height (morphology t') <= limit).
Proof.
  intros Hdt t t' limit. subst t t' limit.
  destruct (updateBiology_inner cfg dt g)
    as [[Hdead E] | [[Hlive [Hkilled E]] | [Hlive [Hkept [Em E]]]]].
  - rewrite (morphology_inner _ _ E), (species_inner _ _ E).
    split; [lra|]. split; [reflexivity | intros; lra].
  - rewrite (morphology_inner _ _ E), (species_inner _ _ E).
    destruct (applyMortalityModel_cases cfg dt
                (updateEnvironmentTime dt (environment g)) (tree g)
                (prngState g)) as [E' | [c E']]; rewrite E';
      (split; [cbn; lra|]; split; [reflexivity | intros; cbn; lra]).
  - rewrite annualCycle_inner in E.
    destruct (morphology_after_annualCycle _ _ _ E) as [Hm [Hs _]].
    rewrite Hm, Hs, species_metabolism.
    rewrite (field_metabolism morphology) by reflexivity.
    cbv zeta.
    match goal with
    | |- context [if grows ?d ?n ?t1 then physicalGrowth dt ?n ?e1 ?t1
                  else ?t1] =>
        match t1 with
        | context [healthDynamics _ _ ?noise _ _] =>
            pose proof (vitality_before_growth dt n noise d e1 (tree g))
              as [Hh Hv]
        end;
        pose proof (netGrowthFactor_nonnegative d e1 (tree g)) as Hn;
        cbv zeta in Hh, Hv;
        assert (Em1 : morphology t1 = morphology (tree g))
          by (apply (field_before_growth morphology); reflexivity);
        assert (Es1 : species t1 = species (tree g))
          by (apply (field_before_growth species); reflexivity);
        pose proof (size_after_growth dt n e1 (grows d n t1) (tree g) t1
                      Em1 Es1 (proj1 Hh) (proj1 Hv) Hdt Hn) as H
    end.
    cbv zeta in H. destruct H as [H1 H2].
    split; [exact H1|]. split; [reflexivity | exact H2].
Qed.

Lemma trunk_never_shrinks_witness :
  dbh (morphology (tree global0))
  <= dbh (morphology (tree (updateBiology sampleDisturbance (1 / 60)
                              global0))).
Proof.
  refine (proj1 (trunk_never_shrinks sampleDisturbance (1 / 60) global0 _)).
  lra.
Defined.

(** ** Foliage (js/simulation.js, updateFoliage) *)

Lemma foliage_after_updateFoliage (dt n : R) (d b : bool) (c : R)
    (e : Environment) (t1 : Tree) :
  let t2 :=
    set_chlorophyllContent c
      (waterDynamics dt e
         (gasExchange dt d e
            (updateBiomass dt n e
               (if b then physicalGrowth dt n e t1 else t1)))) in
  foliageOpacity (leafSystem t2) = foliageOpacity (leafSystem t1)
  /\ foliageDensity (leafSystem t2) = foliageDensity (leafSystem t1).
Proof.
  cbv zeta. unfold gasExchange, updateBiomass.
  destruct b, (negb d); split_if; split; reflexivity.
Qed.

Lemma updateFoliage_range (dt : R) (e : Environment) (t : Tree) :
  foliage_in_range (updateFoliage dt e t).
Proof. split; apply clamp_range; lra. Qed.

Lemma foliage_metabolism (dt noise : R) (e : Environment) (t : Tree) :
  foliage_in_range (metabolism dt noise e t).
Proof.
  unfold metabolism. cbv zeta.
  set (d := isDormant e t). set (n := netGrowthFactor d e t).
  set (x := diseaseProgression dt e _).
  pose proof (updateFoliage_range dt e x) as H.
  set (t1 := updateFoliage dt e x) in *. clearbody t1 x n d.
  match goal with
  | |- foliage_in_range (set_chlorophyllContent ?c _) =>
      destruct (foliage_after_updateFoliage dt n d (grows d n t1) c e t1)
        as [Eo Ed]
  end.
  unfold foliage_in_range. rewrite Eo, Ed. exact H.
Qed.

Lemma foliage_updateBiology (cfg : CONFIG.Disturbance) (dt : R)
    (g : Global) :
  foliage_in_range (tree g) ->
  foliage_in_range (tree (updateBiology cfg dt g)).
Proof.
  intros H. unfold foliage_in_range.
  destruct (updateBiology_inner cfg dt g)
    as [[Hdead E] | [[Hlive [Hkilled E]] | [Hlive [Hkept [Em E]]]]].
  - rewrite (leafSystem_inner _ _ E). exact H.
  - rewrite (leafSystem_inner _ _ E).
    destruct (applyMortalityModel_cases cfg dt
                (updateEnvironmentTime dt (environment g)) (tree g)
                (prngState g)) as [E' | [c E']]; rewrite E'; exact H.
  - rewrite annualCycle_inner in E.
    destruct (morphology_after_annualCycle _ _ _ E) as [_ [_ [El _]]].
    rewrite El. apply foliage_metabolism.
Qed.

(** X16.  The foliage stays in range: from a tree whose foliage opacity
    and density are in [0, 1], they are in [0, 1] after every substep of
    a run, whatever the controls. *)
Theorem foliage_stays_in_range (cfg : CONFIG.Disturbance) (uis : list UI.t)
    (g : Global) :
  foliage_in_range (tree g) ->
  Forall foliage_in_range (trajectory cfg uis g).
Proof.
  revert g. induction uis as [|ui uis IH]; intros g H; cbn [trajectory].
  - constructor.
  - assert (H1 : foliage_in_range (tree (substep cfg ui g)))
      by (unfold substep; apply foliage_updateBiology; exact H).
    constructor; [exact H1 | apply IH; exact H1].
Qed.

Lemma foliage_stays_in_range_witness :
  Forall foliage_in_range
    (trajectory sampleDisturbance [noControls; noControls] global0).
Proof.
  apply (foliage_stays_in_range sampleDisturbance [noControls; noControls]
           global0).
  unfold foliage_in_range.
  cbn [global0 tree tree0 leafSystem foliageOpacity foliageDensity]. lra.
Defined.

(** ** Falling leaves (js/tree.js, createFallingLeaf and updateLeafDrops) *)

Lemma leafDrops_createFallingLeaf (x y : R) (s : SeasonRef) (t : Tree)
    (p : PRNG.prngState) :
  (List.length (leafDrops (visual (fst (createFallingLeaf x y s t p))))
   <= Nat.max (List.length (leafDrops (visual t)))
        CONFIG.PARTICLE_FALLING_LEAVES)%nat.
Proof.
  unfold createFallingLeaf.
  destruct (Nat.leb CONFIG.PARTICLE_FALLING_LEAVES
              (List.length (leafDrops (visual t)))) eqn:E.
  - cbn [PRNG.ret fst]. apply Nat.le_max_l.
  - apply Nat.leb_gt in E. run_draws.
    cbn [fst set_leafDrops with_visual visual leafDrops].
    rewrite length_app. cbn [List.length]. lia.
Qed.

Lemma leafDrops_handleLeafDrop (dt : R) (e : Environment) (t : Tree)
    (p : PRNG.prngState) :
  (List.length (leafDrops (visual (fst (handleLeafDrop dt e t p))))
   <= Nat.max (List.length (leafDrops (visual t)))
        CONFIG.PARTICLE_FALLING_LEAVES)%nat.
Proof.
  unfold handleLeafDrop, PRNG.bind. destruct (PRNG.random p) as [r p1].
  split_if; [|cbn [PRNG.ret fst]; apply Nat.le_max_l].
  run_draws. apply leafDrops_createFallingLeaf.
Qed.

Lemma leafDrops_generateBranchArchitecture (t : Tree) (p : PRNG.prngState) :
  leafDrops (visual (fst (generateBranchArchitecture t p)))
  = leafDrops (visual t).
Proof.
  unfold generateBranchArchitecture, PRNG.bind, PRNG.ret.
  destruct (createBranch _ _ _ _ _ _ _ _ p). reflexivity.
Qed.

Lemma leafDrops_generateLeafClusters (t : Tree) (p : PRNG.prngState) :
  leafDrops (visual (fst (generateLeafClusters t p)))
  = leafDrops (visual t).
Proof.
  unfold generateLeafClusters, PRNG.bind at 1, PRNG.ret at 1.
  destruct (for_rand _ _ _ p). reflexivity.
Qed.

Lemma leafDrops_generateRootMesh (t : Tree) (p : PRNG.prngState) :
  leafDrops (visual (fst (generateRootMesh t p))) = leafDrops (visual t).
Proof.
  unfold generateRootMesh, PRNG.bind at 1.
  destruct (PRNG.random2 0.9 1.1 p) as [d p1].
  unfold PRNG.bind at 1, PRNG.ret at 1.
  destruct (for_rand _ _ _ p1). reflexivity.
Qed.

Lemma leafDrops_annualCycle (dt : R) (t : Tree) (p : PRNG.prngState) :
  leafDrops (visual (fst (annualCycle dt t p))) = leafDrops (visual t).
Proof.
  unfold annualCycle. cbv zeta.
  split_if; [|reflexivity].
  split_if; [|reflexivity].
  unfold PRNG.bind.
  match goal with
  | |- context [generateBranchArchitecture ?u p] =>
      pose proof (leafDrops_generateBranchArchitecture u p) as H1;
      destruct (generateBranchArchitecture u p) as [t1 p1]
  end.
  pose proof (leafDrops_generateLeafClusters t1 p1) as H2.
  destruct (generateLeafClusters t1 p1) as [t2 p2].
  pose proof (leafDrops_generateRootMesh t2 p2) as H3.
  cbn [fst] in *. rewrite H3, H2, H1. reflexivity.
Qed.

Lemma leafDrops_physiology (dt : R) (e : Environment) (t : Tree)
    (p : PRNG.prngState) :
  (List.length (leafDrops (visual (snd (fst (physiology dt e t p)))))
   <= Nat.max (List.length (leafDrops (visual t)))
        CONFIG.PARTICLE_FALLING_LEAVES)%nat.
Proof.
  unfold physiology. cbv zeta. unfold PRNG.bind at 1.
  destruct (PRNG.randomGaussian 0 0.3 p) as [noise p1].
  unfold PRNG.bind, PRNG.ret.
  match goal with
  | |- context [annualCycle dt ?u p1] =>
      pose proof (leafDrops_annualCycle dt u p1) as H1;
      rewrite visual_metabolism in H1;
      destruct (annualCycle dt u p1) as [t1 p2]
  end.
  match goal with
  | |- context [handleLeafDrop dt ?e' t1 p2] =>
      pose proof (leafDrops_handleLeafDrop dt e' t1 p2) as H2;
      destruct (handleLeafDrop dt e' t1 p2) as [t2 p3]
  end.
  cbn [fst snd] in *. rewrite H1 in H2.
  etransitivity; [apply updateLeafDrops_length | exact H2].
Qed.

Lemma leafDrops_updateBiology (cfg : CONFIG.Disturbance) (dt : R)
    (g : Global) :
  (List.length (leafDrops (visual (tree (updateBiology cfg dt g))))
   <= Nat.max (List.length (leafDrops (visual (tree g))))
        CONFIG.PARTICLE_FALLING_LEAVES)%nat.
Proof.
  unfold updateBiology.
  split_if; cbn [tree].
  - etransitivity; [apply updateLeafDrops_length | apply Nat.le_max_l].
  - cbv zeta.
    assert (Ev : visual (fst (applyMortalityModel cfg dt
                                (updateEnvironmentTime dt (environment g))
                                (tree g) (prngState g)))
                 = visual (tree g)).
    { destruct (applyMortalityModel_cases cfg dt
                  (updateEnvironmentTime dt (environment g)) (tree g)
                  (prngState g)) as [E | [c E]]; rewrite E; reflexivity. }
    split_if; cbn [tree].
    + etransitivity; [apply updateLeafDrops_length|].
      rewrite Ev. apply Nat.le_max_l.
    + rewrite <- Ev. apply leafDrops_physiology.
Qed.

(** X17.  The falling leaves are bounded: a run of substeps never leaves
    more falling leaves than [PARTICLE_FALLING_LEAVES] (60), unless the
    run started with more, and then never more than it started with. *)
Theorem falling_leaves_are_bounded (cfg : CONFIG.Disturbance)
    (uis : list UI.t) (g : Global) :
  (List.length (leafDrops (visual (tree (run cfg uis g))))
   <= Nat.max (List.length (leafDrops (visual (tree g)))) 60)%nat.
Proof.
  revert g. induction uis as [|ui uis IH]; intros g.
  - cbn [run fold_left]. apply Nat.le_max_l.
  - change (run cfg (ui :: uis) g) with (run cfg uis (substep cfg ui g)).
    etransitivity; [apply IH|].
    pose proof (leafDrops_updateBiology cfg
                  (substepTime (simulationState g))
                  {| tree := tree g;
                     environment := updateEnvironmentFromUI ui (environment g);
                     prngState := prngState g;
                     simulationState := simulationState g;
                     healthHistory := healthHistory g |}) as H.
    cbn [tree] in H. unfold CONFIG.PARTICLE_FALLING_LEAVES in H.
    unfold substep. cbn [simulationState]. lia.
Qed.

(** ** The health history (js/simulation.js, recordHealth) *)

Lemma recordHealth_length (g : Global) :
  (List.length (recordHealth g)
   <= Nat.max (List.length (healthHistory g)) CONFIG.MAX_HISTORY)%nat.
Proof.
  unfold recordHealth, CONFIG.MAX_HISTORY. split_if; [apply Nat.le_max_l|].
  rewrite length_app. cbn [List.length].
  destruct (Nat.leb 600 (List.length (healthHistory g)))
    eqn:E; [apply Nat.leb_le in E | apply Nat.leb_gt in E].
  - destruct (healthHistory g) as [|v h]; cbn [tl List.length] in *; lia.
  - lia.
Qed.

Lemma round_tenths (h : R) :
  0 <= h <= 100 -> 0 <= JS.Math_round (h * 10) / 10 <= 100.
Proof.
  intros Hh. unfold JS.Math_round.
  assert (H0 : (0 <= Zfloor (h * 10 + 0.5))%Z)
    by (apply (Zfloor_lub 0); lra).
  assert (H1 : (Zfloor (h * 10 + 0.5) < 1001)%Z)
    by (apply floor_below; lra).
  apply IZR_le in H0. assert (H2 : (Zfloor (h * 10 + 0.5) <= 1000)%Z) by lia.
  apply IZR_le in H2. lra.
Qed.

Lemma recordHealth_values (g : Global) :
  0 <= health (vitality (tree g)) <= 100 ->
  Forall (fun v => 0 <= v <= 100) (healthHistory g) ->
  Forall (fun v => 0 <= v <= 100) (recordHealth g).
Proof.
  intros Hh H. unfold recordHealth. split_if; [exact H|].
  apply Forall_app. split.
  - split_if; [|exact H].
    destruct (healthHistory g) as [|v h]; [exact H|].
    cbn [tl]. inversion H; assumption.
  - constructor; [apply round_tenths; exact Hh | constructor].
Qed.

Lemma health_after_physiology (dt : R) (e : Environment) (t : Tree)
    (p : PRNG.prngState) :
  0 <= health (vitality (snd (fst (physiology dt e t p)))) <= 100.
Proof.
  rewrite (health_core _ _ (physiology_core dt e t p)).
  rewrite metabolism_health, health_of_healthDynamics.
  apply clamp_range. lra.
Qed.

Lemma history_updateBiology (cfg : CONFIG.Disturbance) (dt : R)
    (g : Global) :
  (List.length (healthHistory (updateBiology cfg dt g))
   <= Nat.max (List.length (healthHistory g)) CONFIG.MAX_HISTORY)%nat
  /\ (Forall (fun v => 0 <= v <= 100) (healthHistory g) ->
      Forall (fun v => 0 <= v <= 100)
        (healthHistory (updateBiology cfg dt g))).
Proof.
  unfold updateBiology.
  split_if; cbn [healthHistory]; [split; [apply Nat.le_max_l | tauto]|].
  cbv zeta.
  split_if; cbn [healthHistory]; [split; [apply Nat.le_max_l | tauto]|].
  match goal with
  | |- context [recordHealth ?g'] =>
      pose proof (recordHealth_length g') as Hl;
      pose proof (recordHealth_values g') as Hv;
      set (h' := recordHealth g') in *; clearbody h'
  end.
  cbn [healthHistory tree] in Hl, Hv.
  split; [exact Hl|]. apply Hv. apply health_after_physiology.
Qed.

(** X18.  The health history is bounded: after any run of substeps it
    holds at most [MAX_HISTORY] (600) samples, unless it held more at the
    start, and then no more than at the start; and from samples in
    [0, 100], every sample it holds is in [0, 100]. *)
Theorem health_history_is_bounded (cfg : CONFIG.Disturbance)
    (uis : list UI.t) (g : Global) :
  Forall (fun v => 0 <= v <= 100) (healthHistory g) ->
  (List.length (healthHistory (run cfg uis g))
   <= Nat.max (List.length (healthHistory g)) 600)%nat
  /\ Forall (fun v => 0 <= v <= 100) (healthHistory (run cfg uis g)).
Proof.
  revert g. induction uis as [|ui uis IH]; intros g H.
  - cbn [run fold_left]. split; [apply Nat.le_max_l | exact H].
  - change (run cfg (ui :: uis) g) with (run cfg uis (substep cfg ui g)).
    destruct (history_updateBiology cfg (substepTime (simulationState g))
                {| tree := tree g;
                   environment := updateEnvironmentFromUI ui (environment g);
                   prngState := prngState g;
                   simulationState := simulationState g;
                   healthHistory := healthHistory g |}) as [Hl Hv].
    cbn [healthHistory] in Hl, Hv. unfold CONFIG.MAX_HISTORY in Hl.
    change (updateBiology cfg (substepTime (simulationState g)) _)
      with (substep cfg ui g) in Hl, Hv.
    destruct (IH (substep cfg ui g) (Hv H)) as [Hl' Hv'].
    split; [lia | exact Hv'].
Qed.

Lemma health_history_is_bounded_witness :
  (List.length
     (healthHistory (run sampleDisturbance [noControls; noControls] global0))
   <= Nat.max (List.length (healthHistory global0)) 600)%nat.
Proof.
  refine (proj1 (health_history_is_bounded sampleDisturbance
                   [noControls; noControls] global0 _)).
  constructor.
Defined.

(** X19.  After [updateLeafDrops] every falling leaf that is left has a
    positive lifetime, is on the screen ([y <= 1000]) and falls no faster
    than 2; a leaf in its last 50 units of lifetime has an opacity in
    (0, 1) that is its lifetime over 50; and no leaf is added. *)
Theorem falling_leaves_after_update (dt wind : R) (t : Tree) :
  Forall
    (fun leaf =>
       0 < FallingLeaf.lifetime leaf
       /\ FallingLeaf.y leaf <= 1000
       /\ FallingLeaf.vy leaf <= 2
       /\ (FallingLeaf.lifetime leaf < 50 ->
           FallingLeaf.opacity leaf = FallingLeaf.lifetime leaf / 50
           /\ 0 < FallingLeaf.opacity leaf < 1))
    (leafDrops (visual (updateLeafDrops dt wind t)))
  /\ (List.length (leafDrops (visual (updateLeafDrops dt wind t)))
      <= List.length (leafDrops (visual t)))%nat.
Proof.
  split; [|apply updateLeafDrops_length].
  unfold updateLeafDrops. cbn [set_leafDrops with_visual visual leafDrops].
  induction (leafDrops (visual t)) as [|leaf rest IH]; cbn [fold_right];
    [constructor|].
  cbv zeta.
  destruct (FallingLeaf.lifetime (moveLeafDrop dt wind leaf) <=? 0) eqn:E1;
    [exact IH|].
  destruct (FallingLeaf.y (moveLeafDrop dt wind leaf) >? 1000) eqn:E2;
    [exact IH|].
  cbn [orb]. apply leb_false in E1. apply gtb_false in E2.
  constructor; [|exact IH].
  split; [exact E1|]. split; [exact E2|]. split.
  - unfold moveLeafDrop. cbn [FallingLeaf.vy]. apply Rmin_r.
  - intros H50. unfold moveLeafDrop in *.
    cbn [FallingLeaf.lifetime FallingLeaf.opacity] in *.
    rewrite (proj2 (ltb_true _ _) H50). split; [reflexivity | lra].
Qed.

(** ** The root mesh (js/tree.js, generateRootMesh) *)

(** X20.  [generateRootMesh] always builds 19 roots: the tap root first,
    straight down, as thick as 40 times the diameter of the trunk and
    without fine roots, and then [ROOT_SEGMENTS] (18) lateral roots;
    whatever the tree and the state of the generator. *)
Theorem root_mesh_shape (t : Tree) (p : PRNG.prngState) :
  exists (tap : Root.t) (laterals : list Root.t),
    rootMesh (visual (fst (generateRootMesh t p))) = tap :: laterals
    /\ Root.type tap = "tap"%string
    /\ Root.angle tap = - PI / 2
    /\ Root.thickness tap = dbh (morphology t) * 40
    /\ Root.children tap = []
    /\ List.length laterals = 18%nat
    /\ Forall (fun r => Root.type r = "lateral"%string) laterals.
Proof.
  unfold generateRootMesh. cbv zeta. unfold PRNG.bind at 1.
  destruct (PRNG.random2 0.9 1.1 p) as [tapDepth p1].
  unfold PRNG.bind at 1, PRNG.ret at 1.
  set (tap := {| Root.type := "tap"%string |}).
  unfold for_rand.
  match goal with
  | |- context [for_loop ?n ?body ?s] =>
      assert (H : exists laterals : list Root.t,
                 fst (for_loop n body s) = tap :: laterals
                 /\ List.length laterals = n
                 /\ Forall (fun r => Root.type r = "lateral"%string)
                      laterals);
      [ apply (for_loop_invariant
                 (fun k st =>
                    exists laterals : list Root.t,
                      fst st = tap :: laterals
                      /\ List.length laterals = k
                      /\ Forall (fun r => Root.type r = "lateral"%string)
                           laterals))
      | destruct (for_loop n body s) as [mesh p2] ]
  end.
  - exists []. repeat split. constructor.
  - intros i [mesh p'] _ [ls [E [Hl Hf]]]. cbn [fst snd] in *. subst mesh.
    run_draws.
    match goal with
    | |- context [for_loop ?n ?body ?s] =>
        destruct (for_loop n body s) as [children p'']
    end.
    cbn [fst].
    eexists. split; [apply (app_comm_cons ls _ tap)|].
    split; [rewrite length_app; cbn [List.length]; lia|].
    apply Forall_app. split; [exact Hf|]. repeat constructor.
  - cbn [fst snd set_rootMesh with_visual visual rootMesh] in *.
    destruct H as [ls [E [Hl Hf]]].
    exists tap, ls. repeat split; assumption.
Qed.

(** ** The branch architecture (js/tree.js, generateBranchArchitecture) *)

Lemma parents_precede_push (bs : list Branch.t) (b : Branch.t) :
  parents_precede bs ->
  (-1 <= Branch.parentIndex b < Z.of_nat (List.length bs))%Z ->
  parents_precede (bs ++ [b]).
Proof.
  intros H Hb i b' E.
  destruct (Nat.lt_ge_cases i (List.length bs)) as [Hi|Hi].
  - rewrite nth_error_app1 in E by exact Hi. apply (H i b' E).
  - rewrite nth_error_app2 in E by exact Hi.
    destruct (i - List.length bs)%nat as [|k] eqn:Ek; cbn in E.
    + injection E as <-. lia.
    + destruct k; discriminate.
Qed.

Lemma createBranch_shape (depth : nat) :
  forall (x y angle length thickness : R) (parentIndex : Z)
         (bs : list Branch.t) (p : PRNG.prngState),
    (depth <= CONFIG.BRANCH_RECURSION)%nat ->
    parents_precede bs -> Forall branch_made bs ->
    (-1 <= parentIndex < Z.of_nat (List.length bs))%Z
    \/ (bs = [] /\ parentIndex = (-1)%Z) ->
    let bs' :=
      fst (createBranch depth x y angle length thickness parentIndex bs p) in
    parents_precede bs' /\ Forall branch_made bs'
    /\ (List.length bs <= List.length bs')%nat.
Proof.
  induction depth as [|depth IH];
    intros x y angle length thickness parentIndex bs p Hd Hw Hm Hp;
    cbv zeta;
    match goal with
    | |- context [fst ?c] => pattern (fst c)
    end;
    match goal with
    | |- ?Q _ => set (post := Q)
    end;
    cbn [createBranch].
  - subst post. cbn [PRNG.ret fst].
    split; [exact Hw|]. split; [exact Hm | apply Nat.le_refl].
  - destruct ((length <? 0.02) || (thickness <? 0.5)) eqn:Eguard.
    + subst post. cbn [PRNG.ret fst].
      split; [exact Hw|]. split; [exact Hm | apply Nat.le_refl].
    + apply orb_false_iff in Eguard. destruct Eguard as [_ Eth].
      apply ltb_false in Eth.
      unfold PRNG.bind at 1.
      destruct (PRNG.random2 _ _ p) as [angleVariation p1].
      unfold PRNG.bind at 1.
      destruct (PRNG.random2 0.85 1.15 p1) as [lengthVariation p2].
      unfold PRNG.bind at 1.
      destruct (PRNG.random2 _ _ p2) as [twist p3].
      cbv zeta. unfold PRNG.bind at 1.
      destruct (PRNG.random2 0 (PI * 2) p3) as [sway p4].
      unfold PRNG.bind at 1.
      match goal with
      | |- context [(if ?c then PRNG.randomInt 2 4 else PRNG.randomInt 1 3)
                    p4] =>
          destruct ((if c then PRNG.randomInt 2 4 else PRNG.randomInt 1 3)
                      p4) as [numChildren p5]
      end.
      unfold for_rand. cbv beta zeta.
      match goal with
      | |- context [for_loop ?n ?body (?bs1, p5)] =>
          assert (Hw1 : parents_precede bs1);
          [ | assert (Hm1 : Forall branch_made bs1);
              [ | assert (Hinv :
                    parents_precede (fst (for_loop n body (bs1, p5)))
                    /\ Forall branch_made (fst (for_loop n body (bs1, p5)))
                    /\ (List.length bs1
                        <= List.length (fst (for_loop n body (bs1, p5))))%nat);
                  [ apply (for_loop_invariant
                             (fun (_ : nat) st =>
                                parents_precede (fst st)
                                /\ Forall branch_made (fst st)
                                /\ (List.length bs1
                                    <= List.length (fst st))%nat)
                             n body (bs1, p5)) | ] ] ]
      end.
      * destruct Hp as [Hp | [-> ->]].
        -- apply parents_precede_push; [exact Hw|].
           cbn [Branch.parentIndex]. exact Hp.
        -- intros i b E. destruct i as [|[|i]]; cbn in E; try discriminate.
           injection E as <-. cbn [Branch.parentIndex]. lia.
      * apply Forall_app. split; [exact Hm|].
        constructor; [|constructor].
        unfold branch_made.
        cbn [Branch.depth Branch.thickness Branch.hasLeaves Branch.healthy].
        split; [lia|]. split; [exact Eth|]. split; reflexivity.
      * cbn [fst]. split; [exact Hw1|]. split; [exact Hm1|].
        apply Nat.le_refl.
      * intros i [bs2 q] _ [Hw2 [Hm2 Hl1]]. cbn [fst snd] in *.
        unfold PRNG.bind.
        destruct (PRNG.random2 (-0.1) 0.1 q) as [jitter q1].
        rewrite length_app in Hl1. cbn [List.length] in Hl1.
        match goal with
        | |- context [createBranch depth ?a ?b ?c ?d ?f ?pi bs2 q1] =>
            destruct (IH a b c d f pi bs2 q1 ltac:(lia) Hw2 Hm2
                        ltac:(left; lia)) as [H1 [H2 H3]]
        end.
        split; [exact H1|]. split; [exact H2|].
        rewrite length_app. cbn [List.length]. lia.
      * subst post. cbv beta. destruct Hinv as [H1 [H2 H3]].
        rewrite length_app in H3. cbn [List.length] in H3.
        split; [exact H1|]. split; [exact H2|].
        apply Nat.le_trans with (List.length bs + 1)%nat; [lia | exact H3].
Qed.

(** X21.  The branch architecture is well formed.  In the list that
    [generateBranchArchitecture] builds, whatever the tree and the state
    of the generator, the parent of every branch comes before it (the
    parent index is -1 for the trunk, or the index of an earlier branch);
    every branch has a depth from 1 to [BRANCH_RECURSION] (6), is at
    least 0.5 thick and healthy, and carries leaves exactly when its depth
    is at most 2. *)
Theorem branch_architecture_is_well_formed (t : Tree) (p : PRNG.prngState) :
  let bs := branches (visual (fst (generateBranchArchitecture t p))) in
  parents_precede bs /\ Forall branch_made bs.
Proof.
  unfold generateBranchArchitecture. cbv zeta. unfold PRNG.bind, PRNG.ret.
  match goal with
  | |- context [createBranch ?d ?x ?y ?a ?l ?th ?pi [] p] =>
      pose proof (createBranch_shape d x y a l th pi [] p) as H;
      destruct (createBranch d x y a l th pi [] p) as [bs q]
  end.
  cbn [fst set_branches with_visual visual branches] in *.
  destruct H as [H1 [H2 _]].
  - apply Nat.le_refl.
  - intros i b E. destruct i; discriminate.
  - constructor.
  - right. split; reflexivity.
  - split; assumption.
Qed.

(** ** The class [Tree] and the class [Simulation] *)

Ltac death_tests :=
  repeat match goal with
  | |- context [if ?c then (true, _, _) else _] => destruct c
  end.

(** [checkMortality] returns false and leaves the tree as it is, or
    returns true after [die] with one of the six causes. *)
Lemma checkOtherCauses_outcomes (environment : ClassTree.Env)
    (tr : ClassTree.t) (h : ClassTree.Host) :
  fst (ClassTree.checkOtherCauses environment tr h) = (false, tr)
  \/ exists cause : string,
       In cause ClassSimulation.causes
       /\ fst (ClassTree.checkOtherCauses environment tr h)
          = (true, ClassTree.die cause tr).
Proof.
  unfold ClassTree.checkOtherCauses, ClassTree.Math_random,
    ClassSimulation.causes.
  cbv zeta. death_tests; cbn [fst];
    first [ left; reflexivity
          | right; eexists; split; [|reflexivity]; cbn; tauto ].
Qed.

Lemma checkMortality_outcomes (environment : ClassTree.Env)
    (tr : ClassTree.t) (h : ClassTree.Host) :
  fst (ClassTree.checkMortality environment tr h) = (false, tr)
  \/ exists cause : string,
       In cause ClassSimulation.causes
       /\ fst (ClassTree.checkMortality environment tr h)
          = (true, ClassTree.die cause tr).
Proof.
  unfold ClassTree.checkMortality.
  destruct (negb (ClassTree.enable_mortality environment));
    [left; reflexivity|].
  destruct (ClassTree.age tr >? ClassTree.senescenceStartAge tr);
    [|apply checkOtherCauses_outcomes].
  unfold ClassTree.Math_random. cbv zeta.
  death_tests; [|apply checkOtherCauses_outcomes].
  right. exists "senescence"%string. split; [cbn; tauto | reflexivity].
Qed.

(** The three ways through [update]: the tree was dead and nothing
    happens; it lives through the year; it dies in it, of one of the six
    causes, at the age it has reached. *)
Lemma ClassTree_update_cases (environment : ClassTree.Env)
    (tr : ClassTree.t) (h : ClassTree.Host) :
  (ClassTree.alive tr = false
   /\ ClassTree.update environment tr h = (tr, h))
  \/ (ClassTree.alive tr = true
      /\ ClassTree.alive (fst (ClassTree.update environment tr h)) = true
      /\ ClassTree.age (fst (ClassTree.update environment tr h))
         = ClassTree.age tr + 1)
  \/ (ClassTree.alive tr = true
      /\ ClassTree.alive (fst (ClassTree.update environment tr h)) = false
      /\ (exists cause : string,
            In cause ClassSimulation.causes
            /\ ClassTree.deathCause (fst (ClassTree.update environment tr h))
               = Some cause)
      /\ ClassTree.deathAge (fst (ClassTree.update environment tr h))
         = Some (ClassTree.age tr + 1)).
Proof.
  unfold ClassTree.update.
  destruct (ClassTree.alive tr) eqn:Ea; cbn [negb];
    [right | left; split; reflexivity].
  match goal with
  | |- context [ClassTree.calculateStress environment ?x] =>
      set (aged := ClassTree.calculateStress environment x)
  end.
  assert (Eage : ClassTree.age aged = ClassTree.age tr + 1) by reflexivity.
  assert (Eal : ClassTree.alive aged = true) by reflexivity.
  clearbody aged.
  destruct (checkMortality_outcomes environment aged h) as [E | [c [Hc E]]];
    destruct (ClassTree.checkMortality environment aged h) as [[dead tr'] h'];
    cbn [fst] in E; injection E as -> ->.
  - left. split; [reflexivity|].
    destruct (ClassTree.enable_growth environment); cbn [fst];
      split; assumption.
  - right. split; [reflexivity|]. cbn [fst].
    split; [reflexivity|]. split; [exists c; split; [exact Hc | reflexivity]|].
    cbn. rewrite Eage. reflexivity.
Qed.

(** The tree after [update], for a living tree: the tree aged by a year
    and stressed ([aged]), grown unless growth is disabled, or dead of one
    of the six causes. *)
Lemma ClassTree_update_shape (environment : ClassTree.Env)
    (tr : ClassTree.t) (h : ClassTree.Host) :
  ClassTree.alive tr = true ->
  exists aged : ClassTree.t,
    (ClassTree.age aged = ClassTree.age tr + 1
     /\ ClassTree.alive aged = true
     /\ ClassTree.height aged = ClassTree.height tr
     /\ ClassTree.waterStress aged
        = (if ClassTree.water_level environment
              <? ClassTree.drought_threshold environment
           then 1 - ClassTree.water_level environment
                    / ClassTree.drought_threshold environment
           else JS.Math_max 0 (ClassTree.waterStress tr - 0.05))
     /\ ClassTree.heatStress aged
        = (if ClassTree.temperature environment
              >? ClassTree.heat_stress_temp environment
           then (ClassTree.temperature environment
                 - ClassTree.heat_stress_temp environment) / 20
           else JS.Math_max 0 (ClassTree.heatStress tr - 0.05))
     /\ ClassTree.health aged
        = JS.Math_max 0
            (ClassTree.health tr
             - (ClassTree.waterStress aged + ClassTree.heatStress aged)
               * 0.5))
    /\ (fst (ClassTree.update environment tr h) = aged
        \/ fst (ClassTree.update environment tr h)
           = ClassTree.grow environment aged
        \/ exists cause : string,
             In cause ClassSimulation.causes
             /\ fst (ClassTree.update environment tr h)
                = ClassTree.die cause aged).
Proof.
  intros Ea. unfold ClassTree.update. rewrite Ea. cbn [negb].
  match goal with
  | |- context [ClassTree.calculateStress environment ?x] =>
      exists (ClassTree.calculateStress environment x);
      set (aged := ClassTree.calculateStress environment x)
  end.
  split; [repeat split|].
  clearbody aged.
  destruct (checkMortality_outcomes environment aged h) as [E | [c [Hc E]]];
    destruct (ClassTree.checkMortality environment aged h) as [[dead tr'] h'];
    cbn [fst] in E; injection E as -> ->.
  - destruct (ClassTree.enable_growth environment); cbn [fst]; tauto.
  - right. right. exists c. split; [exact Hc | reflexivity].
Qed.

(** X22.  In the class [Tree] the health only declines.  For a positive
    drought threshold and a tree whose health and stresses are not
    negative, [update] leaves the stresses not negative and the health
    between 0 and what it was: nothing in the class restores health.
    What [update] returns for a dead tree is the tree itself, and no
    [Math.random()] is taken. *)
Theorem class_Tree_health_only_declines (environment : ClassTree.Env)
    (tr : ClassTree.t) (h : ClassTree.Host) :
  0 < ClassTree.drought_threshold environment ->
  0 <= ClassTree.health tr ->
  0 <= ClassTree.waterStress tr -> 0 <= ClassTree.heatStress tr ->
  let tr' := fst (ClassTree.update environment tr h) in
  0 <= ClassTree.health tr' <= ClassTree.health tr
  /\ 0 <= ClassTree.waterStress tr' /\ 0 <= ClassTree.heatStress tr'
  /\ (ClassTree.alive tr = false ->
      ClassTree.update environment tr h = (tr, h)).
Proof.
  intros Hth Hh Hw Ht tr'. subst tr'.
  destruct (ClassTree.alive tr) eqn:Ea.
  - destruct (ClassTree_update_shape environment tr h Ea)
      as [aged [[_ [_ [_ [Ews [Ehs Ehe]]]]] Hcases]].
    assert (Hws : 0 <= ClassTree.waterStress aged).
    { rewrite Ews.
      destruct (ClassTree.water_level environment
                <? ClassTree.drought_threshold environment) eqn:E;
        [apply ltb_true in E | apply Rmax_l].
      assert (ClassTree.water_level environment
              / ClassTree.drought_threshold environment < 1).
      { apply Rmult_lt_reg_r with (ClassTree.drought_threshold environment);
          [exact Hth|].
        unfold Rdiv. rewrite Rmult_assoc, Rinv_l by lra. lra. }
      lra. }
    assert (Hhs : 0 <= ClassTree.heatStress aged).
    { rewrite Ehs.
      destruct (ClassTree.temperature environment
                >? ClassTree.heat_stress_temp environment) eqn:E;
        [apply gtb_true in E; lra | apply Rmax_l]. }
    assert (Hhe : 0 <= ClassTree.health aged <= ClassTree.health tr).
    { rewrite Ehe. unfold JS.Math_max, Rmax.
      destruct (Rle_dec _ _); lra. }
    destruct Hcases as [-> | [-> | [c [_ ->]]]];
      cbn [ClassTree.grow ClassTree.die ClassTree.health
           ClassTree.waterStress ClassTree.heatStress];
      (split; [exact Hhe|]; split; [exact Hws|]; split;
       [exact Hhs | discriminate]).
  - unfold ClassTree.update. rewrite Ea. cbn [negb fst].
    repeat split; try lra; reflexivity.
Qed.

Lemma class_Tree_health_only_declines_witness :
  0 <= ClassTree.health
         (fst (ClassTree.update classEnvironment classTree0
                 (constantHost 0.5)))
  <= ClassTree.health classTree0.
Proof.
  refine (proj1 (class_Tree_health_only_declines classEnvironment classTree0
                   (constantHost 0.5) _ _ _ _));
    cbn [classEnvironment classTree0 ClassTree.drought_threshold
         ClassTree.health ClassTree.waterStress ClassTree.heatStress]; lra.
Defined.
Lemma living_cons (tr : ClassTree.t) (trees : list ClassTree.t) :
  ClassSimulation.living (tr :: trees)
  = ((if ClassTree.alive tr then 1 else 0)
     + ClassSimulation.living trees)%Z.
Proof.
  unfold ClassSimulation.living. cbn [filter].
  destruct (ClassTree.alive tr); cbn [List.length]; lia.
Qed.

(** A table with the six causes as its keys counts a death of any of
    them. *)
Lemma increment_counted (o : list (string * Z)) (cause : string) :
  map fst o = ClassSimulation.causes ->
  In cause ClassSimulation.causes ->
  String.eqb cause "" = false
  /\ ClassSimulation.hasOwnProperty o cause = true
  /\ map fst (ClassSimulation.increment o cause) = ClassSimulation.causes
  /\ ClassSimulation.counted (ClassSimulation.increment o cause)
     = (ClassSimulation.counted o + 1)%Z.
Proof.
  unfold ClassSimulation.causes. intros Hk Hc.
  destruct o as [|[k1 v1] [|[k2 v2] [|[k3 v3] [|[k4 v4] [|[k5 v5]
    [|[k6 v6] [|]]]]]]]; try discriminate.
  cbn [map fst] in Hk. injection Hk as -> -> -> -> -> ->.
  cbn [In] in Hc.
  unfold ClassSimulation.hasOwnProperty, ClassSimulation.increment,
    ClassSimulation.counted.
  destruct Hc as [<- | [<- | [<- | [<- | [<- | [<- | []]]]]]];
    cbn; repeat split; lia.
Qed.

Lemma visit_counts (environment : ClassTree.Env) (s : ClassSimulation.Loop)
    (tr : ClassTree.t) :
  map fst (ClassSimulation.byCause s) = ClassSimulation.causes ->
  let s' := ClassSimulation.visit environment s tr in
  exists tr' : ClassTree.t,
    ClassSimulation.updated s' = ClassSimulation.updated s ++ [tr']
    /\ map fst (ClassSimulation.byCause s') = ClassSimulation.causes
    /\ (ClassSimulation.deaths s' - ClassSimulation.deaths s
        = (if ClassTree.alive tr then 1 else 0)
          - (if ClassTree.alive tr' then 1 else 0))%Z
    /\ (ClassSimulation.counted (ClassSimulation.byCause s')
        - ClassSimulation.counted (ClassSimulation.byCause s)
        = ClassSimulation.deaths s' - ClassSimulation.deaths s)%Z
    /\ ClassSimulation.alive s'
       = (ClassSimulation.alive s
          + (if ClassTree.alive tr' then 1 else 0))%Z.
Proof.
  intros Hk. cbv zeta. unfold ClassSimulation.visit.
  pose proof (ClassTree_update_cases environment tr
                (ClassSimulation.host s)) as H.
  destruct (ClassTree.update environment tr (ClassSimulation.host s))
    as [tr' h'].
  cbn [fst] in H. exists tr'.
  cbn [ClassSimulation.updated ClassSimulation.byCause
       ClassSimulation.deaths ClassSimulation.alive].
  destruct H as [[Ea E] | [[Ea [Ea' _]] | [Ea [Ea' [[c [Hc Ec]] _]]]]].
  - injection E as -> ->. rewrite Ea. cbn [andb].
    repeat split; try assumption; lia.
  - rewrite Ea, Ea'. cbn [andb negb].
    repeat split; try assumption; lia.
  - rewrite Ea, Ea', Ec. cbn [andb negb].
    destruct (increment_counted _ c Hk Hc) as [-> [-> [Hk' Hn]]].
    cbn [negb andb]. repeat split; try assumption; lia.
Qed.

Lemma visit_all (environment : ClassTree.Env) (trees : list ClassTree.t) :
  forall s : ClassSimulation.Loop,
    map fst (ClassSimulation.byCause s) = ClassSimulation.causes ->
    let s' := fold_left (ClassSimulation.visit environment) trees s in
    exists new : list ClassTree.t,
      ClassSimulation.updated s' = ClassSimulation.updated s ++ new
      /\ List.length new = List.length trees
      /\ map fst (ClassSimulation.byCause s') = ClassSimulation.causes
      /\ (ClassSimulation.deaths s' - ClassSimulation.deaths s
          = ClassSimulation.living trees - ClassSimulation.living new)%Z
      /\ (ClassSimulation.counted (ClassSimulation.byCause s')
          - ClassSimulation.counted (ClassSimulation.byCause s)
          = ClassSimulation.deaths s' - ClassSimulation.deaths s)%Z
      /\ ClassSimulation.alive s'
         = (ClassSimulation.alive s + ClassSimulation.living new)%Z.
Proof.
  induction trees as [|tr trees IH]; intros s Hk; cbn [fold_left].
  - exists []. rewrite app_nil_r.
    repeat split; try assumption; unfold ClassSimulation.living; cbn; lia.
  - destruct (visit_counts environment s tr Hk)
      as [tr' [Eu [Hk1 [Hd [Hc Ha]]]]].
    destruct (IH (ClassSimulation.visit environment s tr) Hk1)
      as [new [Eu' [Hl [Hk2 [Hd' [Hc' Ha']]]]]].
    exists (tr' :: new).
    rewrite Eu', Eu, <- app_assoc. cbn [app List.length].
    rewrite !living_cons.
    repeat split; try assumption; lia.
Qed.

(** X23.  The statistics of the class [Simulation] are consistent.  When
    the table of deaths has the six causes of the constructor as its
    keys, [update] keeps the number of trees and the keys; it counts as
    alive exactly the trees that are alive after it; it adds to
    [totalDeaths] exactly the number of trees that died in it; every one
    of these deaths is counted under a cause; and with no tree alive the
    average age is 0, not a division by zero. *)
Theorem simulation_stats_are_consistent (environment : ClassTree.Env)
    (trees : list ClassTree.t) (stats : ClassSimulation.Stats)
    (h : ClassTree.Host) :
  map fst (ClassSimulation.deathsByCause stats) = ClassSimulation.causes ->
  let r := ClassSimulation.update environment trees stats h in
  let trees' := fst (fst r) in
  let stats' := snd (fst r) in
  List.length trees' = List.length trees
  /\ ClassSimulation.aliveCount stats' = ClassSimulation.living trees'
  /\ (ClassSimulation.totalDeaths stats' - ClassSimulation.totalDeaths stats
      = ClassSimulation.living trees - ClassSimulation.living trees')%Z
  /\ (ClassSimulation.counted (ClassSimulation.deathsByCause stats')
      - ClassSimulation.counted (ClassSimulation.deathsByCause stats)
      = ClassSimulation.totalDeaths stats'
        - ClassSimulation.totalDeaths stats)%Z
  /\ map fst (ClassSimulation.deathsByCause stats') = ClassSimulation.causes
  /\ (ClassSimulation.living trees' = 0%Z ->
      ClassSimulation.averageAge stats' = 0).
Proof.
  intros Hk r trees' stats'. subst trees' stats' r.
  unfold ClassSimulation.update. cbv zeta.
  destruct (visit_all environment trees
              {| ClassSimulation.updated := [];
                 ClassSimulation.host := h;
                 ClassSimulation.deaths := ClassSimulation.totalDeaths stats;
                 ClassSimulation.byCause :=
                   ClassSimulation.deathsByCause stats;
                 ClassSimulation.alive := 0;
                 ClassSimulation.totalAge := 0 |} Hk)
    as [new [Eu [Hl [Hk' [Hd [Hc Ha]]]]]].
  cbv zeta in Eu, Hl, Hk', Hd, Hc, Ha.
  set (s := fold_left _ _ _) in *. clearbody s.
  cbn [fst snd ClassSimulation.updated ClassSimulation.byCause
       ClassSimulation.deaths ClassSimulation.alive
       ClassSimulation.totalDeaths ClassSimulation.deathsByCause
       ClassSimulation.aliveCount ClassSimulation.averageAge] in *.
  rewrite Eu. cbn [app].
  repeat split; try assumption; try lia.
  intros H0. rewrite Ha, H0. reflexivity.
Qed.

Lemma simulation_stats_are_consistent_witness :
  List.length
    (fst (fst (ClassSimulation.update classEnvironment
                 [classTree0; classTree0] ClassSimulation.stats0
                 (constantHost 0.5))))
  = List.length [classTree0; classTree0].
Proof.
  refine (proj1 (simulation_stats_are_consistent classEnvironment
                   [classTree0; classTree0] ClassSimulation.stats0
                   (constantHost 0.5) _)).
  reflexivity.
Defined.

(** ** Saving and restoring (js/tree.js, exportTreeData and importTreeData) *)

Lemma slice_last_length {A : Type} (n : nat) (array : list A) :
  List.length (slice_last n array) = Nat.min n (List.length array).
Proof. unfold slice_last. rewrite length_skipn. lia. Qed.

(** X24.  What a save restores.  Importing what [exportTreeData] returned
    for a page [g], into any later page [g2], succeeds and restores the
    age, health, height, diameter, species and gas totals of the tree and
    the year and the day of the environment; the biomass becomes what the
    shared biomass object holds; the health history is the last 100
    samples of [g]; and the generator restarts from its seed, not from
    the state it had when the save was made.  Everything else stays as
    in [g2]: among it the days since birth, the rings, the cause of
    death and the season.  Data without the version "2.0" are refused and
    change nothing. *)
Theorem save_restores (now : Z) (g g2 : Global) (b : Biomass.t) :
  let r := importTreeData (Some (holding b (exportTreeData now g))) g2 in
  let t := tree g in
  let t' := tree (snd r) in
  fst r = true
  /\ (age (temporal t') = age (temporal t)
      /\ health (vitality t') = health (vitality t)
      /\ height (morphology t') = height (morphology t)
      /\ dbh (morphology t') = dbh (morphology t)
      /\ species t' = species t
      /\ co2Absorbed (carbon t') = co2Absorbed (carbon t)
      /\ o2Produced (carbon t') = o2Produced (carbon t))
  /\ biomass t' = b
  /\ (year (environment (snd r)) = year (environment g)
      /\ dayOfYear (environment (snd r)) = dayOfYear (environment g))
  /\ (healthHistory (snd r) = slice_last 100 (healthHistory g)
      /\ (List.length (healthHistory (snd r)) <= 100)%nat)
  /\ prngState (snd r)
     = {| PRNG.seed := PRNG.seed (prngState g);
          PRNG.state := PRNG.seed (prngState g) |}
  /\ (daysSinceBirth (temporal t') = daysSinceBirth (temporal (tree g2))
      /\ annual t' = annual (tree g2)
      /\ deathCause t' = deathCause (tree g2)
      /\ mortality t' = mortality (tree g2)
      /\ visual t' = visual (tree g2)
      /\ season (environment (snd r)) = season (environment g2)
      /\ simulationState (snd r) = simulationState g2)
  /\ (forall d : Save.t,
        Save.version d <> "2.0"%string ->
        importTreeData (Some d) g2 = (false, g2))
  /\ importTreeData None g2 = (false, g2).
Proof.
  cbv zeta.
  split; [reflexivity|]. split; [repeat split|]. split; [reflexivity|].
  split; [split; reflexivity|].
  split.
  { split; [reflexivity|].
    cbn [importTreeData holding exportTreeData Save.version String.eqb
         Ascii.eqb Bool.eqb negb snd healthHistory Save.healthHistory].
    rewrite slice_last_length. apply Nat.le_min_l. }
  split; [reflexivity|]. split; [repeat split|].
  split; [|reflexivity].
  intros d Hv. unfold importTreeData.
  replace (String.eqb (Save.version d) "2.0") with false
    by (symmetry; apply String.eqb_neq; exact Hv).
  reflexivity.
Qed.

Lemma slice_last_idempotent {A : Type} (n : nat) (array : list A) :
  slice_last n (slice_last n array) = slice_last n array.
Proof.
  unfold slice_last at 1. rewrite slice_last_length.
  replace (Nat.min n (List.length array) - n)%nat with 0%nat by lia.
  reflexivity.
Qed.

(** X25.  A save that is imported at once, into the page it was made
    from, leaves the tree, the environment and the run state exactly as
    they are: only the generator (restarted from its seed) and the health
    history (cut to its last 100 samples) change, and saving again gives
    the same save. *)
Theorem save_round_trip (now : Z) (g : Global) :
  let r := importTreeData (Some (exportTreeData now g)) g in
  fst r = true
  /\ tree (snd r) = tree g
  /\ environment (snd r) = environment g
  /\ simulationState (snd r) = simulationState g
  /\ PRNG.state (prngState (snd r)) = PRNG.seed (prngState g)
  /\ healthHistory (snd r) = slice_last 100 (healthHistory g)
  /\ exportTreeData now (snd r) = exportTreeData now g.
Proof.
  cbv zeta. split; [reflexivity|].
  destruct g as [t e p s h].
  destruct t as [[a d gd] [hg db cr ch rd rs tt] ls [he vi wc nl sl dl] bm
                 [co o2 wt cs] an vs ph sp mo dc].
  destruct e.
  split; [reflexivity|]. split; [reflexivity|]. split; [reflexivity|].
  split; [reflexivity|]. split; [reflexivity|].
  unfold exportTreeData, importTreeData.
  cbn [Save.version String.eqb Ascii.eqb Bool.eqb negb snd healthHistory
       Save.healthHistory].
  rewrite slice_last_idempotent. reflexivity.
Qed.

(** ** A frame of the scheduler is a run of substeps *)

(** A substep reads two fields of the scheduler's record: the substep
    size, and the frame count (for the health history). *)
Lemma updateBiology_on_clock (cfg : CONFIG.Disturbance) (dt : R)
    (s : SimulationState) (g : Global) :
  frameCount s = frameCount (simulationState g) ->
  updateBiology cfg dt (on_clock s g) = on_clock s (updateBiology cfg dt g).
Proof.
  intros Hf. destruct g as [t e p s0 h]. cbn [simulationState] in Hf.
  unfold updateBiology, on_clock, recordHealth.
  cbn [tree environment prngState simulationState healthHistory].
  rewrite Hf.
  repeat split_if; reflexivity.
Qed.

Lemma substep_on_clock (cfg : CONFIG.Disturbance) (ui : UI.t)
    (s : SimulationState) (g : Global) :
  substepTime s = substepTime (simulationState g) ->
  frameCount s = frameCount (simulationState g) ->
  substep cfg ui (on_clock s g) = on_clock s (substep cfg ui g).
Proof.
  intros Hs Hf. unfold substep. cbv zeta.
  cbn [on_clock tree environment prngState simulationState healthHistory].
  rewrite Hs.
  match goal with
  | |- updateBiology cfg ?dt ?a = on_clock s (updateBiology cfg ?dt ?b) =>
      change a with (on_clock s b)
  end.
  apply updateBiology_on_clock. exact Hf.
Qed.

Lemma run_snoc (cfg : CONFIG.Disturbance) (uis : list UI.t) (ui : UI.t)
    (g : Global) :
  run cfg (uis ++ [ui]) g = substep cfg ui (run cfg uis g).
Proof. unfold run. rewrite fold_left_app. reflexivity. Qed.

Lemma run_simulationState (cfg : CONFIG.Disturbance) (uis : list UI.t)
    (g : Global) :
  simulationState (run cfg uis g) = simulationState g.
Proof.
  revert g. induction uis as [|ui uis IH]; intros g; [reflexivity|].
  change (run cfg (ui :: uis) g) with (run cfg uis (substep cfg ui g)).
  rewrite IH. apply substep_simulationState.
Qed.

Lemma repeat_snoc {A : Type} (a : A) (n : nat) :
  repeat a n ++ [a] = repeat a (S n).
Proof.
  induction n as [|n IH]; [reflexivity|].
  cbn [repeat app]. rewrite IH. reflexivity.
Qed.

Lemma physicsLoop_is_a_run (cfg : CONFIG.Disturbance) (ui : UI.t)
    (remaining : nat) :
  forall (substeps k : nat) (s : SimulationState) (g : Global),
    substepTime s = substepTime (simulationState g) ->
    frameCount s = frameCount (simulationState g) ->
    exists (n : nat) (s' : SimulationState),
      (n <= remaining)%nat
      /\ physicsLoop remaining (substep cfg ui) substeps
           (on_clock s (run cfg (repeat ui k) g))
         = ((substeps + n)%nat, on_clock s' (run cfg (repeat ui (k + n)) g))
      /\ substepTime s' = substepTime s
      /\ frameCount s' = frameCount s
      /\ running s' = running s
      /\ paused s' = paused s
      /\ time s' = time s
      /\ lastFrameTime s' = lastFrameTime s
      /\ fps s' = fps s
      /\ (n = 0%nat -> s' = s).
Proof.
  induction remaining as [|r IH]; intros c k s g Hs Hf.
  - exists 0%nat, s. rewrite !Nat.add_0_r. cbn [physicsLoop].
    repeat split; reflexivity.
  - cbn [physicsLoop]. cbn [on_clock simulationState].
    destruct (physicsAccumulator s >=? substepTime s).
    + rewrite substep_on_clock
        by (rewrite run_simulationState; assumption).
      rewrite <- run_snoc, repeat_snoc.
      set (s1 := {| running := running s; paused := paused s;
                    time := time s; lastFrameTime := lastFrameTime s;
                    fps := fps s; frameCount := frameCount s;
                    physicsAccumulator := physicsAccumulator s - substepTime s;
                    substepTime := substepTime s |}).
      change (consume (on_clock s (run cfg (repeat ui (S k)) g)))
        with (on_clock s1 (run cfg (repeat ui (S k)) g)).
      destruct (IH (S c) (S k) s1 g Hs Hf)
        as (n & s' & Hn & E & H1 & H2 & H3 & H4 & H5 & H6 & H7 & _).
      exists (S n), s'. rewrite E.
      replace (S c + n)%nat with (c + S n)%nat by lia.
      replace (S k + n)%nat with (k + S n)%nat by lia.
      repeat split; try assumption; lia.
    + exists 0%nat, s. rewrite !Nat.add_0_r.
      repeat split; try reflexivity. lia.
Qed.

(** X26.  A frame of [animationLoop] is a run of at most ten substeps,
    all with the controls as they are at that frame: the tree, the
    environment and the health history after the frame are those after
    [n <= 10] substeps.  When the simulation is paused or not running
    [n = 0], and the simulated time and the accumulator stay as they
    are.  In every case the frame is counted and stamped, and the
    substep size and the two flags are kept. *)
Theorem frame_is_a_run (cfg : CONFIG.Disturbance)
    (render : Global -> PRNG.prngState) (ui : UI.t) (timestamp : R)
    (g : Global) :
  exists n : nat,
    (n <= 10)%nat
    /\ (let g' := animationLoop cfg render ui timestamp g in
        let r := run cfg (repeat ui n) g in
        let s := simulationState g in
        let s' := simulationState g' in
        tree g' = tree r
        /\ environment g' = environment r
        /\ healthHistory g' = healthHistory r
        /\ (running s && negb (paused s) = false ->
            n = 0%nat
            /\ time s' = time s
            /\ physicsAccumulator s' = physicsAccumulator s)
        /\ frameCount s' = (frameCount s + 1)%Z
        /\ lastFrameTime s' = timestamp
        /\ substepTime s' = substepTime s
        /\ running s' = running s
        /\ paused s' = paused s).
Proof.
  unfold animationLoop. cbv zeta.
  set (s0 := {| running := running (simulationState g);
                paused := paused (simulationState g);
                time := time (simulationState g);
                lastFrameTime := timestamp;
                fps := fps (simulationState g);
                frameCount := frameCount (simulationState g);
                physicsAccumulator := physicsAccumulator (simulationState g);
                substepTime := substepTime (simulationState g) |}).
  set (deltaTime := _ / 1000 * getTimeSpeed ui).
  match goal with
  | |- context [fixedTimestep (substep cfg ui) deltaTime ?g0] =>
      change g0 with (on_clock s0 (run cfg (repeat ui 0) g))
  end.
  unfold fixedTimestep. cbn [on_clock simulationState].
  change (running s0) with (running (simulationState g)).
  change (paused s0) with (paused (simulationState g)).
  destruct (running (simulationState g) && negb (paused (simulationState g)))
    eqn:Hrun.
  - set (s1 := {| running := running (simulationState g);
                  paused := paused (simulationState g);
                  time := time s0; lastFrameTime := lastFrameTime s0;
                  fps := fps s0; frameCount := frameCount s0;
                  physicsAccumulator := physicsAccumulator s0 + deltaTime;
                  substepTime := substepTime s0 |}).
    cbn [tree environment prngState healthHistory].
    match goal with
    | |- context [physicsLoop maxSubsteps (substep cfg ui) 0 ?g1] =>
        change g1 with (on_clock s1 (run cfg (repeat ui 0) g))
    end.
    destruct (physicsLoop_is_a_run cfg ui maxSubsteps 0 0 s1 g
                eq_refl eq_refl)
      as (n & s' & Hn & E & H1 & H2 & H3 & H4 & _ & H6 & _).
    rewrite E. exists n. split; [exact Hn|].
    cbn [fst snd on_clock tree environment healthHistory simulationState
         frameCount lastFrameTime substepTime running paused Nat.add].
    rewrite H1, H2, H3, H4, H6.
    split; [reflexivity|]. split; [reflexivity|]. split; [reflexivity|].
    split; [discriminate|].
    repeat split; reflexivity.
  - exists 0%nat. split; [lia|].
    cbn [snd on_clock tree environment healthHistory simulationState
         frameCount lastFrameTime substepTime running paused time
         physicsAccumulator repeat].
    repeat split; reflexivity.
Qed.

(** ** The series of the graphs (js/tree.js) *)

Lemma tl_skipn {A : Type} (k : nat) (l : list A) :
  tl (skipn k l) = skipn (S k) l.
Proof.
  revert l. induction k as [|k IH]; intros [|a l]; try reflexivity.
  cbn [skipn]. rewrite IH. destruct l; reflexivity.
Qed.

(** Appending a sample to the last [n] samples and dropping the oldest
    one when that makes more than [n], gives the last [n] samples again. *)
Lemma push_then_shift {A : Type} (n : nat) (all : list A) (x : A) :
  (0 < n)%nat ->
  (if Nat.ltb n (List.length (slice_last n all ++ [x]))
   then tl (slice_last n all ++ [x])
   else slice_last n all ++ [x])
  = slice_last n (all ++ [x]).
Proof.
  intros Hn. unfold slice_last.
  rewrite !length_app, length_skipn. cbn [List.length].
  destruct (Nat.ltb_spec n
              (List.length all - (List.length all - n) + 1)) as [H|H].
  - assert (Hk : (List.length all + 1 - n = S (List.length all - n))%nat)
      by lia.
    rewrite Hk, skipn_app, <- tl_skipn.
    replace (S (List.length all - n) - List.length all)%nat
      with 0%nat by lia.
    cbn [skipn].
    destruct (skipn (List.length all - n) all) as [|a l] eqn:E;
      [|reflexivity].
    apply (f_equal (@List.length A)) in E. rewrite length_skipn in E.
    cbn [List.length] in E. lia.
  - replace (List.length all - n)%nat with 0%nat by lia.
    replace (List.length all + 1 - n)%nat with 0%nat by lia.
    reflexivity.
Qed.

Lemma environmentHistory_last (es : list Environment) :
  fold_left (fun h e => updateEnvironmentHistory e h) es
    EnvironmentHistory.empty
  = {| EnvironmentHistory.temperature :=
         slice_last CONFIG.MAX_HISTORY (map temperature es);
       EnvironmentHistory.water :=
         slice_last CONFIG.MAX_HISTORY (map waterAvailability es);
       EnvironmentHistory.stress :=
         slice_last CONFIG.MAX_HISTORY (map totalStress es) |}.
Proof.
  induction es as [|e es IH] using rev_ind; [reflexivity|].
  rewrite fold_left_app. cbn [fold_left]. rewrite IH.
  unfold updateEnvironmentHistory. cbv zeta.
  cbn [EnvironmentHistory.temperature EnvironmentHistory.water
       EnvironmentHistory.stress].
  rewrite !map_app. cbn [map].
  assert (Hn : (0 < CONFIG.MAX_HISTORY)%nat)
    by (unfold CONFIG.MAX_HISTORY; lia).
  rewrite <- !(push_then_shift CONFIG.MAX_HISTORY _ _ Hn).
  unfold slice_last. rewrite !length_app, !length_skipn, !length_map.
  destruct (Nat.ltb _ _); reflexivity.
Qed.

Lemma biomassHistory_last (ts : list Tree) :
  fold_left (fun h t => updateBiomassHistory t h) ts BiomassHistory.empty
  = {| BiomassHistory.trunk :=
         slice_last CONFIG.MAX_HISTORY
           (map (fun t => Biomass.trunk (biomass t)) ts);
       BiomassHistory.branches :=
         slice_last CONFIG.MAX_HISTORY
           (map (fun t => Biomass.branches (biomass t)) ts);
       BiomassHistory.leaves :=
         slice_last CONFIG.MAX_HISTORY
           (map (fun t => Biomass.leaves (biomass t)) ts);
       BiomassHistory.roots :=
         slice_last CONFIG.MAX_HISTORY
           (map (fun t => Biomass.roots (biomass t)) ts) |}.
Proof.
  induction ts as [|t ts IH] using rev_ind; [reflexivity|].
  rewrite fold_left_app. cbn [fold_left]. rewrite IH.
  unfold updateBiomassHistory. cbv zeta.
  cbn [BiomassHistory.trunk BiomassHistory.branches BiomassHistory.leaves
       BiomassHistory.roots].
  rewrite !map_app. cbn [map].
  assert (Hn : (0 < CONFIG.MAX_HISTORY)%nat)
    by (unfold CONFIG.MAX_HISTORY; lia).
  rewrite <- !(push_then_shift CONFIG.MAX_HISTORY _ _ Hn).
  unfold slice_last. rewrite !length_app, !length_skipn, !length_map.
  destruct (Nat.ltb _ _); reflexivity.
Qed.

(** X27.  The series of the two graphs hold the last 600 samples: from
    empty series, after any number of calls of [updateEnvironmentHistory]
    (one per environment in [es]) and of [updateBiomassHistory] (one per
    tree in [ts]), each series is the last [MAX_HISTORY] recorded values
    of its quantity, oldest first; so the series of one graph stay
    equally long and never exceed 600 samples. *)
Theorem graph_series_hold_last_samples (es : list Environment)
    (ts : list Tree) :
  let eh :=
    fold_left (fun h e => updateEnvironmentHistory e h) es
      EnvironmentHistory.empty in
  let bh :=
    fold_left (fun h t => updateBiomassHistory t h) ts
      BiomassHistory.empty in
  (EnvironmentHistory.temperature eh = slice_last 600 (map temperature es)
   /\ EnvironmentHistory.water eh
      = slice_last 600 (map waterAvailability es)
   /\ EnvironmentHistory.stress eh = slice_last 600 (map totalStress es))
  /\ (BiomassHistory.trunk bh
      = slice_last 600 (map (fun t => Biomass.trunk (biomass t)) ts)
      /\ BiomassHistory.branches bh
         = slice_last 600 (map (fun t => Biomass.branches (biomass t)) ts)
      /\ BiomassHistory.leaves bh
         = slice_last 600 (map (fun t => Biomass.leaves (biomass t)) ts)
      /\ BiomassHistory.roots bh
         = slice_last 600 (map (fun t => Biomass.roots (biomass t)) ts))
  /\ (List.length (EnvironmentHistory.temperature eh)
      = Nat.min 600 (List.length es)
      /\ List.length (EnvironmentHistory.water eh)
         = Nat.min 600 (List.length es)
      /\ List.length (EnvironmentHistory.stress eh)
         = Nat.min 600 (List.length es))
  /\ (List.length (BiomassHistory.trunk bh) = Nat.min 600 (List.length ts)
      /\ List.length (BiomassHistory.branches bh)
         = Nat.min 600 (List.length ts)
      /\ List.length (BiomassHistory.leaves bh)
         = Nat.min 600 (List.length ts)
      /\ List.length (BiomassHistory.roots bh)
         = Nat.min 600 (List.length ts)).
Proof.
  cbv zeta. rewrite environmentHistory_last, biomassHistory_last.
  cbn [EnvironmentHistory.temperature EnvironmentHistory.water
       EnvironmentHistory.stress BiomassHistory.trunk
       BiomassHistory.branches BiomassHistory.leaves BiomassHistory.roots].
  change CONFIG.MAX_HISTORY with 600%nat.
  rewrite !slice_last_length, !length_map.
  repeat split.
Qed.

(** ** The leaf clusters (js/tree.js, generateLeafClusters) *)

Lemma random2_range (p : PRNG.prngState) (lo hi : R) :
  PRNG.valid p -> lo < hi ->
  lo <= fst (PRNG.random2 lo hi p) < hi
  /\ PRNG.valid (snd (PRNG.random2 lo hi p)).
Proof.
  intros Hp Hlt. destruct (random_range p Hp) as [Hr Hv].
  unfold PRNG.random2, PRNG.bind, PRNG.ret.
  destruct (PRNG.random p) as [r p']. cbn [fst snd] in *.
  split; [|exact Hv]. split; nra.
Qed.

(** X28.  The leaf clusters lie in the canopy.  On a generator state in
    [0, 2^32), [generateLeafClusters] replaces the clusters of the tree by
    at most [floor(LEAF_CLUSTER_COUNT + 12 * height)] new ones; every
    cluster passed the canopy test (its distance from the axis is at most
    1.2 times the radius expected at its height), and its size, density,
    hue shift and sway are in the ranges they are drawn from; nothing
    else of the tree changes, and the generator state stays in
    [0, 2^32). *)
Theorem leaf_clusters_lie_in_canopy (t : Tree) (p : PRNG.prngState) :
  PRNG.valid p ->
  let r := generateLeafClusters t p in
  let cs := leafClusters (visual (fst r)) in
  (List.length cs
   <= JS.passes
        (JS.Math_floor
           (CONFIG.LEAF_CLUSTER_COUNT + height (morphology t) * 12)))%nat
  /\ Forall (cluster_made t) cs
  /\ PRNG.valid (snd r)
  /\ fst r = set_leafClusters cs t.
Proof.
  intros Hp. cbv zeta.
  pattern (generateLeafClusters t p).
  match goal with
  | |- ?Q _ => set (whole := Q)
  end.
  unfold generateLeafClusters. cbv zeta.
  unfold PRNG.bind at 1. unfold for_rand.
  match goal with
  | |- context [for_loop ?n ?body (?a, p)] =>
      pose proof
        (for_loop_invariant
           (fun (i : nat) st =>
              (List.length (fst st) <= i)%nat
              /\ Forall (cluster_made t) (fst st)
              /\ PRNG.valid (snd st))
           n body (a, p)) as Hinv;
      destruct (for_loop n body (a, p)) as [cs q]
  end.
  cbn [fst snd] in Hinv.
  destruct Hinv as [Hl [Hm Hq]].
  - split; [apply Nat.le_refl|]. split; [constructor | exact Hp].
  - intros i [cs1 q1] _ [Hl [Hm Hq]]. cbn [fst snd] in *.
    match goal with
    | |- context [snd ?c] => pattern c
    end.
    match goal with
    | |- ?Q _ => set (post := Q)
    end.
    unfold PRNG.bind at 1.
    destruct (random2_range q1 0 (PI * 2) Hq) as [_ Hv1];
      [pose proof PI_RGT_0; lra|].
    destruct (PRNG.random2 0 (PI * 2) q1) as [phi q2]. cbn [snd] in Hv1.
    unfold PRNG.bind at 1.
    destruct (random2_range q2 0 (PI * 0.6) Hv1) as [_ Hv2];
      [pose proof PI_RGT_0; lra|].
    destruct (PRNG.random2 0 (PI * 0.6) q2) as [theta q3]. cbn [snd] in Hv2.
    unfold PRNG.bind at 1.
    destruct (random2_range q3 0.3 1.0 Hv2) as [_ Hv3]; [lra|].
    destruct (PRNG.random2 0.3 1.0 q3) as [r01 q4]. cbn [snd] in Hv3.
    cbv zeta.
    match goal with
    | |- context [if ?c then _ else _] => destruct c eqn:Etest
    end.
    + apply leb_true in Etest.
      unfold PRNG.bind at 1.
      destruct (random2_range q4 0.8 1.5 Hv3) as [Hs Hv4]; [lra|].
      destruct (PRNG.random2 0.8 1.5 q4) as [size q5]. cbn [fst snd] in Hs, Hv4.
      unfold PRNG.bind at 1.
      destruct (random2_range q5 0.6 1.0 Hv4) as [Hd Hv5]; [lra|].
      destruct (PRNG.random2 0.6 1.0 q5) as [density q6].
      cbn [fst snd] in Hd, Hv5.
      unfold PRNG.bind at 1.
      destruct (random2_range q6 (-10) 10 Hv5) as [Hh Hv6]; [lra|].
      destruct (PRNG.random2 (-10) 10 q6) as [hueShift q7].
      cbn [fst snd] in Hh, Hv6.
      unfold PRNG.bind at 1.
      destruct (random2_range q7 0 (PI * 2) Hv6) as [Hw Hv7];
        [pose proof PI_RGT_0; lra|].
      destruct (PRNG.random2 0 (PI * 2) q7) as [swayPhase q8].
      cbn [fst snd] in Hw, Hv7.
      unfold PRNG.bind at 1.
      destruct (random2_range q8 0.01 0.03 Hv7) as [Ha Hv8]; [lra|].
      destruct (PRNG.random2 0.01 0.03 q8) as [swayAmount q9].
      cbn [fst snd] in Ha, Hv8.
      unfold PRNG.ret. subst post. cbn [fst snd].
      split; [rewrite length_app; cbn [List.length]; lia|].
      split; [|exact Hv8].
      apply Forall_app. split; [exact Hm|].
      constructor; [|constructor].
      unfold cluster_made. cbv zeta.
      cbn [LeafCluster.x LeafCluster.y LeafCluster.z LeafCluster.size
           LeafCluster.density LeafCluster.hueShift LeafCluster.swayPhase
           LeafCluster.swayAmount LeafCluster.lightExposure].
      split; [exact Etest|]. split; [reflexivity|].
      split; [exists size; split; [lra | reflexivity]|].
      split; [exists density; split; [lra | reflexivity]|].
      split; [exact Hh|]. split; [exact Hw | exact Ha].
    + unfold PRNG.ret. subst post. cbn [fst snd].
      split; [lia|]. split; [exact Hm | exact Hv3].
  - unfold PRNG.ret. subst whole.
    cbn [fst snd set_leafClusters with_visual visual leafClusters].
    split; [exact Hl|]. split; [exact Hm|]. split; [exact Hq | reflexivity].
Qed.

Lemma leaf_clusters_lie_in_canopy_witness :
  PRNG.valid {| PRNG.seed := 12345; PRNG.state := 12345 |}
  /\ Forall (cluster_made tree0)
       (leafClusters
          (visual
             (fst (generateLeafClusters tree0
                     {| PRNG.seed := 12345; PRNG.state := 12345 |})))).
Proof.
  assert (Hp : PRNG.valid {| PRNG.seed := 12345; PRNG.state := 12345 |})
    by (unfold PRNG.valid; cbn [PRNG.state]; lia).
  split; [exact Hp|].
  apply (leaf_clusters_lie_in_canopy tree0 _ Hp).
Defined.
